(** * Savor Save: the order and expense ledger core

    A shallow embedding of the order-status, expense-ledger, budget-monitor
    and split-calculator code of the repository, with the properties its
    specification states about them.

    Sources embedded here:
    - [supabase/migrations/20260206000000_add_expense_tracker_features.sql]
      ([get_budget_usage], [cancel_expense], [split_expense_equally]);
    - [supabase/migrations/20260206010000_add_order_tracking_system.sql]
      ([update_order_status], the [orders] and [order_status_history]
      tables);
    - the [useOrderTracking] hook ([cancelOrder], [getOrderTrackingState]);
    - the [useFoodExpenses] hook ([splitExpenseEqually], [addExpense],
      the period totals) and the form handler [handleAddExpense].

    Number model.  SQL [DECIMAL] values are arbitrary-precision decimals.
    In [split_expense_equally] they are numerics with their display scale,
    and a quotient is rounded to the scale PostgreSQL selects for it; in
    [get_budget_usage], on amounts of two decimals, they are rationals
    ([Q]) with exact division.  Timestamps are integers (milliseconds
    since the epoch), and calendar boundaries are taken in UTC.  JavaScript
    numbers are binary64 floats: where rounding decides a property
    ([splitExpenseEqually]) they are modelled with the kernel's binary64
    floats, elsewhere (sums and comparisons of amounts) as rationals.
    JavaScript strings are held as the bytes of their UTF-8 encoding. *)

From Stdlib Require Import ZArith QArith Qround Lqa Lia Bool List.
From Stdlib Require Import Strings.String Strings.Ascii.
From Stdlib Require Import Floats.PrimFloat Floats.SpecFloat Floats.FloatOps.
From Stdlib Require Uint63.
From Stdlib Require Import Qabs Permutation Sorted.
Import ListNotations.

Set Implicit Arguments.

(* ------------------------------------------------------------------ *)
(** * SQL preliminaries *)

Module Sql.

(** Errors a PL/pgSQL function of this repository can raise. *)
Inductive sql_error : Type :=
| division_by_zero
| foreign_key_violation.

(** The outcome of a PL/pgSQL call: a value, or an exception that aborts
    the call and rolls back what it did. *)
Inductive result (A : Type) : Type :=
| Ok (a : A)
| Raise (e : sql_error).

Arguments Ok {A} a.
Arguments Raise {A} e.

Definition bind {A B} (m : result A) (k : A -> result B) : result B :=
  match m with
  | Ok a => k a
  | Raise e => Raise e
  end.

Definition timestamp := Z.
Definition uuid := string.

Local Open Scope Q_scope.

(** [SUM] over a column of non-null decimals, [COALESCE]d to 0. *)
Definition sum (l : list Q) : Q := fold_right Qplus 0 l.

(** [FLOOR(x)] on a decimal. *)
Definition FLOOR (x : Q) : Q := inject_Z (Qfloor x).

(** [ROUND(x, 2)]: PostgreSQL rounds a numeric half away from zero. *)
Definition ROUND2 (x : Q) : Q :=
  if Qle_bool 0 x
  then inject_Z (Qfloor (x * 100 + (1 # 2))) / 100
  else - (inject_Z (Qfloor (- x * 100 + (1 # 2))) / 100).

(** [NULLIF(x, 0)]. *)
Definition NULLIF0 (x : Q) : option Q :=
  if Qeq_bool x 0 then None else Some x.

(** ** Numerics

    A PostgreSQL [numeric]: the number and its display scale, the count of
    digits it carries after the decimal point.  Sums, differences and
    products are exact; a quotient is rounded to a scale chosen from the
    operands ([select_div_scale]), half away from zero. *)
Record numeric : Type := mkNumeric {
  val : Q;
  dscale : Z
}.

(** An [INTEGER] cast to [numeric]. *)
Definition of_integer (n : Z) : numeric := mkNumeric (inject_Z n) 0.

(** The weight of the first non-zero digit in base 10000: [w] with
    [10000^w <= |x| < 10000^(w+1)], and 0 for 0. *)
Fixpoint weight_up (fuel : nat) (n : Z) : Z :=
  match fuel with
  | O => 0
  | S fuel' =>
      if (n <? 10000)%Z then 0%Z else (1 + weight_up fuel' (n / 10000))%Z
  end.

Fixpoint weight_down (fuel : nat) (x : Q) : Z :=
  match fuel with
  | O => 0
  | S fuel' =>
      if Qle_bool 1 (x * 10000) then (-1)%Z
      else (weight_down fuel' (x * 10000) - 1)%Z
  end.

Definition weight (x : Q) : Z :=
  let a := Qabs x in
  if Qeq_bool a 0 then 0%Z
  else if Qle_bool 1 a
  then weight_up (S (Z.to_nat (Z.log2 (Qfloor a)))) (Qfloor a)
  else weight_down (Pos.size_nat (Qden a)) a.

(** The first non-zero digit in base 10000, and 0 for 0. *)
Definition first_digit (x : Q) : Z :=
  let a := Qabs x in
  let w := weight x in
  if (0 <=? w)%Z then Qfloor (a / inject_Z (10000 ^ w))
  else Qfloor (a * inject_Z (10000 ^ (- w))).

(** [select_div_scale]: at least 16 significant digits, no fewer digits
    than either operand shows, and between 0 and 1000. *)
Definition select_div_scale (a b : numeric) : Z :=
  let qweight :=
    (weight (val a) - weight (val b)
     - (if first_digit (val a) <=? first_digit (val b) then 1 else 0))%Z in
  Z.min (Z.max (Z.max (Z.max (16 - qweight * 4) (dscale a)) (dscale b)) 0)
        1000.

(** Rounding to [scale] digits after the point, half away from zero. *)
Definition round_at (x : Q) (scale : Z) : Q :=
  let p := inject_Z (10 ^ scale) in
  if Qle_bool 0 x
  then inject_Z (Qfloor (x * p + (1 # 2))) / p
  else - (inject_Z (Qfloor (- x * p + (1 # 2))) / p).

Definition numeric_div (a b : numeric) : result numeric :=
  if Qeq_bool (val b) 0 then Raise division_by_zero
  else
    let rscale := select_div_scale a b in
    Ok (mkNumeric (round_at (val a / val b) rscale) rscale).

Definition numeric_mul (a b : numeric) : numeric :=
  mkNumeric (val a * val b) (dscale a + dscale b).

Definition numeric_add (a b : numeric) : numeric :=
  mkNumeric (val a + val b) (Z.max (dscale a) (dscale b)).

Definition numeric_sub (a b : numeric) : numeric :=
  mkNumeric (val a - val b) (Z.max (dscale a) (dscale b)).

Definition numeric_floor (a : numeric) : numeric :=
  mkNumeric (inject_Z (Qfloor (val a))) 0.

End Sql.

Declare Scope sql_scope.
Delimit Scope sql_scope with sql.
Notation "x <- m ;; k" := (Sql.bind m (fun x => k))
  (at level 61, m at next level, right associativity) : sql_scope.


(* ------------------------------------------------------------------ *)
(** * JavaScript numbers *)

Module Js.

(** A JavaScript number is a binary64 float; [+], [-], [*] and [/] are
    the IEEE operations, rounded to nearest even. *)
Definition number := float.

(** An integer of magnitude below [2^53] as the number it denotes. *)
Definition of_Z (z : Z) : number :=
  match z with
  | Z0 => PrimFloat.zero
  | Zpos _ => PrimFloat.of_uint63 (Uint63.of_Z z)
  | Zneg p => PrimFloat.opp (PrimFloat.of_uint63 (Uint63.of_Z (Zpos p)))
  end.

(** [Math.floor]: the largest integer not above [x]; zeros, infinities,
    NaN and floats that are already integers are returned as they are. *)
Definition Math_floor (x : number) : number :=
  match Prim2SF x with
  | S754_finite s m e =>
      if (0 <=? e)%Z then x
      else
        let q := Z.shiftr (Zpos m) (- e) in
        let exact := (Z.land (Zpos m) (Z.ones (- e)) =? 0)%Z in
        if exact then x
        else if s then PrimFloat.opp (of_Z (q + 1)) else of_Z q
  | _ => x
  end.

(** [a.reduce((sum, x) => sum + x, 0)]. *)
Definition sum (l : list number) : number :=
  fold_left PrimFloat.add l PrimFloat.zero.

End Js.

(* ------------------------------------------------------------------ *)
(** * Split calculator *)

Module Split.
Import Sql.
Local Open Scope Q_scope.

(** One element of the JSON array of shares: [{person, amount}]. *)
Record SplitShare (num : Type) : Type := mkShare {
  person : Z;
  amount : num
}.

(** ** [split_expense_equally] (PL/pgSQL, on [numeric])

    <<
    v_share := FLOOR(p_total_amount / p_people * 100) / 100;
    v_remainder := p_total_amount - (v_share * p_people);
    FOR i IN 1..p_people LOOP
      IF i = 1 THEN amount := v_share + v_remainder
      ELSE amount := v_share
    >>

    [p_people] and the constants are integers cast to [numeric]; both
    quotients are rounded as PostgreSQL rounds them. *)
Definition v_share (p_total_amount : numeric) (p_people : Z)
  : result numeric :=
  (q <- numeric_div p_total_amount (of_integer p_people) ;;
   numeric_div (numeric_floor (numeric_mul q (of_integer 100)))
               (of_integer 100))%sql.

Definition v_remainder (p_total_amount : numeric) (p_people : Z)
  (v_share : numeric) : numeric :=
  numeric_sub p_total_amount (numeric_mul v_share (of_integer p_people)).

(** The body of the [FOR i IN 1..p_people] loop, for one [i]. *)
Definition share_of (v_share v_remainder : numeric) (i : Z)
  : SplitShare Q :=
  if (i =? 1)%Z
  then mkShare i (val (numeric_add v_share v_remainder))
  else mkShare i (val v_share).

(** The integers [lo, lo+1, ..., lo+n-1], the values a [FOR] loop
    visits. *)
Fixpoint range (lo : Z) (n : nat) : list Z :=
  match n with
  | O => []
  | S n' => lo :: range (lo + 1) n'
  end.

Definition split_expense_equally (p_total_amount : numeric) (p_people : Z)
  : result (list (SplitShare Q)) :=
  (share <- v_share p_total_amount p_people ;;
   Ok (map (share_of share (v_remainder p_total_amount p_people share))
           (range 1 (Z.to_nat p_people))))%sql.

Definition amounts {num} (l : list (SplitShare num)) : list num :=
  map (@amount num) l.

(** ** [splitExpenseEqually] (TypeScript, binary64)

    <<
    const share = Math.floor(totalAmount / people * 100) / 100;
    const remainder = totalAmount - (share * people);
    return Array.from({ length: people }, (_, i) => ({
      person: i + 1,
      amount: i === 0 ? share + remainder : share,
    }));
    >>

    [people] is an integer (the caller passes [parseInt(splitPeople)]). *)
Definition js_share (totalAmount : Js.number) (people : Z) : Js.number :=
  PrimFloat.div
    (Js.Math_floor
       (PrimFloat.mul (PrimFloat.div totalAmount (Js.of_Z people))
                      (Js.of_Z 100)))
    (Js.of_Z 100).

Definition js_remainder (totalAmount : Js.number) (people : Z)
  : Js.number :=
  PrimFloat.sub totalAmount
    (PrimFloat.mul (js_share totalAmount people) (Js.of_Z people)).

Definition splitExpenseEqually (totalAmount : Js.number) (people : Z)
  : list (SplitShare Js.number) :=
  map (fun i =>
         mkShare (i + 1)
           (if (i =? 0)%Z
            then PrimFloat.add (js_share totalAmount people)
                               (js_remainder totalAmount people)
            else js_share totalAmount people))
      (range 0 (Z.to_nat people)).

(** The claim's comparisons on the hook's shares for a total of [cents]
    whole cents, made on binary64 numbers with a tolerance of [2^-30]: the
    sum of the shares is within the tolerance of the total, person 1's
    share is above the base share less the tolerance, and it exceeds the
    base share by less than [people] cents plus the tolerance. *)
Definition tolerance : Js.number :=
  PrimFloat.div (Js.of_Z 1) (Js.of_Z (2 ^ 30)).

Definition close_to_claim (cents people : Z) : bool :=
  let totalAmount := PrimFloat.div (Js.of_Z cents) (Js.of_Z 100) in
  let shares := amounts (splitExpenseEqually totalAmount people) in
  let base := js_share totalAmount people in
  let first := nth 0 shares PrimFloat.zero in
  PrimFloat.ltb
    (PrimFloat.abs (PrimFloat.sub (Js.sum shares) totalAmount)) tolerance
  && PrimFloat.ltb (PrimFloat.sub base tolerance) first
  && PrimFloat.ltb (PrimFloat.sub first base)
       (PrimFloat.add (PrimFloat.div (Js.of_Z people) (Js.of_Z 100))
                      tolerance).

End Split.

(* ------------------------------------------------------------------ *)
(** * Order state machine: the [orders] tables and [update_order_status] *)

Module Orders.
Import Sql.
Local Open Scope string_scope.

(** The values the [CHECK] constraint of [orders.status] admits; the same
    ten are the TypeScript union [OrderStatus]. *)
Inductive OrderStatus : Type :=
| placed | confirmed | preparing | ready | picked_up
| on_the_way | nearby | delivered | cancelled | failed.

Definition status_eqb (a b : OrderStatus) : bool :=
  match a, b with
  | placed, placed | confirmed, confirmed | preparing, preparing
  | ready, ready | picked_up, picked_up | on_the_way, on_the_way
  | nearby, nearby | delivered, delivered | cancelled, cancelled
  | failed, failed => true
  | _, _ => false
  end.

Definition jsonb := string.

(** A row of [public.orders]: the columns the functions below read or
    write, and some of the columns they leave alone. *)
Record order_row : Type := mkOrder {
  id : uuid;
  user_id : option uuid;
  order_number : string;
  restaurant_name : string;
  total_amount : Q;
  status : OrderStatus;
  estimated_delivery_time : option timestamp;
  delivery_person_location : option jsonb;
  rating : option Z;
  review : option string;
  placed_at : option timestamp;
  confirmed_at : option timestamp;
  preparing_at : option timestamp;
  ready_at : option timestamp;
  picked_up_at : option timestamp;
  on_the_way_at : option timestamp;
  delivered_at : option timestamp;
  cancelled_at : option timestamp;
  cancellation_reason : option string;
  cancelled_by : option string;
  updated_at : option timestamp
}.

(** A row of [public.order_status_history] (its generated [id] left
    out).  [order_id] references [orders(id)]. *)
Record history_row : Type := mkHistory {
  order_id : uuid;
  h_status : OrderStatus;
  message : option string;
  location : option jsonb;
  created_at : timestamp
}.

Record db : Type := mkDb {
  orders : list order_row;
  order_status_history : list history_row
}.

(** [UPDATE t SET ... WHERE ...]: the new table, and PL/pgSQL's [FOUND]
    (at least one row affected). *)
Definition sql_update {row} (where_ : row -> bool) (set : row -> row)
  (t : list row) : list row * bool :=
  (map (fun r => if where_ r then set r else r) t, existsb where_ t).

(** [SELECT ... INTO v FROM orders WHERE id = p]: the first match. *)
Definition find_order (p_order_id : uuid) (t : list order_row)
  : option order_row :=
  find (fun o => id o =? p_order_id) t.

(** The [SET] list of [update_order_status]:
    <<
    status = p_new_status,
    confirmed_at = CASE WHEN p_new_status = 'confirmed' THEN now()
                        ELSE confirmed_at END,
    ... (preparing, ready, picked_up, on_the_way, delivered, cancelled)
    updated_at = now()
    >> *)
Definition set_status (now : timestamp) (p_new_status : OrderStatus)
  (o : order_row) : order_row :=
  {| id := id o;
     user_id := user_id o;
     order_number := order_number o;
     restaurant_name := restaurant_name o;
     total_amount := total_amount o;
     status := p_new_status;
     estimated_delivery_time := estimated_delivery_time o;
     delivery_person_location := delivery_person_location o;
     rating := rating o;
     review := review o;
     placed_at := placed_at o;
     confirmed_at :=
       if status_eqb p_new_status confirmed then Some now
       else confirmed_at o;
     preparing_at :=
       if status_eqb p_new_status preparing then Some now
       else preparing_at o;
     ready_at :=
       if status_eqb p_new_status ready then Some now else ready_at o;
     picked_up_at :=
       if status_eqb p_new_status picked_up then Some now
       else picked_up_at o;
     on_the_way_at :=
       if status_eqb p_new_status on_the_way then Some now
       else on_the_way_at o;
     delivered_at :=
       if status_eqb p_new_status delivered then Some now
       else delivered_at o;
     cancelled_at :=
       if status_eqb p_new_status cancelled then Some now
       else cancelled_at o;
     cancellation_reason := cancellation_reason o;
     cancelled_by := cancelled_by o;
     updated_at := Some now |}.

(** [INSERT INTO order_status_history ... VALUES (...)]: the foreign key
    on [order_id] is checked against [orders]; an insert of one row sets
    [FOUND] to true. *)
Definition insert_history (t : list order_row) (h : list history_row)
  (r : history_row) : result (list history_row * bool) :=
  if existsb (fun o => id o =? order_id r) t
  then Ok ((h ++ [r])%list, true)
  else Raise foreign_key_violation.

(** [update_order_status(p_order_id, p_new_status, p_message,
    p_location)], called at time [now]; it returns the value of [FOUND]
    after its last statement.  [p_new_status] ranges over the statuses the
    [CHECK] constraint admits: any other text makes the update of an
    existing order fail. *)
Definition update_order_status (d : db) (now : timestamp)
  (p_order_id : uuid) (p_new_status : OrderStatus)
  (p_message : option string) (p_location : option jsonb)
  : result (db * bool) :=
  let v_old_status := option_map status (find_order p_order_id (orders d)) in
  let '(orders', _) :=
    sql_update (fun o => id o =? p_order_id) (set_status now p_new_status)
               (orders d) in
  (fh <- insert_history orders' (order_status_history d)
           (mkHistory p_order_id p_new_status p_message p_location now) ;;
   let '(history', FOUND) := fh in
   Ok (mkDb orders' history', FOUND))%sql.

(** The update of [update_order_status], as a function on the table. *)
Definition updated (now : timestamp) (p : uuid) (s : OrderStatus)
  (t : list order_row) : list order_row :=
  map (fun r => if id r =? p then set_status now s r else r) t.

(** The timestamp column that belongs to a status, when the table has
    one ([nearby] and [failed] have none). *)
Definition status_timestamp (s : OrderStatus) (o : order_row)
  : option (option timestamp) :=
  match s with
  | placed => Some (placed_at o)
  | confirmed => Some (confirmed_at o)
  | preparing => Some (preparing_at o)
  | ready => Some (ready_at o)
  | picked_up => Some (picked_up_at o)
  | on_the_way => Some (on_the_way_at o)
  | delivered => Some (delivered_at o)
  | cancelled => Some (cancelled_at o)
  | nearby | failed => None
  end.

(** ** The hook's [updateOrderStatus] and [cancelOrder]

    [updateOrderStatus] calls the function over RPC and catches a failure
    (it shows a toast and returns); [cancelOrder] then writes the
    cancellation columns whatever the first call did:
    <<
    await updateOrderStatus({ orderId, newStatus: 'cancelled',
                              message: reason });
    await supabase.from('orders')
      .update({ cancellation_reason: reason, cancelled_by: 'customer' })
      .eq('id', orderId);
    >> *)
Record UpdateOrderStatusInput : Type := mkInput {
  orderId : uuid;
  newStatus : OrderStatus;
  i_message : option string;
  i_location : option jsonb
}.

Definition updateOrderStatus (d : db) (now : timestamp)
  (input : UpdateOrderStatusInput) : db :=
  match update_order_status d now (orderId input) (newStatus input)
          (i_message input) (i_location input) with
  | Ok (d', _) => d'
  | Raise _ => d
  end.

(** The [SET] list of [cancelOrder]'s direct update; the table's
    [BEFORE UPDATE] trigger stamps [updated_at]. *)
Definition set_cancellation (now : timestamp) (reason : string)
  (o : order_row) : order_row :=
  {| id := id o;
     user_id := user_id o;
     order_number := order_number o;
     restaurant_name := restaurant_name o;
     total_amount := total_amount o;
     status := status o;
     estimated_delivery_time := estimated_delivery_time o;
     delivery_person_location := delivery_person_location o;
     rating := rating o;
     review := review o;
     placed_at := placed_at o;
     confirmed_at := confirmed_at o;
     preparing_at := preparing_at o;
     ready_at := ready_at o;
     picked_up_at := picked_up_at o;
     on_the_way_at := on_the_way_at o;
     delivered_at := delivered_at o;
     cancelled_at := cancelled_at o;
     cancellation_reason := Some reason;
     cancelled_by := Some "customer";
     updated_at := Some now |}.

Definition cancelOrder (d : db) (now1 now2 : timestamp) (orderId : uuid)
  (reason : string) : db :=
  let d1 := updateOrderStatus d now1
              (mkInput orderId cancelled (Some reason) None) in
  mkDb (fst (sql_update (fun o => id o =? orderId)
                        (set_cancellation now2 reason) (orders d1)))
       (order_status_history d1).

(** A run of transition calls, each at its own time; a call that raises
    leaves the database as it was. *)
Fixpoint transitions (d : db)
  (calls : list (timestamp * UpdateOrderStatusInput)) : db :=
  match calls with
  | [] => d
  | (now, input) :: rest => transitions (updateOrderStatus d now input) rest
  end.

End Orders.

(* ------------------------------------------------------------------ *)
(** * Order tracking state: [getOrderTrackingState] *)

Module Tracking.
Local Open Scope Q_scope.

(** The TypeScript [Order], restricted to what the tracking code reads;
    an optional field is an [option]. *)
Record Order : Type := mkOrder {
  id : string;
  status : Orders.OrderStatus;
  estimatedDeliveryTime : option Z;
  deliveryPersonLocation : option Orders.jsonb;
  rating : option Z;
  placedAt : option Z;
  confirmedAt : option Z;
  preparingAt : option Z;
  readyAt : option Z;
  pickedUpAt : option Z;
  onTheWayAt : option Z;
  deliveredAt : option Z;
  cancelledAt : option Z
}.

(** [mapDbToOrder], on those fields. *)
Definition mapDbToOrder (row : Orders.order_row) : Order :=
  {| id := Orders.id row;
     status := Orders.status row;
     estimatedDeliveryTime := Orders.estimated_delivery_time row;
     deliveryPersonLocation := Orders.delivery_person_location row;
     rating := Orders.rating row;
     placedAt := Orders.placed_at row;
     confirmedAt := Orders.confirmed_at row;
     preparingAt := Orders.preparing_at row;
     readyAt := Orders.ready_at row;
     pickedUpAt := Orders.picked_up_at row;
     onTheWayAt := Orders.on_the_way_at row;
     deliveredAt := Orders.delivered_at row;
     cancelledAt := Orders.cancelled_at row |}.

Record OrderTrackingState : Type := mkState {
  currentStatus : Orders.OrderStatus;
  statusHistory : list Orders.history_row;
  estimatedTime : option Z;
  isDelivered : bool;
  isCancelled : bool;
  canCancel : bool;
  canRate : bool;
  ts_deliveryPersonLocation : option Orders.jsonb;
  progressPercentage : Q
}.

Definition statusOrder : list Orders.OrderStatus :=
  [Orders.placed; Orders.confirmed; Orders.preparing; Orders.ready;
   Orders.picked_up; Orders.on_the_way; Orders.nearby; Orders.delivered].

(** [Array.prototype.indexOf]: the first position of [s], or [-1]. *)
Fixpoint indexOf_from (s : Orders.OrderStatus)
  (l : list Orders.OrderStatus) (i : Z) : Z :=
  match l with
  | [] => (-1)%Z
  | x :: l' =>
      if Orders.status_eqb x s then i else indexOf_from s l' (i + 1)%Z
  end.

Definition indexOf (l : list Orders.OrderStatus) (s : Orders.OrderStatus)
  : Z := indexOf_from s l 0%Z.

(** [Array.prototype.includes]. *)
Definition includes (l : list Orders.OrderStatus)
  (s : Orders.OrderStatus) : bool :=
  existsb (fun x => Orders.status_eqb x s) l.

(** JavaScript truthiness of an optional number: [undefined] and [0] are
    falsy. *)
Definition truthy (r : option Z) : bool :=
  match r with
  | Some z => negb (z =? 0)%Z
  | None => false
  end.

(** [getOrderTrackingState(order)], with the hook's [orderHistory] state
    and the clock reading [Date.now()] made explicit. *)
Definition getOrderTrackingState (orderHistory : list Orders.history_row)
  (now : Z) (order : Order) : OrderTrackingState :=
  let currentIndex := indexOf statusOrder (status order) in
  let progressPercentage :=
    (inject_Z (currentIndex + 1)
     / inject_Z (Z.of_nat (List.length statusOrder))) * 100 in
  let canCancel :=
    includes [Orders.placed; Orders.confirmed] (status order) in
  let canRate :=
    Orders.status_eqb (status order) Orders.delivered
    && negb (truthy (rating order)) in
  let estimatedTime :=
    match estimatedDeliveryTime order with
    | Some t =>
        if negb (Orders.status_eqb (status order) Orders.delivered)
        then
          let remaining := (t - now)%Z in
          Some (Z.max 0 (Qceiling (inject_Z remaining / 60000)))
        else None
    | None => None
    end in
  {| currentStatus := status order;
     statusHistory := orderHistory;
     estimatedTime := estimatedTime;
     isDelivered := Orders.status_eqb (status order) Orders.delivered;
     isCancelled := Orders.status_eqb (status order) Orders.cancelled;
     canCancel := canCancel;
     canRate := canRate;
     ts_deliveryPersonLocation := deliveryPersonLocation order;
     progressPercentage := progressPercentage |}.

End Tracking.

(* ------------------------------------------------------------------ *)
(** * Calendar

    Period boundaries, computed in UTC from a clock reading in
    milliseconds since the epoch. *)

Module Calendar.
Local Open Scope Z_scope.

Definition ms_per_day : Z := 86400000.

Definition day_number (t : Z) : Z := t / ms_per_day.

Definition start_of_day (t : Z) : Z := day_number t * ms_per_day.

(** [Date.prototype.getDay]: 0 is Sunday; day 0 was a Thursday. *)
Definition getDay (t : Z) : Z := (day_number t + 4) mod 7.

(** Days since the epoch to (year, month, day) and back, in the
    proleptic Gregorian calendar. *)
Definition civil_from_days (z : Z) : Z * Z * Z :=
  let z := z + 719468 in
  let era := z / 146097 in
  let doe := z - era * 146097 in
  let yoe := (doe - doe / 1460 + doe / 36524 - doe / 146096) / 365 in
  let y := yoe + era * 400 in
  let doy := doe - (365 * yoe + yoe / 4 - yoe / 100) in
  let mp := (5 * doy + 2) / 153 in
  let d := doy - (153 * mp + 2) / 5 + 1 in
  let m := if mp <? 10 then mp + 3 else mp - 9 in
  (if m <=? 2 then y + 1 else y, m, d).

Definition days_from_civil (y m d : Z) : Z :=
  let y := if m <=? 2 then y - 1 else y in
  let era := y / 400 in
  let yoe := y - era * 400 in
  let doy := (153 * (if 2 <? m then m - 3 else m + 9) + 2) / 5 + d - 1 in
  let doe := yoe * 365 + yoe / 4 - yoe / 100 + doy in
  era * 146097 + doe - 719468.

Definition start_of_month (t : Z) : Z :=
  let '(y, m, _) := civil_from_days (day_number t) in
  days_from_civil y m 1 * ms_per_day.

(** JavaScript: [weekStart.setDate(now.getDate() - now.getDay());
    weekStart.setHours(0, 0, 0, 0)], the last Sunday at midnight. *)
Definition js_week_start (now : Z) : Z :=
  start_of_day now - getDay now * ms_per_day.

(** PostgreSQL: [CURRENT_DATE], [DATE_TRUNC('week', CURRENT_DATE)] (weeks
    start on Monday) and [DATE_TRUNC('month', CURRENT_DATE)]. *)
Definition CURRENT_DATE (now : Z) : Z := start_of_day now.

Definition DATE_TRUNC_week (now : Z) : Z :=
  start_of_day now - ((getDay now + 6) mod 7) * ms_per_day.

Definition DATE_TRUNC_month (now : Z) : Z := start_of_month now.

End Calendar.

(* ------------------------------------------------------------------ *)
(** * Expenses in the database: [food_orders], [cancel_expense] and
      [get_budget_usage] *)

Module Expenses.
Import Sql.
Local Open Scope string_scope.

Inductive ExpenseStatus : Type := pending | completed | failed | cancelled.
Inductive TransactionType : Type := income | expense | split.
Inductive SplitMethod : Type := equal | manual.

Definition ExpenseStatus_eqb (a b : ExpenseStatus) : bool :=
  match a, b with
  | pending, pending | completed, completed
  | failed, failed | cancelled, cancelled => true
  | _, _ => false
  end.

Definition TransactionType_eqb (a b : TransactionType) : bool :=
  match a, b with
  | income, income | expense, expense | split, split => true
  | _, _ => false
  end.

(** Modelled from the spec: the base columns of [public.food_orders]
    ([id], [user_id], [food_id], [food_name], [restaurant], [category],
    [amount], [order_date], [meal_type], [cuisine], [notes], [image],
    [updated_at]) come from an earlier migration that is not among the
    sources; they are taken as the hook reads and writes them.  The
    migration in the sources adds the columns from [status] on, all
    nullable. *)
Record food_order : Type := mkFoodOrder {
  id : uuid;
  user_id : option uuid;
  food_id : option string;
  food_name : string;
  restaurant : option string;
  category : string;
  amount : Q;
  order_date : timestamp;
  meal_type : string;
  cuisine : option string;
  notes : option string;
  image : option string;
  status : option ExpenseStatus;
  transaction_type : option TransactionType;
  is_split : option bool;
  split_total : option Q;
  split_people : option Z;
  split_method : option SplitMethod;
  split_shares : option (list (Split.SplitShare Q));
  cancelled_at : option timestamp;
  cancelled_reason : option string;
  updated_at : option timestamp
}.

(** ** Three-valued conditions: [None] is SQL's NULL. *)
Definition sql_eq {A} (eqb : A -> A -> bool) (a b : option A)
  : option bool :=
  match a, b with
  | Some x, Some y => Some (eqb x y)
  | _, _ => None
  end.

Definition sql_or (a b : option bool) : option bool :=
  match a, b with
  | Some true, _ | _, Some true => Some true
  | Some false, Some false => Some false
  | _, _ => None
  end.

Definition sql_and (a b : option bool) : option bool :=
  match a, b with
  | Some false, _ | _, Some false => Some false
  | Some true, Some true => Some true
  | _, _ => None
  end.

Definition is_null {A} (a : option A) : option bool :=
  match a with
  | None => Some true
  | Some _ => Some false
  end.

(** A [WHERE] clause keeps a row when its condition is true. *)
Definition is_true (c : option bool) : bool :=
  match c with
  | Some true => true
  | _ => false
  end.

(** ** [cancel_expense]

    <<
    UPDATE public.food_orders
    SET status = 'cancelled', cancelled_at = NOW(),
        cancelled_reason = p_reason, updated_at = NOW()
    WHERE id = p_expense_id AND status IN ('pending', 'completed');
    RETURN FOUND;
    >> *)
Definition set_cancelled (now : timestamp) (p_reason : option string)
  (r : food_order) : food_order :=
  {| id := id r;
     user_id := user_id r;
     food_id := food_id r;
     food_name := food_name r;
     restaurant := restaurant r;
     category := category r;
     amount := amount r;
     order_date := order_date r;
     meal_type := meal_type r;
     cuisine := cuisine r;
     notes := notes r;
     image := image r;
     status := Some cancelled;
     transaction_type := transaction_type r;
     is_split := is_split r;
     split_total := split_total r;
     split_people := split_people r;
     split_method := split_method r;
     split_shares := split_shares r;
     cancelled_at := Some now;
     cancelled_reason := p_reason;
     updated_at := Some now |}.

Definition status_in_pending_completed (r : food_order) : option bool :=
  sql_or (sql_eq ExpenseStatus_eqb (status r) (Some pending))
         (sql_eq ExpenseStatus_eqb (status r) (Some completed)).

Definition cancel_where (p_expense_id : uuid) (r : food_order) : bool :=
  is_true (sql_and (Some (id r =? p_expense_id))
                   (status_in_pending_completed r)).

Definition cancel_expense (t : list food_order) (now : timestamp)
  (p_expense_id : uuid) (p_reason : option string)
  : list food_order * bool :=
  Orders.sql_update (cancel_where p_expense_id)
                    (set_cancelled now p_reason) t.

(** ** [get_budget_usage] *)

(** Modelled from the spec: [public.user_budgets] is created by an
    earlier migration that is not among the sources; the function reads
    its [user_id], the three per-period limits and [alert_threshold]. *)
Record user_budget : Type := mkBudget {
  ub_user_id : option uuid;
  daily_budget : option Q;
  weekly_budget : option Q;
  monthly_budget : option Q;
  alert_threshold : option Q
}.

Record usage : Type := mkUsage {
  total_spent : Q;
  budget_limit : Q;
  percentage_used : option Q;
  remaining : Q;
  u_alert_threshold : Q;
  should_alert : option bool
}.

Definition owner_matches (row_user p_user_id : option uuid) : option bool :=
  sql_or (sql_eq String.eqb row_user p_user_id) (is_null row_user).

(** The budget and threshold of the first matching [user_budgets] row
    ([LIMIT 1]), NULL when there is none. *)
Definition select_budget (budgets : list user_budget)
  (p_user_id : option uuid) (p_period : string) : option Q * option Q :=
  match find (fun ub => is_true (owner_matches (ub_user_id ub) p_user_id))
             budgets with
  | Some ub =>
      ((if p_period =? "daily" then daily_budget ub
        else if p_period =? "weekly" then weekly_budget ub
        else monthly_budget ub),
       alert_threshold ub)
  | None => (None, None)
  end.

Definition default_budget (p_period : string) : Q :=
  if p_period =? "daily" then 400%Q
  else if p_period =? "weekly" then 2500%Q
  else 10000%Q.

Definition in_period (now : timestamp) (p_period : string)
  (fo : food_order) : bool :=
  if p_period =? "daily"
  then (Calendar.CURRENT_DATE now <=? order_date fo)%Z
  else if p_period =? "weekly"
  then (Calendar.DATE_TRUNC_week now <=? order_date fo)%Z
  else (Calendar.DATE_TRUNC_month now <=? order_date fo)%Z.

(** The [WHERE] clause of the spending query, as the first migration
    writes it: [fo.status = 'completed' AND
    fo.transaction_type = 'expense']. *)
Definition counts_as_spent (now : timestamp) (p_user_id : option uuid)
  (p_period : string) (fo : food_order) : bool :=
  is_true
    (sql_and
       (sql_and
          (sql_and (owner_matches (user_id fo) p_user_id)
                   (sql_eq ExpenseStatus_eqb (status fo) (Some completed)))
          (sql_eq TransactionType_eqb (transaction_type fo)
                  (Some expense)))
       (Some (in_period now p_period fo))).

(** A later migration drops the function and recreates it with
    [COALESCE(fo.status, 'completed') = 'completed'] and
    [COALESCE(fo.transaction_type, 'expense') = 'expense'] in this clause,
    and otherwise the same; this is the function in force. *)
Definition coalesce {A} (a : option A) (d : A) : A :=
  match a with
  | Some x => x
  | None => d
  end.

Definition counts_as_spent_coalesced (now : timestamp)
  (p_user_id : option uuid) (p_period : string) (fo : food_order) : bool :=
  is_true
    (sql_and
       (sql_and
          (sql_and (owner_matches (user_id fo) p_user_id)
                   (Some (ExpenseStatus_eqb (coalesce (status fo) completed)
                                            completed)))
          (Some (TransactionType_eqb
                   (coalesce (transaction_type fo) expense) expense)))
       (Some (in_period now p_period fo))).

(** [COALESCE(SUM(fo.amount), 0)] over the rows a clause keeps. *)
Definition spent_where (clause : food_order -> bool)
  (orders : list food_order) : Q :=
  Sql.sum (map amount (filter clause orders)).

Definition v_spent (orders : list food_order) (now : timestamp)
  (p_user_id : option uuid) (p_period : string) : Q :=
  spent_where (counts_as_spent_coalesced now p_user_id p_period) orders.

(** [v_spent / NULLIF(v_budget, 0) * 100], NULL when the budget is 0. *)
Definition raw_percentage (spent budget : Q) : option Q :=
  option_map (fun b => (spent / b * 100)%Q) (NULLIF0 budget).

Definition get_budget_usage (budgets : list user_budget)
  (orders : list food_order) (now : timestamp)
  (p_user_id : option uuid) (p_period : string) : usage :=
  let '(b, t) := select_budget budgets p_user_id p_period in
  let v_budget :=
    match b with Some x => x | None => default_budget p_period end in
  let v_threshold := match t with Some x => x | None => 80%Q end in
  let v_spent := v_spent orders now p_user_id p_period in
  {| total_spent := v_spent;
     budget_limit := v_budget;
     percentage_used := option_map ROUND2 (raw_percentage v_spent v_budget);
     remaining := (v_budget - v_spent)%Q;
     u_alert_threshold := v_threshold;
     should_alert :=
       option_map (fun p => Qle_bool v_threshold p)
                  (raw_percentage v_spent v_budget) |}.

End Expenses.

(* ------------------------------------------------------------------ *)
(** * The expense ledger hook: [useFoodExpenses] *)

Module Ledger.
Local Open Scope string_scope.

(** [Omit<FoodExpense, 'id'>]: every field of an expense but its
    identity. *)
Record ExpenseFields : Type := mkFields {
  foodId : option string;
  foodName : string;
  restaurant : option string;
  category : string;
  amount : Q;
  date : Z;
  mealType : string;
  cuisine : option string;
  notes : option string;
  image : option string;
  status : Expenses.ExpenseStatus;
  transactionType : Expenses.TransactionType;
  isSplit : bool;
  splitTotal : option Q;
  splitPeople : option Z;
  splitMethod : option Expenses.SplitMethod;
  splitShares : option (list (Split.SplitShare Q));
  cancelledAt : option Z;
  cancelledReason : option string
}.

(** [FoodExpense]: [{ ...fields, id }]. *)
Record FoodExpense : Type := mkExpense {
  id : string;
  fields : ExpenseFields
}.

(** [x || undefined] on an optional string: the empty string is falsy. *)
Definition or_undefined (x : option string) : option string :=
  match x with
  | Some "" => None
  | _ => x
  end.

(** [mapOrderToExpense]: a database row as the hook holds it. *)
Definition mapOrderToExpense (order : Expenses.food_order) : FoodExpense :=
  {| id := Expenses.id order;
     fields :=
       {| foodId := or_undefined (Expenses.food_id order);
          foodName := Expenses.food_name order;
          restaurant := or_undefined (Expenses.restaurant order);
          category := Expenses.category order;
          amount := Expenses.amount order;
          date := Expenses.order_date order;
          mealType := Expenses.meal_type order;
          cuisine := or_undefined (Expenses.cuisine order);
          notes := or_undefined (Expenses.notes order);
          image := or_undefined (Expenses.image order);
          status :=
            match Expenses.status order with
            | Some s => s
            | None => Expenses.completed
            end;
          transactionType :=
            match Expenses.transaction_type order with
            | Some t => t
            | None => Expenses.expense
            end;
          isSplit :=
            match Expenses.is_split order with
            | Some b => b
            | None => false
            end;
          splitTotal :=
            match Expenses.split_total order with
            | Some q => if Qeq_bool q 0 then None else Some q
            | None => None
            end;
          splitPeople :=
            match Expenses.split_people order with
            | Some n => if (n =? 0)%Z then None else Some n
            | None => None
            end;
          splitMethod := Expenses.split_method order;
          splitShares := Expenses.split_shares order;
          cancelledAt := Expenses.cancelled_at order;
          cancelledReason := or_undefined (Expenses.cancelled_reason order)
       |} |}.

(** ** Hook state and effects

    The state the hook owns, with the remote inserts it has issued and
    the toasts it has shown, oldest first. *)
Inductive toast : Type :=
| toast_error (msg : string)
| toast_success (msg : string).

Record state : Type := mkState {
  expenses : list FoodExpense;
  remote_inserts : list (string * ExpenseFields);
  toasts : list toast
}.

(** What the outside answers during one [addExpense]: the clock reading
    that becomes the temporary identity, the signed-in user if any, and
    the identity the store assigns ([None] when the insert fails). *)
Record remote : Type := mkRemote {
  tempId : string;
  userId : option string;
  insertedId : option string
}.

(** [prev.map(e => e.id === tempId ? { ...e, id: data.id } : e)]. *)
Definition reconcile (tempId dataId : string) (prev : list FoodExpense)
  : list FoodExpense :=
  map (fun e => if id e =? tempId then mkExpense dataId (fields e) else e)
      prev.

Definition success_message (expense : ExpenseFields) : string :=
  match transactionType expense with
  | Expenses.income => "Income added!"
  | _ => if isSplit expense then "Split expense saved!"
         else "Expense saved!"
  end.

(** [addExpense(expense)]: the new state and the expense it returns. *)
Definition addExpense (r : remote) (expense : ExpenseFields) (st : state)
  : state * FoodExpense :=
  let newExpense := mkExpense (tempId r) expense in
  let optimistic := newExpense :: expenses st in
  match userId r with
  | None =>
      (mkState optimistic (remote_inserts st)
         (toasts st ++ [toast_error "Please log in to save orders"])%list,
       newExpense)
  | Some uid =>
      let issued := (remote_inserts st ++ [(uid, expense)])%list in
      match insertedId r with
      | Some dataId =>
          (mkState (reconcile (tempId r) dataId optimistic) issued
             (toasts st ++ [toast_success (success_message expense)])%list,
           mkExpense dataId expense)
      | None =>
          (mkState optimistic issued
             (toasts st
              ++ [toast_error "Failed to sync order to cloud"])%list,
           newExpense)
      end
  end.

(** ** The form handler [handleAddExpense] *)

(** *** [String.prototype.trim]

    A JavaScript string is held as the bytes of its UTF-8 encoding.
    [trim] removes from both ends the code points of [WhiteSpace] and
    [LineTerminator]: U+0009 to U+000D, U+0020, U+00A0, U+1680, U+2000 to
    U+200A, U+2028, U+2029, U+202F, U+205F, U+3000 and U+FEFF. *)
Definition white_space : list Z :=
  [9; 10; 11; 12; 13; 32; 160; 5760; 8192; 8193; 8194; 8195; 8196; 8197;
   8198; 8199; 8200; 8201; 8202; 8232; 8233; 8239; 8287; 12288; 65279]%Z.

Definition byte (n : Z) : ascii := ascii_of_N (Z.to_N n).

(** The UTF-8 encoding of a code point below U+10000. *)
Definition utf8 (c : Z) : string :=
  if (c <? 128)%Z then String (byte c) ""
  else if (c <? 2048)%Z
  then String (byte (192 + c / 64)) (String (byte (128 + c mod 64)) "")
  else String (byte (224 + c / 4096))
         (String (byte (128 + (c / 64) mod 64))
            (String (byte (128 + c mod 64)) "")).

Definition reverse (s : string) : string :=
  string_of_list_ascii (rev (list_ascii_of_string s)).

(** [s] without the first of [marks] it starts with, if there is one. *)
Fixpoint strip_one (marks : list string) (s : string) : option string :=
  match marks with
  | [] => None
  | m :: marks' =>
      if prefix m s
      then Some (substring (String.length m)
                           (String.length s - String.length m) s)
      else strip_one marks' s
  end.

Fixpoint strip (marks : list string) (fuel : nat) (s : string) : string :=
  match fuel with
  | O => s
  | S fuel' =>
      match strip_one marks s with
      | Some s' => strip marks fuel' s'
      | None => s
      end
  end.

Definition trim_start (s : string) : string :=
  strip (map utf8 white_space) (String.length s) s.

(** At the end: the encoding of a code point ends [s] when its bytes, read
    backwards, start [s] read backwards. *)
Definition trim_end (s : string) : string :=
  reverse (strip (map (fun c => reverse (utf8 c)) white_space)
                 (String.length s) (reverse s)).

Definition trim (s : string) : string := trim_end (trim_start s).

Record form : Type := mkForm {
  f_foodName : string;
  f_amount : string;
  f_category : string;
  f_mealType : string;
  f_notes : string
}.

Definition empty_form : form := mkForm "" "" "delivery" "lunch" "".

Record ui : Type := mkUi {
  newExpense : form;
  showAddModal : bool;
  hook : state
}.

Section Handler.

(** [parseFloat]: the number a string starts with, [None] for NaN. *)
Variable parseFloat : string -> option Q.

Definition handleAddExpense (r : remote) (now : Z) (u : ui) : ui :=
  match parseFloat (f_amount (newExpense u)) with
  | None =>
      mkUi (newExpense u) (showAddModal u)
        (mkState (expenses (hook u)) (remote_inserts (hook u))
           (toasts (hook u)
            ++ [toast_error "Please enter a valid amount"])%list)
  | Some amount =>
      if Qle_bool amount 0 then
        mkUi (newExpense u) (showAddModal u)
          (mkState (expenses (hook u)) (remote_inserts (hook u))
             (toasts (hook u)
              ++ [toast_error "Please enter a valid amount"])%list)
      else if trim (f_foodName (newExpense u)) =? "" then
        mkUi (newExpense u) (showAddModal u)
          (mkState (expenses (hook u)) (remote_inserts (hook u))
             (toasts (hook u)
              ++ [toast_error "Please enter a description"])%list)
      else
        let expense :=
          {| foodId := None;
             foodName := trim (f_foodName (newExpense u));
             restaurant := None;
             category := f_category (newExpense u);
             amount := amount;
             date := now;
             mealType := f_mealType (newExpense u);
             cuisine := None;
             notes := or_undefined (Some (trim (f_notes (newExpense u))));
             image := None;
             status := Expenses.completed;
             transactionType := Expenses.expense;
             isSplit := false;
             splitTotal := None;
             splitPeople := None;
             splitMethod := None;
             splitShares := None;
             cancelledAt := None;
             cancelledReason := None |} in
        mkUi empty_form false (fst (addExpense r expense (hook u)))
  end.

End Handler.

(** ** Period totals *)

(** [a.reduce((sum, e) => sum + e.amount, 0)]. *)
Definition total (l : list FoodExpense) : Q :=
  fold_left (fun sum e => (sum + amount (fields e))%Q) l 0%Q.

Definition getTodayExpenses (now : Z) (l : list FoodExpense)
  : list FoodExpense :=
  filter (fun e => (Calendar.day_number (date (fields e))
                    =? Calendar.day_number now)%Z) l.

Definition getTodayTotal (now : Z) (l : list FoodExpense) : Q :=
  total (getTodayExpenses now l).

Definition getWeekExpenses (now : Z) (l : list FoodExpense)
  : list FoodExpense :=
  filter (fun e => (Calendar.js_week_start now <=? date (fields e))%Z) l.

Definition getWeekTotal (now : Z) (l : list FoodExpense) : Q :=
  total (getWeekExpenses now l).

Definition getMonthExpenses (now : Z) (l : list FoodExpense)
  : list FoodExpense :=
  filter (fun e => (Calendar.start_of_month now <=? date (fields e))%Z) l.

Definition getMonthTotal (now : Z) (l : list FoodExpense) : Q :=
  total (getMonthExpenses now l).

(** ** [getRecentExpenses]

    [[...expenses].sort((a, b) => b.date - a.date).slice(0, limit)]:
    a stable sort, newest first. *)
Fixpoint insert_recent (e : FoodExpense) (l : list FoodExpense)
  : list FoodExpense :=
  match l with
  | [] => [e]
  | x :: l' =>
      if (date (fields x) <=? date (fields e))%Z then e :: x :: l'
      else x :: insert_recent e l'
  end.

Definition sort_recent (l : list FoodExpense) : list FoodExpense :=
  fold_right insert_recent [] l.

Definition getRecentExpenses (limit : nat) (l : list FoodExpense)
  : list FoodExpense :=
  firstn limit (sort_recent l).

(** ** The totals in the claim's words, for comparison

    The sum of the amounts of the entries whose date falls in a window,
    whatever their status and type, with the three windows: the day of
    [now], from the last Sunday at midnight on, and from the first of the
    month on. *)
Fixpoint sum_in_window (inside : Z -> bool) (l : list FoodExpense) : Q :=
  match l with
  | [] => 0%Q
  | e :: l' =>
      ((if inside (date (fields e)) then amount (fields e) else 0)
       + sum_in_window inside l')%Q
  end.

Definition within_today (now d : Z) : bool :=
  ((Calendar.start_of_day now <=? d)
   && (d <? Calendar.start_of_day now + Calendar.ms_per_day))%Z.

Definition within_week (now d : Z) : bool :=
  (Calendar.js_week_start now <=? d)%Z.

Definition within_month (now d : Z) : bool :=
  (Calendar.start_of_month now <=? d)%Z.

(** The sum of the amounts of the rows of the user and the period that
    are completed expenses: as the hook reads a row, where a NULL status
    is [completed] and a NULL type is [expense], and as the columns
    themselves say. *)
Fixpoint sum_of_rows (counted : Expenses.food_order -> bool)
  (orders : list Expenses.food_order) : Q :=
  match orders with
  | [] => 0%Q
  | fo :: orders' =>
      ((if counted fo then Expenses.amount fo else 0)
       + sum_of_rows counted orders')%Q
  end.

Definition completed_expense_as_read (now : Z) (p_user_id : option string)
  (p_period : string) (fo : Expenses.food_order) : bool :=
  Expenses.is_true
    (Expenses.owner_matches (Expenses.user_id fo) p_user_id)
  && Expenses.in_period now p_period fo
  && Expenses.ExpenseStatus_eqb
       (status (fields (mapOrderToExpense fo))) Expenses.completed
  && Expenses.TransactionType_eqb
       (transactionType (fields (mapOrderToExpense fo))) Expenses.expense.

Definition completed_expense_as_stored (now : Z) (p_user_id : option string)
  (p_period : string) (fo : Expenses.food_order) : bool :=
  Expenses.is_true
    (Expenses.owner_matches (Expenses.user_id fo) p_user_id)
  && Expenses.in_period now p_period fo
  && match Expenses.status fo with
     | Some Expenses.completed => true
     | _ => false
     end
  && match Expenses.transaction_type fo with
     | Some Expenses.expense => true
     | _ => false
     end.

(** Replacing the status and transaction type of an expense, everything
    else kept. *)
Definition retag (s : Expenses.ExpenseStatus)
  (t : Expenses.TransactionType) (e : FoodExpense) : FoodExpense :=
  mkExpense (id e)
    {| foodId := foodId (fields e);
       foodName := foodName (fields e);
       restaurant := restaurant (fields e);
       category := category (fields e);
       amount := amount (fields e);
       date := date (fields e);
       mealType := mealType (fields e);
       cuisine := cuisine (fields e);
       notes := notes (fields e);
       image := image (fields e);
       status := s;
       transactionType := t;
       isSplit := isSplit (fields e);
       splitTotal := splitTotal (fields e);
       splitPeople := splitPeople (fields e);
       splitMethod := splitMethod (fields e);
       splitShares := splitShares (fields e);
       cancelledAt := cancelledAt (fields e);
       cancelledReason := cancelledReason (fields e) |}.

End Ledger.

(* ------------------------------------------------------------------ *)
(** * Order numbers and nearby restaurants (database functions) *)

Module Delivery.
Import Sql.
Local Open Scope string_scope.

(** ** [generate_order_number]

    <<
    v_date := TO_CHAR(now(), 'YYYYMMDD');
    SELECT COUNT( * ) INTO v_count FROM public.orders
    WHERE order_number LIKE v_date || '%';
    v_order_number := v_date || LPAD((v_count + 1)::TEXT, 4, '0');
    >> *)

Definition digit (n : Z) : ascii := ascii_of_nat (48 + Z.to_nat n).

(** [n::TEXT] for a number that is not negative: its decimal digits. *)
Fixpoint text_fuel (fuel : nat) (n : Z) : string :=
  match fuel with
  | O => ""
  | S fuel' =>
      if (n <? 10)%Z then String (digit n) ""
      else text_fuel fuel' (n / 10)%Z ++ String (digit (n mod 10)%Z) ""
  end.

Definition to_text (n : Z) : string :=
  text_fuel (S (Z.to_nat (Z.log2 n))) n.

Fixpoint fill (c : ascii) (n : nat) : string :=
  match n with
  | O => ""
  | S n' => String c (fill c n')
  end.

(** [LPAD(s, len, '0')]: zeros in front up to [len] characters; a longer
    string is cut down to its first [len] characters. *)
Definition LPAD (s : string) (len : nat) : string :=
  if (len <=? String.length s)%nat then substring 0 len s
  else fill "0"%char (len - String.length s) ++ s.

(** A [TO_CHAR] field of fixed minimal width: zeros in front, nothing cut. *)
Definition zero_padded (n : Z) (width : nat) : string :=
  fill "0"%char (width - String.length (to_text n)) ++ to_text n.

(** [TO_CHAR(now(), 'YYYYMMDD')], for a date of the common era. *)
Definition TO_CHAR_YYYYMMDD (now : timestamp) : string :=
  let '(y, m, d) := Calendar.civil_from_days (Calendar.day_number now) in
  zero_padded y 4 ++ zero_padded m 2 ++ zero_padded d 2.

(** [order_number LIKE v_date || '%'], for a [v_date] made of digits. *)
Definition v_count (t : list Orders.order_row) (v_date : string) : Z :=
  Z.of_nat
    (List.length (filter (fun o => prefix v_date (Orders.order_number o)) t)).

Definition generate_order_number (t : list Orders.order_row)
  (now : timestamp) : string :=
  let v_date := TO_CHAR_YYYYMMDD now in
  v_date ++ LPAD (to_text (v_count t v_date + 1)%Z) 4.

(** The number a four-character string of digits denotes. *)
Definition digit_value (c : ascii) : Z := (Z.of_nat (nat_of_ascii c) - 48)%Z.

Definition four_digits (s : string) : Z :=
  match s with
  | String a (String b (String c (String d ""))) =>
      (1000 * digit_value a + 100 * digit_value b
       + 10 * digit_value c + digit_value d)%Z
  | _ => 0%Z
  end.

(** ** [get_nearby_restaurants] *)

(** A row of [public.restaurant_locations], on the columns the function
    reads. *)
Record restaurant_location : Type := mkRestaurant {
  restaurant_id : string;
  restaurant_name : string;
  latitude : Q;
  longitude : Q;
  address : string;
  is_open : option bool;
  avg_preparation_time : option Z;
  delivery_fee : option Q;
  rating : option Q
}.

Record nearby_row : Type := mkNearby {
  n_restaurant_id : string;
  n_restaurant_name : string;
  n_address : string;
  distance : Q;
  estimated_delivery_minutes : option Z;
  n_delivery_fee : option Q;
  n_rating : option Q;
  n_is_open : option bool
}.

(** [ORDER BY distance ASC], by insertion. *)
Fixpoint insert_by_distance (r : nearby_row) (l : list nearby_row)
  : list nearby_row :=
  match l with
  | [] => [r]
  | x :: l' =>
      if Qle_bool (distance r) (distance x) then r :: x :: l'
      else x :: insert_by_distance r l'
  end.

Definition order_by_distance (l : list nearby_row) : list nearby_row :=
  fold_right insert_by_distance [] l.

Section Nearby.

(** [calculate_distance] works on trigonometric functions and
    [estimate_delivery_time] on a rounded quotient; both are taken as
    given. *)
Variable calculate_distance : Q -> Q -> Q -> Q -> Q.
Variable estimate_delivery_time : Q -> option Z -> option Z.

Definition nearby_where (p_user_lat p_user_lon p_max_distance : Q)
  (rl : restaurant_location) : bool :=
  Qle_bool (calculate_distance p_user_lat p_user_lon
              (latitude rl) (longitude rl)) p_max_distance
  && match is_open rl with Some true => true | _ => false end.

Definition nearby_select (p_user_lat p_user_lon : Q)
  (rl : restaurant_location) : nearby_row :=
  let d := calculate_distance p_user_lat p_user_lon
             (latitude rl) (longitude rl) in
  {| n_restaurant_id := restaurant_id rl;
     n_restaurant_name := restaurant_name rl;
     n_address := address rl;
     distance := d;
     estimated_delivery_minutes :=
       estimate_delivery_time d (avg_preparation_time rl);
     n_delivery_fee := delivery_fee rl;
     n_rating := rating rl;
     n_is_open := is_open rl |}.

Definition get_nearby_restaurants (t : list restaurant_location)
  (p_user_lat p_user_lon p_max_distance : Q) : list nearby_row :=
  order_by_distance
    (map (nearby_select p_user_lat p_user_lon)
         (filter (nearby_where p_user_lat p_user_lon p_max_distance) t)).

End Nearby.

End Delivery.

(* ------------------------------------------------------------------ *)
(** * The order hook: rating and realtime updates *)

Module OrderHook.
Import Sql.
Local Open Scope string_scope.

(** ** [rateOrder]

    <<
    await supabase.from('orders')
      .update({ rating: input.rating, review: input.review,
                review_images: input.reviewImages })
      .eq('id', input.orderId);
    >>

    An [undefined] property is not sent, so its column keeps its value;
    [review_images] is outside the columns of [order_row]. *)
Definition set_rating (now : timestamp) (rating : Z)
  (review : option string) (o : Orders.order_row) : Orders.order_row :=
  {| Orders.id := Orders.id o;
     Orders.user_id := Orders.user_id o;
     Orders.order_number := Orders.order_number o;
     Orders.restaurant_name := Orders.restaurant_name o;
     Orders.total_amount := Orders.total_amount o;
     Orders.status := Orders.status o;
     Orders.estimated_delivery_time := Orders.estimated_delivery_time o;
     Orders.delivery_person_location := Orders.delivery_person_location o;
     Orders.rating := Some rating;
     Orders.review :=
       match review with
       | Some r => Some r
       | None => Orders.review o
       end;
     Orders.placed_at := Orders.placed_at o;
     Orders.confirmed_at := Orders.confirmed_at o;
     Orders.preparing_at := Orders.preparing_at o;
     Orders.ready_at := Orders.ready_at o;
     Orders.picked_up_at := Orders.picked_up_at o;
     Orders.on_the_way_at := Orders.on_the_way_at o;
     Orders.delivered_at := Orders.delivered_at o;
     Orders.cancelled_at := Orders.cancelled_at o;
     Orders.cancellation_reason := Orders.cancellation_reason o;
     Orders.cancelled_by := Orders.cancelled_by o;
     Orders.updated_at := Some now |}.

(** [CHECK (rating >= 1 AND rating <= 5)]. *)
Definition rating_check (rating : Z) : bool :=
  ((1 <=? rating) && (rating <=? 5))%Z.

(** The table after [rateOrder]: a row that would break the [CHECK] makes
    the update fail and leaves the table as it was. *)
Definition rateOrder (d : Orders.db) (now : timestamp) (orderId : uuid)
  (rating : Z) (review : option string) : Orders.db :=
  if existsb (fun o => Orders.id o =? orderId) (Orders.orders d)
     && negb (rating_check rating)
  then d
  else
    Orders.mkDb
      (fst (Orders.sql_update (fun o => Orders.id o =? orderId)
              (set_rating now rating review) (Orders.orders d)))
      (Orders.order_status_history d).

(** ** The realtime subscription on [orders]

    <<
    setOrders(prev => {
      const index = prev.findIndex(o => o.id === updatedOrder.id);
      if (index >= 0) {
        const newOrders = [...prev];
        newOrders[index] = updatedOrder;
        return newOrders;
      }
      return [updatedOrder, ...prev];
    });
    >> *)
Fixpoint findIndex_from {A} (p : A -> bool) (l : list A) (i : Z) : Z :=
  match l with
  | [] => (-1)%Z
  | x :: l' => if p x then i else findIndex_from p l' (i + 1)%Z
  end.

Definition findIndex {A} (p : A -> bool) (l : list A) : Z :=
  findIndex_from p l 0%Z.

(** [a[i] = v] on a copy, for an index inside the array. *)
Fixpoint set_at {A} (i : nat) (v : A) (l : list A) : list A :=
  match l, i with
  | [], _ => []
  | _ :: l', O => v :: l'
  | x :: l', S i' => x :: set_at i' v l'
  end.

Definition on_order_change (updatedOrder : Tracking.Order)
  (prev : list Tracking.Order) : list Tracking.Order :=
  let index :=
    findIndex (fun o => Tracking.id o =? Tracking.id updatedOrder) prev in
  if (0 <=? index)%Z then set_at (Z.to_nat index) updatedOrder prev
  else updatedOrder :: prev.

End OrderHook.

(* ------------------------------------------------------------------ *)
(** * The expense hook: realtime events, deletion, grouping *)

Module Sync.
Import Ledger.
Local Open Scope string_scope.

(** The [INSERT] event:
    [if (prev.some(e => e.id === newExpense.id)) return prev;
     return [newExpense, ...prev]]. *)
Definition on_insert (newExpense : FoodExpense) (prev : list FoodExpense)
  : list FoodExpense :=
  if existsb (fun e => id e =? id newExpense) prev then prev
  else newExpense :: prev.

(** The [UPDATE] event:
    [prev.map(e => e.id === updatedExpense.id ? updatedExpense : e)]. *)
Definition on_update (updatedExpense : FoodExpense)
  (prev : list FoodExpense) : list FoodExpense :=
  map (fun e => if id e =? id updatedExpense then updatedExpense else e) prev.

(** The [DELETE] event: [prev.filter(e => e.id !== deletedId)]. *)
Definition on_delete (deletedId : string) (prev : list FoodExpense)
  : list FoodExpense :=
  filter (fun e => negb (id e =? deletedId)) prev.

(** What [fetchExpenses] finds: the rows of the table, or a failure with
    or without a copy saved in local storage. *)
Inductive fetched : Type :=
| fetch_rows (rows : list Expenses.food_order)
| fetch_failed_saved (saved : list FoodExpense)
| fetch_failed.

Definition fetchExpenses (f : fetched) (st : state) : state :=
  match f with
  | fetch_rows rows =>
      mkState (map mapOrderToExpense rows) (remote_inserts st) (toasts st)
  | fetch_failed_saved saved =>
      mkState saved (remote_inserts st) (toasts st)
  | fetch_failed => st
  end.

(** [deleteExpense(id)]: the entry goes at once; when the remote delete
    fails ([Some f]) the collection is fetched again. *)
Definition deleteExpense (remote_failure : option fetched)
  (deletedId : string) (st : state) : state :=
  let st1 :=
    mkState (on_delete deletedId (expenses st)) (remote_inserts st)
            (toasts st) in
  match remote_failure with
  | None =>
      mkState (expenses st1) (remote_inserts st1)
        (toasts st1 ++ [toast_success "Order deleted"])%list
  | Some f =>
      fetchExpenses f
        (mkState (expenses st1) (remote_inserts st1)
           (toasts st1 ++ [toast_error "Failed to delete order"])%list)
  end.

(** ** Grouped totals

    A [Record<string, number>] built by [reduce] from the literal [{}]: its
    own properties in the order they were first written.  A property holds
    a number, or, once a name of [Object.prototype] has been used as a key,
    something that is not a number. *)
Inductive value : Type :=
| Num (q : Q)
| NotNum.

Definition object := list (string * value).

(** The names an object literal inherits from [Object.prototype]: reading
    one of them from [{}] gives a function or an object, not [undefined]. *)
Definition inherited : list string :=
  ["constructor"; "__proto__"; "hasOwnProperty"; "isPrototypeOf";
   "propertyIsEnumerable"; "toLocaleString"; "toString"; "valueOf";
   "__defineGetter__"; "__defineSetter__"; "__lookupGetter__";
   "__lookupSetter__"].

Fixpoint own (k : string) (o : object) : option value :=
  match o with
  | [] => None
  | (k', v) :: o' => if k' =? k then Some v else own k o'
  end.

(** [acc[k]]: the own property, else the inherited one, else [undefined]. *)
Definition obj_get (k : string) (o : object) : option value :=
  match own k o with
  | Some v => Some v
  | None => if existsb (String.eqb k) inherited then Some NotNum else None
  end.

Fixpoint write (k : string) (v : value) (o : object) : object :=
  match o with
  | [] => [(k, v)]
  | (k', v') :: o' =>
      if k' =? k then (k, v) :: o' else (k', v') :: write k v o'
  end.

(** [acc[k] = v]: an own property is written, except under the name
    [__proto__], whose setter ignores a value that is not an object. *)
Definition obj_set (k : string) (v : value) (o : object) : object :=
  if k =? "__proto__" then o else write k v o.

(** [x || 0]: [undefined] and a zero both give 0. *)
Definition or_zero (x : option value) : value :=
  match x with
  | Some (Num v) => if Qeq_bool v 0 then Num 0 else Num v
  | Some NotNum => NotNum
  | None => Num 0
  end.

(** [x + amount]: a sum of numbers, or a string when [x] is no number. *)
Definition plus (x : value) (amount : Q) : value :=
  match x with
  | Num v => Num (v + amount)
  | NotNum => NotNum
  end.

(** [acc[k] = (acc[k] || 0) + amount]. *)
Definition add_to (k : string) (amount : Q) (acc : object) : object :=
  obj_set k (plus (or_zero (obj_get k acc)) amount) acc.

Definition getSpendingByCategory (l : list FoodExpense) : object :=
  fold_left (fun acc e => add_to (category (fields e)) (amount (fields e)) acc)
            l [].

Definition getSpendingByMealType (l : list FoodExpense) : object :=
  fold_left (fun acc e => add_to (mealType (fields e)) (amount (fields e)) acc)
            l [].

(** [if (expense.cuisine) acc[expense.cuisine] = ...]: an entry without a
    cuisine, or with an empty one, is passed over. *)
Definition getSpendingByCuisine (l : list FoodExpense) : object :=
  fold_left
    (fun acc e =>
       match or_undefined (cuisine (fields e)) with
       | Some c => add_to c (amount (fields e)) acc
       | None => acc
       end)
    l [].

(** What it is for an object to hold, under the key [k], the total of a
    list grouped by a key function: the object has the key exactly when
    some entry has it, and then it carries the sum of the amounts of the
    entries with that key, added in the order of the list. *)
Definition has_key (key : FoodExpense -> option string) (k : string)
  (e : FoodExpense) : bool :=
  match key e with
  | Some c => c =? k
  | None => false
  end.

Definition grouped_at (k : string) (key : FoodExpense -> option string)
  (l : list FoodExpense) (o : object) : Prop :=
  match obj_get k o with
  | Some (Num v) =>
      (exists e, In e l /\ key e = Some k)
      /\ (v == total (filter (has_key key k) l))%Q
  | Some NotNum => False
  | None => forall e, In e l -> key e <> Some k
  end.

(** A number, or nothing yet, under a key: what the accumulator holds for a
    key outside the prototype, with the number it counts as. *)
Definition numeric (x : option value) (q : Q) : Prop :=
  match x with
  | Some (Num v) => (v == q)%Q
  | Some NotNum => False
  | None => (q == 0)%Q
  end.

End Sync.

(* ------------------------------------------------------------------ *)
(** * The add-transaction modal: [AddExpenseModalNew.handleSubmit] *)

Module Modal.
Import Ledger.
Local Open Scope string_scope.

Record modal_form : Type := mkModal {
  m_transactionType : Expenses.TransactionType;
  m_amount : string;
  m_foodName : string;
  m_notes : string;
  m_mealType : string;
  m_category : string;
  m_splitPeople : string;
  m_splitMethod : Expenses.SplitMethod;
  manualShares : list (Split.SplitShare Q)
}.

(** How a submission ends: an error toast, the user saying no to the
    budget warning, a [TypeError] on the first share of an empty split, or
    the expense handed to [onAdd]. *)
Inductive submitted : Type :=
| Rejected (msg : string)
| Declined
| Threw
| Added (expense : ExpenseFields).

Section Submit.

(** [parseFloat] and [parseInt] ([None] for NaN), the [canAddExpense] and
    [splitExpenseEqually] props, and the answer to [window.confirm]. *)
Variable parseFloat : string -> option Q.
Variable parseInt : string -> option Z.
Variable canAddExpense : Q -> bool.
Variable confirm : bool.
Variable splitExpenseEqually : Q -> Z -> list (Split.SplitShare Q).

(** [!(Math.abs(totalShares - amountNum) > 0.01)], where [totalShares] is
    the sum of the manual shares: a sum and a comparison of binary64
    numbers, taken as given. *)
Variable shares_add_up : list (Split.SplitShare Q) -> Q -> bool.

Definition is_expense_or_split (t : Expenses.TransactionType) : bool :=
  match t with
  | Expenses.expense | Expenses.split => true
  | Expenses.income => false
  end.

Definition is_split (t : Expenses.TransactionType) : bool :=
  match t with
  | Expenses.split => true
  | _ => false
  end.

(** The expense object built at the end of [handleSubmit]. *)
Definition build (now : Z) (f : modal_form) (amountNum finalAmount : Q)
  (people : option Z) (shares : option (list (Split.SplitShare Q)))
  : ExpenseFields :=
  let split := is_split (m_transactionType f) in
  {| foodId := None;
     foodName := trim (m_foodName f);
     restaurant := None;
     category := m_category f;
     amount := finalAmount;
     date := now;
     mealType := m_mealType f;
     cuisine := None;
     notes := or_undefined (Some (trim (m_notes f)));
     image := None;
     status := Expenses.completed;
     transactionType := m_transactionType f;
     isSplit := split;
     splitTotal := if split then Some amountNum else None;
     splitPeople := if split then people else None;
     splitMethod := if split then Some (m_splitMethod f) else None;
     splitShares := if split then shares else None;
     cancelledAt := None;
     cancelledReason := None |}.

(** The part of [handleSubmit] after the budget check. *)
Definition submit_checked (now : Z) (f : modal_form) (amountNum : Q)
  : submitted :=
  if is_split (m_transactionType f) then
    match parseInt (m_splitPeople f) with
    | None => Rejected "Split must be between at least 2 people"
    | Some people =>
        if (people <? 2)%Z
        then Rejected "Split must be between at least 2 people"
        else
          match m_splitMethod f with
          | Expenses.equal =>
              let splitShares := splitExpenseEqually amountNum people in
              match splitShares with
              | first :: _ =>
                  Added (build now f amountNum (Split.amount first)
                           (Some people) (Some splitShares))
              | [] => Threw
              end
          | Expenses.manual =>
              if negb (Z.of_nat (List.length (manualShares f)) =? people)%Z
              then Rejected "Please set amounts for all people"
              else
                if negb (shares_add_up (manualShares f) amountNum)
                then Rejected "Split amounts must add up"
                else
                  match manualShares f with
                  | first :: _ =>
                      Added (build now f amountNum (Split.amount first)
                               (Some people) (Some (manualShares f)))
                  | [] => Threw
                  end
          end
    end
  else Added (build now f amountNum amountNum None None).

Definition handleSubmit (now : Z) (f : modal_form) : submitted :=
  match parseFloat (m_amount f) with
  | None => Rejected "Please enter a valid amount"
  | Some amountNum =>
      if Qle_bool amountNum 0 then Rejected "Please enter a valid amount"
      else if trim (m_foodName f) =? ""
      then Rejected "Please enter a description"
      else if is_expense_or_split (m_transactionType f)
              && negb (canAddExpense amountNum) && negb confirm
      then Declined
      else submit_checked now f amountNum
  end.

End Submit.

End Modal.

(* ------------------------------------------------------------------ *)
(** * The expense pages: filters and counts *)

Module Pages.
Import Ledger.
Local Open Scope string_scope.

(** ** [ExpenseTrackerEnhanced]: the status and type filters. *)
Definition matches_status (selected : option Expenses.ExpenseStatus)
  (e : FoodExpense) : bool :=
  match selected with
  | None => true
  | Some s => Expenses.ExpenseStatus_eqb (status (fields e)) s
  end.

Definition matches_type (selected : option Expenses.TransactionType)
  (e : FoodExpense) : bool :=
  match selected with
  | None => true
  | Some t => Expenses.TransactionType_eqb (transactionType (fields e)) t
  end.

(** [filteredExpenses], with [None] for the choice [all]. *)
Definition filteredExpenses (selectedStatus : option Expenses.ExpenseStatus)
  (selectedType : option Expenses.TransactionType) (l : list FoodExpense)
  : list FoodExpense :=
  filter (fun e => matches_status selectedStatus e
                   && matches_type selectedType e) l.

(** One entry of [statusCounts]:
    [expenses.filter(e => e.status === s).length]. *)
Definition statusCount (s : Expenses.ExpenseStatus) (l : list FoodExpense)
  : nat :=
  List.length
    (filter (fun e => Expenses.ExpenseStatus_eqb (status (fields e)) s) l).

(** ** [ExpenseTrackerSimple]: the period filter of the list. *)
Inductive period : Type := today | week | month | all.

(** [getMonth] and [getFullYear], the month counted from 1 here (the code
    only compares months). *)
Definition getMonth (t : Z) : Z :=
  snd (fst (Calendar.civil_from_days (Calendar.day_number t))).

Definition getFullYear (t : Z) : Z :=
  fst (fst (Calendar.civil_from_days (Calendar.day_number t))).

Definition shown (filterPeriod : period) (now : Z) (l : list FoodExpense)
  : list FoodExpense :=
  filter
    (fun exp =>
       let expDate := date (fields exp) in
       match filterPeriod with
       | today => (Calendar.day_number expDate =? Calendar.day_number now)%Z
       | week =>
           let weekAgo := (now - 7 * 24 * 60 * 60 * 1000)%Z in
           (weekAgo <=? expDate)%Z
       | month =>
           (getMonth expDate =? getMonth now)%Z
           && (getFullYear expDate =? getFullYear now)%Z
       | all => true
       end)
    l.

End Pages.

(* ------------------------------------------------------------------ *)
(** * Favourites ([AppContext]) *)

Module Favorites.
Local Open Scope string_scope.

(** [prev.includes(restaurantId)]. *)
Definition isFavorite (favorites : list string) (restaurantId : string)
  : bool :=
  existsb (fun id => id =? restaurantId) favorites.

(** [prev.includes(id) ? prev.filter(x => x !== id) : [...prev, id]]. *)
Definition toggleFavorite (restaurantId : string) (prev : list string)
  : list string :=
  if isFavorite prev restaurantId
  then filter (fun id => negb (id =? restaurantId)) prev
  else (prev ++ [restaurantId])%list.

End Favorites.

(* ------------------------------------------------------------------ *)
(** * The [expense_statistics] view and the budget alert *)

Module Statistics.
Import Sql Expenses.
Local Open Scope string_scope.

Record statistics_row : Type := mkStatistics {
  s_user_id : option uuid;
  completed_count : nat;
  pending_count : nat;
  failed_count : nat;
  cancelled_count : nat;
  total_expenses : option Q;
  total_income : option Q;
  total_split_expenses : option Q;
  split_count : nat
}.

(** [GROUP BY user_id]: two rows are in one group when their [user_id]
    are equal or both NULL. *)
Definition same_user (a b : option uuid) : bool :=
  match a, b with
  | Some x, Some y => x =? y
  | None, None => true
  | _, _ => false
  end.

(** The groups, each once, in the order they first occur. *)
Fixpoint groups (t : list food_order) : list (option uuid) :=
  match t with
  | [] => []
  | r :: t' =>
      user_id r
      :: filter (fun g => negb (same_user g (user_id r))) (groups t')
  end.

(** [COUNT( * ) FILTER (WHERE c)]. *)
Definition count_where (c : food_order -> option bool)
  (rows : list food_order) : nat :=
  List.length (filter (fun r => is_true (c r)) rows).

(** [SUM(amount) FILTER (WHERE c)]: NULL over no rows. *)
Definition sum_where (c : food_order -> option bool)
  (rows : list food_order) : option Q :=
  match filter (fun r => is_true (c r)) rows with
  | [] => None
  | kept => Some (Sql.sum (map amount kept))
  end.

Definition status_is (s : ExpenseStatus) (r : food_order) : option bool :=
  sql_eq ExpenseStatus_eqb (status r) (Some s).

Definition type_is (t : TransactionType) (r : food_order) : option bool :=
  sql_eq TransactionType_eqb (transaction_type r) (Some t).

Definition split_is_true (r : food_order) : option bool :=
  sql_eq Bool.eqb (is_split r) (Some true).

Definition statistics_of (g : option uuid) (t : list food_order)
  : statistics_row :=
  let rows := filter (fun r => same_user (user_id r) g) t in
  {| s_user_id := g;
     completed_count := count_where (status_is completed) rows;
     pending_count := count_where (status_is pending) rows;
     failed_count := count_where (status_is failed) rows;
     cancelled_count := count_where (status_is cancelled) rows;
     total_expenses :=
       sum_where (fun r => sql_and (status_is completed r)
                                   (type_is expense r)) rows;
     total_income :=
       sum_where (fun r => sql_and (status_is completed r)
                                   (type_is income r)) rows;
     total_split_expenses :=
       sum_where (fun r => sql_and (status_is completed r)
                                   (split_is_true r)) rows;
     split_count := count_where split_is_true rows |}.

Definition expense_statistics (t : list food_order) : list statistics_row :=
  map (fun g => statistics_of g t) (groups t).

(** ** [fetchBudgetUsage]: which toast the usage row leads to.

    [Number(null)] is 0 and [Boolean(null)] is false. *)
Inductive alert : Type := exceeded | warning.

Definition budget_alert (enableAlerts : bool) (u : usage) : option alert :=
  let percentageUsed :=
    match percentage_used u with Some p => p | None => 0%Q end in
  let shouldAlert :=
    match should_alert u with Some b => b | None => false end in
  if shouldAlert && enableAlerts then
    if Qle_bool 100 percentageUsed then Some exceeded
    else if Qle_bool (u_alert_threshold u) percentageUsed then Some warning
    else None
  else None.

End Statistics.

(* ------------------------------------------------------------------ *)
(** * Sample data *)

Module Samples.
Local Open Scope Z_scope.
Local Open Scope string_scope.

(** An order as [createOrder] inserts it: status [placed], stamped at 50. *)
Definition order1 : Orders.order_row :=
  {| Orders.id := "order-1";
     Orders.user_id := None;
     Orders.order_number := "202602060001";
     Orders.restaurant_name := "Dosa Corner";
     Orders.total_amount := 250%Q;
     Orders.status := Orders.placed;
     Orders.estimated_delivery_time := None;
     Orders.delivery_person_location := None;
     Orders.rating := None;
     Orders.review := None;
     Orders.placed_at := Some 50%Z;
     Orders.confirmed_at := None;
     Orders.preparing_at := None;
     Orders.ready_at := None;
     Orders.picked_up_at := None;
     Orders.on_the_way_at := None;
     Orders.delivered_at := None;
     Orders.cancelled_at := None;
     Orders.cancellation_reason := None;
     Orders.cancelled_by := None;
     Orders.updated_at := Some 50%Z |}.

Definition db1 : Orders.db := Orders.mkDb [order1] [].

(** The same order after it was delivered at 100. *)
Definition delivered1 : Orders.order_row :=
  Orders.set_status 100 Orders.delivered order1.

Definition db_delivered : Orders.db := Orders.mkDb [delivered1] [].

(** A database with no orders. *)
Definition db_empty : Orders.db := Orders.mkDb [] [].

(** The sample order as the hook holds it once delivered and rated 4;
    the same with a rating of 0, which the table's [CHECK] excludes. *)
Definition rated1 : Tracking.Order :=
  {| Tracking.id := "order-1";
     Tracking.status := Orders.delivered;
     Tracking.estimatedDeliveryTime := Some 150000;
     Tracking.deliveryPersonLocation := None;
     Tracking.rating := Some 4;
     Tracking.placedAt := Some 50;
     Tracking.confirmedAt := None;
     Tracking.preparingAt := None;
     Tracking.readyAt := None;
     Tracking.pickedUpAt := None;
     Tracking.onTheWayAt := None;
     Tracking.deliveredAt := Some 100;
     Tracking.cancelledAt := None |}.

Definition rated0 : Tracking.Order :=
  {| Tracking.id := "order-1";
     Tracking.status := Orders.delivered;
     Tracking.estimatedDeliveryTime := Some 150000;
     Tracking.deliveryPersonLocation := None;
     Tracking.rating := Some 0;
     Tracking.placedAt := Some 50;
     Tracking.confirmedAt := None;
     Tracking.preparingAt := None;
     Tracking.readyAt := None;
     Tracking.pickedUpAt := None;
     Tracking.onTheWayAt := None;
     Tracking.deliveredAt := Some 100;
     Tracking.cancelledAt := None |}.

(** Friday 6 February 2026, 12:00 UTC, and an hour before it. *)
Definition noon : Z := 1770379200000.
Definition eleven : Z := 1770375600000.

(** A row of [food_orders] entered at eleven, owned by nobody. *)
Definition food (id : string) (amount : Q)
  (status : Expenses.ExpenseStatus) (type : Expenses.TransactionType)
  : Expenses.food_order :=
  {| Expenses.id := id;
     Expenses.user_id := None;
     Expenses.food_id := None;
     Expenses.food_name := "Thali";
     Expenses.restaurant := None;
     Expenses.category := "delivery";
     Expenses.amount := amount;
     Expenses.order_date := eleven;
     Expenses.meal_type := "lunch";
     Expenses.cuisine := None;
     Expenses.notes := None;
     Expenses.image := None;
     Expenses.status := Some status;
     Expenses.transaction_type := Some type;
     Expenses.is_split := Some false;
     Expenses.split_total := None;
     Expenses.split_people := None;
     Expenses.split_method := None;
     Expenses.split_shares := None;
     Expenses.cancelled_at := None;
     Expenses.cancelled_reason := None;
     Expenses.updated_at := None |}.

(** One completed expense of 7999.60. *)
Definition just_below : list Expenses.food_order :=
  [food "e1" (79996 # 10) Expenses.completed Expenses.expense].

(** A completed expense, a pending one, a completed income and a failed
    expense. *)
Definition mixed : list Expenses.food_order :=
  [food "e1" 300 Expenses.completed Expenses.expense;
   food "e2" 100 Expenses.pending Expenses.expense;
   food "e3" 50 Expenses.completed Expenses.income;
   food "e4" 50 Expenses.failed Expenses.expense].

(** An expense with no amount and no description. *)
Definition blank : Ledger.ExpenseFields :=
  {| Ledger.foodId := None;
     Ledger.foodName := "";
     Ledger.restaurant := None;
     Ledger.category := "delivery";
     Ledger.amount := 0;
     Ledger.date := noon;
     Ledger.mealType := "lunch";
     Ledger.cuisine := None;
     Ledger.notes := None;
     Ledger.image := None;
     Ledger.status := Expenses.completed;
     Ledger.transactionType := Expenses.expense;
     Ledger.isSplit := false;
     Ledger.splitTotal := None;
     Ledger.splitPeople := None;
     Ledger.splitMethod := None;
     Ledger.splitShares := None;
     Ledger.cancelledAt := None;
     Ledger.cancelledReason := None |}.

Definition signed_in : Ledger.remote :=
  Ledger.mkRemote "1770379200000" (Some "user-1") (Some "row-7").

Definition fresh : Ledger.state := Ledger.mkState [] [] [].

(** A parser for the sample forms: it knows the strings they use. *)
Definition parse_sample (s : string) : option Q :=
  if s =? "120.50" then Some (12050 # 100)
  else if s =? "0" then Some 0%Q
  else if s =? "-5" then Some (-5)%Q
  else None.

End Samples.


(* ================================================================== *)
(** * Further sample data *)

Module Cases.
Local Open Scope Z_scope.
Local Open Scope string_scope.

(** A completed expense with the given id, category, meal type, cuisine,
    amount and date. *)
Definition entry (id category mealType : string) (cuisine : option string)
  (amount : Q) (date : Z) : Ledger.FoodExpense :=
  Ledger.mkExpense id
    {| Ledger.foodId := None;
       Ledger.foodName := "Thali";
       Ledger.restaurant := None;
       Ledger.category := category;
       Ledger.amount := amount;
       Ledger.date := date;
       Ledger.mealType := mealType;
       Ledger.cuisine := cuisine;
       Ledger.notes := None;
       Ledger.image := None;
       Ledger.status := Expenses.completed;
       Ledger.transactionType := Expenses.expense;
       Ledger.isSplit := false;
       Ledger.splitTotal := None;
       Ledger.splitPeople := None;
       Ledger.splitMethod := None;
       Ledger.splitShares := None;
       Ledger.cancelledAt := None;
       Ledger.cancelledReason := None |}.

(** Two deliveries and a home-cooked dinner; one entry names a cuisine and
    one has an empty one. *)
(** An entry of Sunday 1 March 2026, 12:00 UTC, which lies ahead of
    [Samples.noon], and one of Saturday 31 January 2026, 12:00 UTC, six
    days before it. *)
Definition ahead : Ledger.FoodExpense :=
  entry "n" "delivery" "lunch" None 60 1772366400000.

Definition last_saturday : Ledger.FoodExpense :=
  entry "s" "delivery" "lunch" None 60 1769860800000.

(** An order carrying the given number, and a table of [n] orders with
    one number of 6 February 2026. *)
Definition numbered (number : string) : Orders.order_row :=
  {| Orders.id := "order-" ++ number;
     Orders.user_id := None;
     Orders.order_number := number;
     Orders.restaurant_name := "Dosa Corner";
     Orders.total_amount := 250%Q;
     Orders.status := Orders.placed;
     Orders.estimated_delivery_time := None;
     Orders.delivery_person_location := None;
     Orders.rating := None;
     Orders.review := None;
     Orders.placed_at := Some 50%Z;
     Orders.confirmed_at := None;
     Orders.preparing_at := None;
     Orders.ready_at := None;
     Orders.picked_up_at := None;
     Orders.on_the_way_at := None;
     Orders.delivered_at := None;
     Orders.cancelled_at := None;
     Orders.cancellation_reason := None;
     Orders.cancelled_by := None;
     Orders.updated_at := Some 50%Z |}.

Definition busy_day (n : Z) : list Orders.order_row :=
  repeat (numbered "20260206") (Z.to_nat n).

(** A split of 120.50 between three people entered in the modal, with a
    [parseInt] that knows the string and exact shares for
    [splitExpenseEqually]. *)
Definition split_form : Modal.modal_form :=
  Modal.mkModal Expenses.split "120.50" " Thali " "" "lunch" "dine-in" "3"
    Expenses.equal [].

Definition parse_people (s : string) : option Z :=
  if s =? "3" then Some 3 else None.

Definition exact_shares (totalAmount : Q) (people : Z)
  : list (Split.SplitShare Q) :=
  match Split.split_expense_equally (Sql.mkNumeric totalAmount 2) people with
  | Sql.Ok shares => shares
  | Sql.Raise _ => []
  end.

Definition meals : list Ledger.FoodExpense :=
  [ entry "a" "delivery" "lunch" (Some "Indian") 120 Samples.noon;
    entry "b" "home-cooked" "dinner" (Some "") 45 Samples.eleven;
    entry "c" "delivery" "dinner" None 80 Samples.eleven ].

End Cases.

(* ================================================================== *)
(** * Properties *)

Unset Implicit Arguments.

(* ------------------------------------------------------------------ *)
(** ** Split calculator *)

Section SplitFacts.
Import Sql Split.
Local Open Scope Q_scope.

Lemma range_length lo n : List.length (range lo n) = n.
Proof.
  revert lo; induction n as [|n IH]; intros lo; simpl; [reflexivity|].
  now rewrite IH.
Qed.

Lemma range_nth lo n k :
  (k < n)%nat -> nth_error (range lo n) k = Some (lo + Z.of_nat k)%Z.
Proof.
  revert lo k; induction n as [|n IH]; intros lo k Hk; [lia|].
  destruct k as [|k]; simpl.
  - f_equal; lia.
  - rewrite IH by lia. f_equal; lia.
Qed.

Lemma range_In lo n i :
  (lo <= i < lo + Z.of_nat n)%Z -> In i (range lo n).
Proof.
  intros Hi. apply (nth_error_In _ (Z.to_nat (i - lo))).
  rewrite range_nth by lia. f_equal. lia.
Qed.

(** The hook's shares for every total of whole cents up to 100.00 and
    every head count from 2 to 8, evaluated one by one. *)
Lemma close_to_claim_checked :
  forallb (fun cents => forallb (close_to_claim cents) (range 2 7))
          (range 1 (Z.to_nat 10000))
  = true.
Proof. vm_compute. reflexivity. Qed.

Lemma inject_Z_pos z : (0 < z)%Z -> 0 < inject_Z z.
Proof. intros H. unfold Qlt, inject_Z; cbn. lia. Qed.

Lemma inject_Z_nonzero z : (z <> 0)%Z -> ~ inject_Z z == 0.
Proof. intros H E. unfold Qeq, inject_Z in E; cbn in E. lia. Qed.

(** Away from [i = 1] every iteration of the loop adds the base share. *)
Lemma sum_tail_shares share remainder lo n :
  (1 < lo)%Z ->
  Sql.sum (amounts (map (share_of share remainder) (range lo n)))
  == inject_Z (Z.of_nat n) * val share.
Proof.
  revert lo; induction n as [|n IH]; intros lo Hlo.
  - simpl. ring.
  - cbn [range map amounts Sql.sum fold_right].
    change (fold_right Qplus 0 (map (@amount Q) ?l)) with (Sql.sum (amounts l)).
    rewrite IH by lia.
    unfold share_of. destruct (Z.eqb_spec lo 1) as [->|_]; [lia|].
    cbn [amount].
    rewrite Nat2Z.inj_succ. unfold Z.succ. rewrite inject_Z_plus. ring.
Qed.

(** *** The weight of a number *)

Lemma weight_up_nonneg fuel n : (0 <= weight_up fuel n)%Z.
Proof.
  revert n. induction fuel as [|fuel IH]; intros n; cbn [weight_up]; [lia|].
  destruct (n <? 10000)%Z; [lia|]. specialize (IH (n / 10000)%Z). lia.
Qed.

Lemma weight_up_le fuel : forall j n,
  (0 <= j)%Z -> (n < 10000 ^ (j + 1))%Z -> (weight_up fuel n <= j)%Z.
Proof.
  induction fuel as [|fuel IH]; intros j n Hj Hn; cbn [weight_up]; [lia|].
  destruct (Z.ltb_spec n 10000) as [|Hge]; [lia|].
  assert (Hj1 : (1 <= j)%Z).
  { destruct (Z.eq_dec j 0) as [->|]; [|lia].
    change (10000 ^ (0 + 1))%Z with 10000%Z in Hn. lia. }
  assert (Hd : (n / 10000 < 10000 ^ j)%Z).
  { apply Z.div_lt_upper_bound; [lia|].
    replace (j + 1)%Z with (Z.succ j) in Hn by lia.
    rewrite Z.pow_succ_r in Hn by lia. exact Hn. }
  specialize (IH (j - 1)%Z (n / 10000)%Z ltac:(lia)).
  replace (j - 1 + 1)%Z with j in IH by lia.
  specialize (IH Hd). lia.
Qed.

Lemma weight_down_nonpos fuel x : (weight_down fuel x <= 0)%Z.
Proof.
  revert x. induction fuel as [|fuel IH]; intros x; cbn [weight_down]; [lia|].
  destruct (Qle_bool 1 (x * 10000)); [lia|].
  specialize (IH (x * 10000)). lia.
Qed.

Lemma Qfloor_lt_inject x z : x < inject_Z z -> (Qfloor x < z)%Z.
Proof.
  intros H. pose proof (Qfloor_le x) as Hf.
  assert (Hlt : inject_Z (Qfloor x) < inject_Z z) by lra.
  unfold Qlt, inject_Z in Hlt; cbn in Hlt. lia.
Qed.

(** A number below [10000^(j+1)] in magnitude has weight at most [j]. *)
Lemma weight_le x j :
  (0 <= j)%Z -> Qabs x < inject_Z (10000 ^ (j + 1)) -> (weight x <= j)%Z.
Proof.
  intros Hj Hx. unfold weight.
  destruct (Qeq_bool (Qabs x) 0); [lia|].
  destruct (Qle_bool 1 (Qabs x)).
  - apply weight_up_le; [exact Hj|]. now apply Qfloor_lt_inject.
  - pose proof (weight_down_nonpos (Pos.size_nat (Qden (Qabs x))) (Qabs x)).
    lia.
Qed.

(** A positive integer has a weight that is not negative. *)
Lemma weight_integer n : (1 <= n)%Z -> (0 <= weight (inject_Z n))%Z.
Proof.
  intros Hn. unfold weight.
  destruct (Qeq_bool (Qabs (inject_Z n)) 0); [lia|].
  assert (H1 : Qle_bool 1 (Qabs (inject_Z n)) = true).
  { apply Qle_bool_iff. rewrite Qabs_pos.
    - unfold Qle, inject_Z; cbn. lia.
    - unfold Qle, inject_Z; cbn. lia. }
  rewrite H1. apply weight_up_nonneg.
Qed.

(** The scale of a quotient whose dividend is below [10000^(j+1)] and whose
    divisor is a positive integer. *)
Lemma select_div_scale_bounds (a : numeric) (n j : Z) :
  (0 <= j)%Z -> Qabs (val a) < inject_Z (10000 ^ (j + 1)) -> (1 <= n)%Z ->
  (16 - 4 * j <= select_div_scale a (of_integer n) <= 1000)%Z
  \/ (1000 < 16 - 4 * j)%Z.
Proof.
  intros Hj Ha Hn. unfold select_div_scale. cbn [val dscale of_integer].
  pose proof (weight_le (val a) j Hj Ha) as H1.
  pose proof (weight_integer n Hn) as H2.
  destruct (first_digit (val a) <=? first_digit (inject_Z n))%Z; lia.
Qed.

(** *** Rounding *)

Lemma pow10_pos r : (0 < 10 ^ r)%Z \/ (r < 0)%Z.
Proof.
  destruct (Z.ltb_spec r 0); [now right | left].
  apply Z.pow_pos_nonneg; lia.
Qed.

Lemma Qfloor_div a b :
  (0 < b)%Z -> Qfloor (inject_Z a / inject_Z b) = (a / b)%Z.
Proof.
  intros Hb.
  assert (E : inject_Z a / inject_Z b == a # Z.to_pos b).
  { unfold Qeq, Qdiv, Qmult, Qinv, inject_Z. destruct b; try lia. cbn. lia. }
  rewrite (Qfloor_comp _ _ E). cbn. now rewrite Z2Pos.id.
Qed.

Lemma Qfloor_half j : Qfloor (inject_Z j + (1 # 2)) = j.
Proof.
  assert (E : inject_Z j + (1 # 2) == inject_Z (2 * j + 1) / inject_Z 2).
  { rewrite inject_Z_plus, inject_Z_mult. field. }
  rewrite (Qfloor_comp _ _ E), Qfloor_div by lia.
  Z.to_euclidean_division_equations. lia.
Qed.

(** A number with at most [scale] digits after the point is left as it
    is. *)
Lemma round_at_exact x scale j :
  (0 <= scale)%Z -> x * inject_Z (10 ^ scale) == inject_Z j ->
  round_at x scale == x.
Proof.
  intros Hs Hx. unfold round_at.
  assert (Hp : 0 < inject_Z (10 ^ scale))
    by (apply inject_Z_pos, Z.pow_pos_nonneg; lia).
  set (p := inject_Z (10 ^ scale)) in *.
  destruct (Qle_bool 0 x).
  - assert (E : x * p + (1 # 2) == inject_Z j + (1 # 2)) by now rewrite Hx.
    rewrite (Qfloor_comp _ _ E), Qfloor_half.
    rewrite <- Hx. field. lra.
  - assert (E : - x * p + (1 # 2) == inject_Z (- j) + (1 # 2)).
    { rewrite inject_Z_opp, <- Hx. ring. }
    rewrite (Qfloor_comp _ _ E), Qfloor_half.
    rewrite inject_Z_opp, <- Hx. field. lra.
Qed.

(** Rounding a quotient [k/100/n] at a fine enough scale does not move it
    across a multiple of 1/100. *)
Lemma rounding_keeps_floor (k n p : Z) :
  (0 <= k)%Z -> (0 < n)%Z -> (n < 2 * p)%Z ->
  ((2 * k * p + n) / (2 * n) / p = k / n)%Z.
Proof.
  intros Hk Hn Hp.
  pose proof (Z.div_mod k n ltac:(lia)) as Hkm.
  pose proof (Z.mod_pos_bound k n Hn) as Hs.
  set (m := (k / n)%Z) in *. set (s := (k mod n)%Z) in *.
  assert (Hlo : (m * p <= (2 * k * p + n) / (2 * n))%Z).
  { apply Z.div_le_lower_bound; [lia|]. nia. }
  assert (Hhi : ((2 * k * p + n) / (2 * n) < (m + 1) * p)%Z).
  { apply Z.div_lt_upper_bound; [lia|]. nia. }
  symmetry. apply Z.div_unique with ((2 * k * p + n) / (2 * n) - m * p)%Z.
  - left. lia.
  - lia.
Qed.

Lemma round_quotient_floor (x : Q) (k n r : Z) :
  x == inject_Z k / 100 -> (0 <= k)%Z -> (0 < n)%Z -> (2 <= r)%Z ->
  (n < 2 * 10 ^ (r - 2))%Z ->
  Qfloor (round_at (x / inject_Z n) r * 100) = (k / n)%Z.
Proof.
  intros Hx Hk Hn Hr Hnp.
  set (p := (10 ^ (r - 2))%Z) in *.
  assert (Hp : (0 < p)%Z) by (apply Z.pow_pos_nonneg; lia).
  assert (Hpow : (10 ^ r = 100 * p)%Z).
  { unfold p. replace r with (2 + (r - 2))%Z at 1 by lia.
    rewrite Z.pow_add_r by lia. reflexivity. }
  pose proof (inject_Z_pos n Hn) as HnQ.
  pose proof (inject_Z_pos p Hp) as HpQ.
  unfold round_at. rewrite Hpow.
  assert (Hnonneg : Qle_bool 0 (x / inject_Z n) = true).
  { apply Qle_bool_iff. rewrite Hx.
    assert (0 <= inject_Z k) by (unfold Qle, inject_Z; cbn; lia).
    apply Qle_shift_div_l; [exact HnQ|].
    apply Qle_shift_div_l; [reflexivity|]. lra. }
  rewrite Hnonneg.
  assert (E : x / inject_Z n * inject_Z (100 * p) + (1 # 2)
              == inject_Z (2 * k * p + n) / inject_Z (2 * n)).
  { rewrite Hx, !inject_Z_plus, !inject_Z_mult. field. lra. }
  rewrite (Qfloor_comp _ _ E), Qfloor_div by lia.
  set (X := ((2 * k * p + n) / (2 * n))%Z).
  assert (E2 : inject_Z X / inject_Z (100 * p) * 100
               == inject_Z X / inject_Z p).
  { rewrite inject_Z_mult. field. lra. }
  rewrite (Qfloor_comp _ _ E2), Qfloor_div by lia.
  unfold X. now apply rounding_keeps_floor.
Qed.


(** The base share on a total of whole cents below [10^10] cents. *)
Lemma v_share_two_decimals (total : numeric) (people cents : Z) :
  val total == inject_Z cents / 100 ->
  (0 < cents < 10 ^ 10)%Z -> (1 <= people <= 2147483647)%Z ->
  exists share,
    v_share total people = Ok share
    /\ val share == inject_Z (cents / people) / 100
    /\ Qfloor (val total / inject_Z people * 100) = (cents / people)%Z.
Proof.
  intros Hx Hc Hp. unfold v_share, numeric_div at 1, bind.
  cbn [val of_integer].
  assert (Hne : Qeq_bool (inject_Z people) 0 = false).
  { destruct (Qeq_bool (inject_Z people) 0) eqn:E; [|reflexivity].
    apply Qeq_bool_iff in E. apply inject_Z_nonzero in E; [destruct E | lia]. }
  rewrite Hne.
  assert (Hpos : 0 < val total).
  { rewrite Hx. apply Qlt_shift_div_l; [reflexivity|].
    setoid_replace (0 * 100) with (inject_Z 0) by reflexivity.
    rewrite <- Zlt_Qlt. lia. }
  assert (Hsmall : Qabs (val total) < inject_Z (10000 ^ (1 + 1))).
  { rewrite Qabs_pos by lra. rewrite Hx.
    apply Qlt_shift_div_r; [reflexivity|].
    change (inject_Z (10000 ^ (1 + 1)) * 100) with (inject_Z (10 ^ 10)).
    rewrite <- Zlt_Qlt. lia. }
  destruct (select_div_scale_bounds total people 1 ltac:(lia) Hsmall
              ltac:(lia)) as [Hr|Hr]; [|lia].
  set (r := select_div_scale total (of_integer people)) in *.
  assert (Hpow : (10 ^ 10 <= 10 ^ (r - 2))%Z)
    by (apply Z.pow_le_mono_r; lia).
  assert (Hfloor : Qfloor (round_at (val total / inject_Z people) r * 100)
                   = (cents / people)%Z).
  { apply round_quotient_floor; try assumption; lia. }
  unfold numeric_div, numeric_floor, numeric_mul.
  cbn [val dscale of_integer].
  assert (H100 : Qeq_bool (inject_Z 100) 0 = false) by reflexivity.
  rewrite H100.
  assert (E100 : round_at (val total / inject_Z people) r * inject_Z 100
                 == round_at (val total / inject_Z people) r * 100)
    by reflexivity.
  rewrite (Qfloor_comp _ _ E100), Hfloor.
  set (m := (cents / people)%Z).
  assert (Hm : (0 <= m < 10 ^ 10)%Z).
  { unfold m. split; [apply Z.div_pos; lia|].
    apply Z.div_lt_upper_bound; [lia|]. nia. }
  eexists. split; [reflexivity|]. cbn [val]. split.
  - set (a := mkNumeric (inject_Z m) 0).
    assert (Ha : Qabs (val a) < inject_Z (10000 ^ (2 + 1))).
    { cbn [val a]. rewrite Qabs_pos
        by (unfold Qle, inject_Z; cbn; lia).
      rewrite <- Zlt_Qlt. change (10000 ^ (2 + 1))%Z with (10 ^ 12)%Z. lia. }
    destruct (select_div_scale_bounds a 100 2 ltac:(lia) Ha ltac:(lia))
      as [Hr2|Hr2]; [|lia].
    change (of_integer 100) with (mkNumeric (inject_Z 100) 0) in Hr2.
    set (r2 := select_div_scale a _) in *.
    assert (Hp2 : (0 < 10 ^ (r2 - 2))%Z) by (apply Z.pow_pos_nonneg; lia).
    apply (round_at_exact _ r2 (m * 10 ^ (r2 - 2))); [lia|].
    replace (10 ^ r2)%Z with (100 * 10 ^ (r2 - 2))%Z.
    + rewrite !inject_Z_mult. field.
    + replace r2 with (2 + (r2 - 2))%Z at 2 by lia.
      rewrite Z.pow_add_r by lia. reflexivity.
  - assert (E : val total / inject_Z people * 100
                == inject_Z cents / inject_Z people).
    { rewrite Hx. field. apply inject_Z_nonzero. lia. }
    rewrite (Qfloor_comp _ _ E). apply Qfloor_div. lia.
Qed.

(** Whatever the base share is, the loop's shares add up to the total. *)
Lemma shares_sum (total share : numeric) (people : Z) :
  (1 <= people)%Z ->
  Sql.sum (amounts (map (share_of share (v_remainder total people share))
                        (range 1 (Z.to_nat people))))
  == val total.
Proof.
  intros Hp.
  destruct (Z.to_nat people) as [|m] eqn:Hm; [lia|].
  cbn [range map amounts Sql.sum fold_right].
  change (fold_right Qplus 0 (map (@amount Q) ?l))
    with (Sql.sum (amounts l)).
  rewrite sum_tail_shares by lia.
  unfold share_of; cbn [Z.eqb Pos.eqb amount].
  unfold v_remainder, numeric_add, numeric_sub, numeric_mul.
  cbn [val of_integer].
  assert (Hpm : inject_Z people == inject_Z (Z.of_nat m) + 1).
  { replace people with (Z.of_nat m + 1)%Z at 1 by lia.
    rewrite inject_Z_plus. reflexivity. }
  rewrite Hpm. ring.
Qed.

Lemma v_share_returns (total : numeric) (people : Z) :
  (people <> 0)%Z -> exists share, v_share total people = Ok share.
Proof.
  intros Hp. unfold v_share, numeric_div, bind. cbn [val of_integer].
  assert (Hne : Qeq_bool (inject_Z people) 0 = false).
  { destruct (Qeq_bool (inject_Z people) 0) eqn:E; [|reflexivity].
    apply Qeq_bool_iff in E. apply inject_Z_nonzero in E; [destruct E | lia]. }
  rewrite Hne. cbn [val]. 
  assert (H100 : Qeq_bool (inject_Z 100) 0 = false) by reflexivity.
  rewrite H100. eexists. reflexivity.
Qed.



(** With more decimals the quotient's rounding shows: a total of
    0.0299999999999999999999 split three ways has the base share 0.01,
    not 0, and person 1 receives less than the others. *)
Example split_expense_equally_many_decimals :
  exists a b c,
    split_expense_equally
      (mkNumeric (299999999999999999999 # 10000000000000000000000) 22) 3
    = Ok [mkShare 1 a; mkShare 2 b; mkShare 3 c]
    /\ b == 1 # 100 /\ c == 1 # 100 /\ a < b
    /\ a + b + c == 299999999999999999999 # 10000000000000000000000.
Proof. do 3 eexists. vm_compute. repeat split. Qed.

(** [Math.floor] on a few numbers: 3.7, -3.7, -0.5 and 5. *)
Example Math_floor_examples :
  PrimFloat.eqb (Js.Math_floor (PrimFloat.div (Js.of_Z 37) (Js.of_Z 10)))
                (Js.of_Z 3) = true
  /\ PrimFloat.eqb (Js.Math_floor (PrimFloat.div (Js.of_Z (-37)) (Js.of_Z 10)))
                   (Js.of_Z (-4)) = true
  /\ PrimFloat.eqb (Js.Math_floor (PrimFloat.div (Js.of_Z (-1)) (Js.of_Z 2)))
                   (Js.of_Z (-1)) = true
  /\ PrimFloat.eqb (Js.Math_floor (Js.of_Z 5)) (Js.of_Z 5) = true.
Proof. vm_compute. repeat split. Qed.


(** On binary64 numbers person 1 can also receive less than the others:
    0.15 split three ways. *)
Example splitExpenseEqually_first_below_rest :
  let shares :=
    amounts (splitExpenseEqually
               (PrimFloat.div (Js.of_Z 15) (Js.of_Z 100)) 3) in
  PrimFloat.ltb (nth 0 shares PrimFloat.zero) (nth 1 shares PrimFloat.zero)
  = true.
Proof. vm_compute. reflexivity. Qed.

End SplitFacts.


(* ------------------------------------------------------------------ *)
(** ** Order state machine *)

Section OrderFacts.
Import Sql Orders.
Local Open Scope Z_scope.
Local Open Scope string_scope.

Lemma existsb_find_order p t :
  existsb (fun o => id o =? p) t
  = match find_order p t with Some _ => true | None => false end.
Proof.
  unfold find_order. induction t as [|r t IH]; simpl; [reflexivity|].
  destruct (id r =? p); [reflexivity | exact IH].
Qed.

Lemma find_order_updated now p s t :
  find_order p (updated now p s t)
  = option_map (set_status now s) (find_order p t).
Proof.
  unfold find_order, updated. induction t as [|r t IH]; simpl; [reflexivity|].
  destruct (id r =? p) eqn:E; simpl.
  - rewrite E. reflexivity.
  - rewrite E. exact IH.
Qed.

Lemma find_order_updated_other now p q s t :
  p <> q -> find_order q (updated now p s t) = find_order q t.
Proof.
  intros Hpq. unfold find_order, updated.
  induction t as [|r t IH]; simpl; [reflexivity|].
  destruct (String.eqb_spec (id r) p) as [Hp|Hp]; simpl.
  - destruct (String.eqb_spec (id r) q) as [Hq|Hq]; [congruence | exact IH].
  - destruct (id r =? q); [reflexivity | exact IH].
Qed.

(** With a matching order the call updates it, appends one history entry
    and returns true. *)
Lemma update_order_status_found d now p s m l o :
  find_order p (orders d) = Some o ->
  update_order_status d now p s m l
  = Ok (mkDb (updated now p s (orders d))
             (order_status_history d ++ [mkHistory p s m l now])%list,
        true).
Proof.
  intros Hf. unfold update_order_status, sql_update, insert_history.
  cbn [bind order_id].
  change (map _ (orders d)) with (updated now p s (orders d)).
  rewrite existsb_find_order, find_order_updated, Hf. reflexivity.
Qed.

(** Without one the history insert breaks the foreign key and the call
    aborts. *)
Lemma update_order_status_missing d now p s m l :
  find_order p (orders d) = None ->
  update_order_status d now p s m l = Raise foreign_key_violation.
Proof.
  intros Hf. unfold update_order_status, sql_update, insert_history.
  cbn [bind order_id].
  change (map _ (orders d)) with (updated now p s (orders d)).
  rewrite existsb_find_order, find_order_updated, Hf. reflexivity.
Qed.

(** What one call of the hook's [updateOrderStatus] does to the row of
    any order. *)
Lemma find_order_updateOrderStatus d now input q :
  find_order q (orders (updateOrderStatus d now input))
  = if orderId input =? q
    then option_map (set_status now (newStatus input))
                    (find_order q (orders d))
    else find_order q (orders d).
Proof.
  unfold updateOrderStatus.
  destruct (find_order (orderId input) (orders d)) as [o|] eqn:Hf.
  - rewrite (update_order_status_found d now _ (newStatus input)
               (i_message input) (i_location input) o Hf). cbn [orders].
    destruct (String.eqb_spec (orderId input) q) as [<-|Hne].
    + apply find_order_updated.
    + now apply find_order_updated_other.
  - rewrite (update_order_status_missing d now _ (newStatus input)
               (i_message input) (i_location input) Hf).
    destruct (String.eqb_spec (orderId input) q) as [<-|Hne];
      [now rewrite Hf | reflexivity].
Qed.

(** The column of status [s'] after the [SET] list ran for status [s]. *)
Lemma status_timestamp_set_status now s s' o :
  status_timestamp s' (set_status now s o)
  = if status_eqb s s'
    then match s with
         | placed | nearby | failed => status_timestamp s' o
         | _ => Some (Some now)
         end
    else status_timestamp s' o.
Proof. destruct s, s'; reflexivity. Qed.

Lemma status_eqb_spec a b : reflect (a = b) (status_eqb a b).
Proof. destruct a, b; constructor; congruence. Qed.

(** C2, amended: calling [update_order_status] for an existing order twice
    in a row with the same status, at times [t1] and then [t2], succeeds
    both times and appends two history entries; the column the function
    stamps for that status (confirmed, preparing, ready, picked_up,
    on_the_way, delivered, cancelled) holds [t2] afterwards, so the second
    call overwrites what the first one wrote; [placed_at] is never written,
    [nearby] and [failed] have no column, and the columns of the other
    statuses are left as they were. *)
Theorem update_order_status_twice
  (d : db) (t1 t2 : timestamp) (p_order_id : uuid) (s : OrderStatus)
  (m1 m2 : option string) (l1 l2 : option jsonb) (o : order_row) :
  find_order p_order_id (orders d) = Some o ->
  exists d1 d2 o2,
    update_order_status d t1 p_order_id s m1 l1 = Ok (d1, true)
    /\ update_order_status d1 t2 p_order_id s m2 l2 = Ok (d2, true)
    /\ order_status_history d2
       = (order_status_history d
          ++ [mkHistory p_order_id s m1 l1 t1;
              mkHistory p_order_id s m2 l2 t2])%list
    /\ find_order p_order_id (orders d2) = Some o2
    /\ status o2 = s
    /\ status_timestamp s o2
       = match s with
         | placed => Some (placed_at o)
         | nearby | failed => None
         | _ => Some (Some t2)
         end
    /\ forall s', s' <> s -> status_timestamp s' o2 = status_timestamp s' o.
Proof.
  intros Hf.
  pose proof (update_order_status_found d t1 p_order_id s m1 l1 o Hf) as H1.
  set (d1 := mkDb (updated t1 p_order_id s (orders d))
                  (order_status_history d
                   ++ [mkHistory p_order_id s m1 l1 t1])%list) in *.
  assert (Hf1 : find_order p_order_id (orders d1)
                = Some (set_status t1 s o)).
  { unfold d1; cbn [orders]. now rewrite find_order_updated, Hf. }
  pose proof (update_order_status_found d1 t2 p_order_id s m2 l2 _ Hf1) as H2.
  eexists d1, _, (set_status t2 s (set_status t1 s o)).
  split; [exact H1|]. split; [exact H2|].
  cbn [order_status_history orders]. repeat split.
  - unfold d1; cbn [order_status_history]. now rewrite <- app_assoc.
  - now rewrite find_order_updated, Hf1.
  - destruct s; reflexivity.
  - intros s' Hne. rewrite !status_timestamp_set_status.
    destruct (status_eqb_spec s s'); [congruence | reflexivity].
Qed.

(** A run of the theorem on the sample order. *)
Lemma update_order_status_twice_witness :
  exists d2 o2,
    find_order "order-1" (orders d2) = Some o2
    /\ preparing_at o2 = Some 200%Z
    /\ List.length (order_status_history d2) = 2%nat.
Proof.
  destruct (update_order_status_twice Samples.db1 100 200 "order-1" preparing
              None None None None Samples.order1 eq_refl)
    as (d1 & d2 & o2 & _ & _ & Hh & Hf & _ & Ht & _).
  exists d2, o2. split; [exact Hf|]. split.
  - unfold status_timestamp in Ht. now injection Ht.
  - rewrite Hh. reflexivity.
Defined.

(** C2 fails as stated: the sample order is moved to [preparing] at 100
    and again at 200; [preparing_at] is 100 after the first call and 200
    after the second. *)
Lemma preparing_at_overwritten :
  exists d1 d2 o1 o2,
    update_order_status Samples.db1 100 "order-1" preparing None None
    = Ok (d1, true)
    /\ update_order_status d1 200 "order-1" preparing None None
       = Ok (d2, true)
    /\ find_order "order-1" (orders d1) = Some o1
    /\ find_order "order-1" (orders d2) = Some o2
    /\ preparing_at o1 = Some 100%Z
    /\ preparing_at o2 = Some 200%Z
    /\ preparing_at o2 <> preparing_at o1.
Proof.
  do 4 eexists. repeat split; try reflexivity. cbn. discriminate.
Qed.

(** C3, amended: [update_order_status] returns true exactly when an order
    with the given id exists, and then it has appended one history entry;
    when there is none the history insert violates the foreign key on
    [order_id], the call raises, and nothing is appended.  It never returns
    false. *)
Theorem update_order_status_result
  (d : db) (now : timestamp) (p_order_id : uuid) (s : OrderStatus)
  (m : option string) (l : option jsonb) :
  match find_order p_order_id (orders d) with
  | Some _ =>
      exists d',
        update_order_status d now p_order_id s m l = Ok (d', true)
        /\ order_status_history d'
           = (order_status_history d
              ++ [mkHistory p_order_id s m l now])%list
  | None =>
      update_order_status d now p_order_id s m l
      = Raise foreign_key_violation
  end
  /\ forall d', update_order_status d now p_order_id s m l <> Ok (d', false).
Proof.
  destruct (find_order p_order_id (orders d)) as [o|] eqn:Hf.
  - pose proof (update_order_status_found d now p_order_id s m l o Hf) as H.
    split.
    + eexists. split; [exact H | reflexivity].
    + intros d'. rewrite H. discriminate.
  - pose proof (update_order_status_missing d now p_order_id s m l Hf) as H.
    split; [exact H|]. intros d'. rewrite H. discriminate.
Qed.

(** C3 fails as stated: with no order in the table the call neither
    returns false nor appends a history entry; it raises. *)
Lemma update_order_status_missing_order_raises :
  update_order_status Samples.db_empty 100 "order-9" confirmed None None
  = Raise foreign_key_violation
  /\ ~ (exists d',
          update_order_status Samples.db_empty 100 "order-9" confirmed
            None None = Ok (d', false)).
Proof.
  split; [reflexivity|]. intros [d' H]. discriminate H.
Qed.

(** Once the column of a terminal status holds a time, a run of
    transitions never empties it, and changes it only by entering that
    status again. *)
Lemma transitions_keep_timestamp (oid : uuid) (ts : OrderStatus) :
  ts = delivered \/ ts = cancelled ->
  forall calls d o t,
    find_order oid (orders d) = Some o ->
    status_timestamp ts o = Some (Some t) ->
    exists o',
      find_order oid (orders (transitions d calls)) = Some o'
      /\ (exists t', status_timestamp ts o' = Some (Some t'))
      /\ (Forall (fun c => orderId (snd c) = oid -> newStatus (snd c) <> ts)
                 calls ->
          status_timestamp ts o' = Some (Some t)).
Proof.
  intros Hts. induction calls as [|[now input] calls IH]; intros d o t Hf Ht.
  - exists o. cbn [transitions]. eauto.
  - cbn [transitions].
    pose proof (find_order_updateOrderStatus d now input oid) as Hstep.
    rewrite Hf in Hstep. cbn [option_map] in Hstep.
    destruct (String.eqb_spec (orderId input) oid) as [Heq|Hne].
    + pose proof (status_timestamp_set_status now (newStatus input) ts o)
        as Hcol.
      destruct (status_eqb_spec (newStatus input) ts) as [Hs|Hs].
      * assert (Hnow : status_timestamp ts
                         (set_status now (newStatus input) o)
                       = Some (Some now))
          by (rewrite Hcol, Hs; destruct Hts; subst ts; reflexivity).
        destruct (IH _ _ now Hstep Hnow) as (o' & Hf' & Hsome & _).
        exists o'. repeat split; try assumption.
        intros Hall. apply Forall_inv in Hall. cbn [snd] in Hall.
        now specialize (Hall Heq).
      * rewrite Ht in Hcol.
        destruct (IH _ _ t Hstep Hcol) as (o' & Hf' & Hsome & Hkeep).
        exists o'. repeat split; try assumption.
        intros Hall. apply Forall_inv_tail in Hall. auto.
    + destruct (IH _ _ t Hstep Ht) as (o' & Hf' & Hsome & Hkeep).
      exists o'. repeat split; try assumption.
      intros Hall. apply Forall_inv_tail in Hall. auto.
Qed.

(** C4, amended: once the [delivered_at] (or [cancelled_at]) column of an
    order holds a time, no run of transition calls clears it, and it keeps
    its value as long as no call enters that same status again; but no
    transition is rejected: whatever the order's status, a call for any
    status succeeds, returns true and sets that status. *)
Theorem terminal_timestamp_kept
  (d : db) (calls : list (timestamp * UpdateOrderStatusInput))
  (oid : uuid) (o : order_row) (ts : OrderStatus) (t : timestamp) :
  ts = delivered \/ ts = cancelled ->
  find_order oid (orders d) = Some o ->
  status_timestamp ts o = Some (Some t) ->
  exists o',
    find_order oid (orders (transitions d calls)) = Some o'
    /\ (exists t', status_timestamp ts o' = Some (Some t'))
    /\ (Forall (fun c => orderId (snd c) = oid -> newStatus (snd c) <> ts)
               calls ->
        status_timestamp ts o' = Some (Some t))
    /\ forall now s m l,
         exists d' o'',
           update_order_status (transitions d calls) now oid s m l
           = Ok (d', true)
           /\ find_order oid (orders d') = Some o''
           /\ status o'' = s.
Proof.
  intros Hts Hf Ht.
  destruct (transitions_keep_timestamp oid ts Hts calls d o t Hf Ht)
    as (o' & Hf' & Hsome & Hkeep).
  exists o'. repeat split; try assumption.
  intros now s m l.
  eexists _, (set_status now s o'). split; [|split].
  - exact (update_order_status_found _ now oid s m l o' Hf').
  - cbn [orders]. now rewrite find_order_updated, Hf'.
  - reflexivity.
Qed.

(** A run of the theorem: the delivered sample order is sent back to
    [preparing] and then cancelled; [delivered_at] still holds 100. *)
Lemma terminal_timestamp_kept_witness :
  exists o',
    find_order "order-1"
      (orders (transitions Samples.db_delivered
                 [(200, mkInput "order-1" preparing None None);
                  (300, mkInput "order-1" cancelled None None)]))
    = Some o'
    /\ delivered_at o' = Some 100.
Proof.
  destruct (terminal_timestamp_kept Samples.db_delivered
              [(200, mkInput "order-1" preparing None None);
               (300, mkInput "order-1" cancelled None None)]
              "order-1" Samples.delivered1 delivered 100
              (or_introl eq_refl) eq_refl eq_refl)
    as (o' & Hf & _ & Hkeep & _).
  exists o'. split; [exact Hf|].
  assert (H : status_timestamp delivered o' = Some (Some 100)).
  { apply Hkeep. repeat constructor; cbn; discriminate. }
  unfold status_timestamp in H. now injection H.
Defined.

(** C4 fails as stated: the delivered sample order accepts a transition
    back to [preparing], and entering [delivered] again at 300 replaces the
    [delivered_at] of 100. *)
Lemma delivered_order_reopened :
  delivered_at Samples.delivered1 = Some 100
  /\ (exists d' o',
        update_order_status Samples.db_delivered 200 "order-1" preparing
          None None = Ok (d', true)
        /\ find_order "order-1" (orders d') = Some o'
        /\ status o' = preparing)
  /\ (exists d' o',
        update_order_status Samples.db_delivered 300 "order-1" delivered
          None None = Ok (d', true)
        /\ find_order "order-1" (orders d') = Some o'
        /\ delivered_at o' = Some 300).
Proof.
  split; [reflexivity|].
  split; do 2 eexists; repeat split; reflexivity.
Qed.

(** The hook's [cancelOrder] does not look at the status either: it
    cancels the delivered sample order and keeps its [delivered_at]. *)
Example cancelOrder_after_delivery :
  exists o',
    find_order "order-1"
      (orders (cancelOrder Samples.db_delivered 200 210 "order-1" "late"))
    = Some o'
    /\ status o' = cancelled
    /\ cancelled_at o' = Some 200
    /\ delivered_at o' = Some 100
    /\ cancellation_reason o' = Some "late"
    /\ cancelled_by o' = Some "customer".
Proof. eexists. repeat split; reflexivity. Qed.

End OrderFacts.


(* ------------------------------------------------------------------ *)
(** ** Order tracking state *)

Section TrackingFacts.
Import Orders Tracking.
Local Open Scope Z_scope.

(** [Math.ceil(remaining / 60000)] is the least number of whole minutes
    that covers [remaining] milliseconds. *)
Lemma ceil_minutes (remaining : Z) :
  60000 * (Qceiling (inject_Z remaining / 60000) - 1) < remaining
  <= 60000 * Qceiling (inject_Z remaining / 60000).
Proof.
  pose proof (Qle_ceiling (inject_Z remaining / 60000)) as H1.
  pose proof (Qceiling_lt (inject_Z remaining / 60000)) as H2.
  set (c := Qceiling (inject_Z remaining / 60000)) in *. clearbody c.
  unfold Qle, Qlt, Qdiv, Qmult, Qinv, inject_Z in H1, H2; cbn in H1, H2.
  lia.
Qed.



(** The rating is tested for truthiness, so a rating of 0, which the
    table cannot hold, would count as no rating. *)
Example canRate_with_zero_rating :
  canRate (getOrderTrackingState [] 30000 Samples.rated0) = true.
Proof. reflexivity. Qed.

(** A cancelled order is outside the sequence: its progress is 0. *)
Example progress_of_cancelled (o : Order) :
  status o = cancelled ->
  (progressPercentage (getOrderTrackingState [] 0 o) == 0)%Q.
Proof.
  intros H. unfold getOrderTrackingState; cbn [progressPercentage].
  rewrite H. reflexivity.
Qed.

End TrackingFacts.


(* ------------------------------------------------------------------ *)
(** ** Budget monitor *)

Section BudgetFacts.
Import Sql Expenses.
Local Open Scope Q_scope.

Lemma inject_Z_div100_le (a b : Z) :
  (a <= b)%Z -> inject_Z a / 100 <= inject_Z b / 100.
Proof.
  intros H. unfold Qle, Qdiv, Qmult, Qinv, inject_Z; cbn. lia.
Qed.

Lemma Qfloor_nonneg (x : Q) : 0 <= x -> (0 <= Qfloor x)%Z.
Proof. intros H. apply (Qfloor_resp_le 0 x) in H. exact H. Qed.

Lemma Qle_bool_false (x y : Q) : Qle_bool x y = false -> y < x.
Proof.
  intros H. apply Qnot_le_lt. intros Hle.
  apply Qle_bool_iff in Hle. congruence.
Qed.

(** [ROUND(x, 2)] does not decrease when [x] grows. *)
Lemma ROUND2_monotone (x y : Q) : x <= y -> ROUND2 x <= ROUND2 y.
Proof.
  intros Hxy. unfold ROUND2.
  destruct (Qle_bool 0 x) eqn:Hx, (Qle_bool 0 y) eqn:Hy.
  - apply inject_Z_div100_le, Qfloor_resp_le. lra.
  - apply Qle_bool_iff in Hx. apply Qle_bool_false in Hy. lra.
  - apply Qle_bool_false in Hx. apply Qle_bool_iff in Hy.
    assert (H1 : (0 <= Qfloor (- x * 100 + (1 # 2)))%Z)
      by (apply Qfloor_nonneg; lra).
    assert (H2 : (0 <= Qfloor (y * 100 + (1 # 2)))%Z)
      by (apply Qfloor_nonneg; lra).
    apply (inject_Z_div100_le 0) in H1, H2.
    assert (H0 : inject_Z 0 / 100 == 0) by reflexivity.
    rewrite H0 in H1, H2. lra.
  - apply Qopp_le_compat, inject_Z_div100_le, Qfloor_resp_le. lra.
Qed.

(** [ROUND(x, 2)] is a whole number of hundredths, the nearest one, with
    ties going away from zero. *)
Lemma ROUND2_spec (x : Q) :
  (exists k : Z, ROUND2 x == inject_Z k / 100)
  /\ (0 <= x -> x - (1 # 200) < ROUND2 x /\ ROUND2 x <= x + (1 # 200))
  /\ (x < 0 -> x - (1 # 200) <= ROUND2 x /\ ROUND2 x < x + (1 # 200)).
Proof.
  unfold ROUND2. destruct (Qle_bool 0 x) eqn:Hx.
  - apply Qle_bool_iff in Hx.
    pose proof (Qfloor_le (x * 100 + (1 # 2))) as Hlo.
    pose proof (Qlt_floor (x * 100 + (1 # 2))) as Hhi.
    rewrite inject_Z_plus in Hhi. change (inject_Z 1) with 1 in Hhi.
    set (f := inject_Z (Qfloor (x * 100 + (1 # 2)))) in *.
    split; [eexists; reflexivity|].
    setoid_replace (f / 100) with (f * (1 # 100)) by field.
    clearbody f. split; intros; split; lra.
  - apply Qle_bool_false in Hx.
    pose proof (Qfloor_le (- x * 100 + (1 # 2))) as Hlo.
    pose proof (Qlt_floor (- x * 100 + (1 # 2))) as Hhi.
    rewrite inject_Z_plus in Hhi. change (inject_Z 1) with 1 in Hhi.
    split.
    + exists (- Qfloor (- x * 100 + (1 # 2)))%Z.
      rewrite inject_Z_opp. field.
    + set (f := inject_Z (Qfloor (- x * 100 + (1 # 2)))) in *.
      setoid_replace (f / 100) with (f * (1 # 100)) by field.
      clearbody f. split; intros; split; lra.
Qed.

Lemma raw_percentage_zero (spent budget : Q) :
  budget == 0 -> raw_percentage spent budget = None.
Proof.
  intros H. unfold raw_percentage, NULLIF0.
  apply Qeq_bool_iff in H. now rewrite H.
Qed.

Lemma raw_percentage_nonzero (spent budget : Q) :
  ~ budget == 0 ->
  raw_percentage spent budget = Some (spent / budget * 100).
Proof.
  intros H. unfold raw_percentage, NULLIF0.
  destruct (Qeq_bool budget 0) eqn:E; [|reflexivity].
  apply Qeq_bool_iff in E. contradiction.
Qed.

Lemma percentage_monotone (spent spent' budget : Q) :
  0 < budget -> spent <= spent' ->
  spent / budget * 100 <= spent' / budget * 100.
Proof.
  intros Hb Hs.
  apply Qmult_le_compat_r; [|discriminate].
  apply Qmult_le_compat_r; [exact Hs|].
  apply Qinv_le_0_compat. lra.
Qed.

(** The limit and the threshold come from the budget table alone. *)
Lemma budget_limit_independent budgets orders orders' now user period :
  budget_limit (get_budget_usage budgets orders now user period)
  = budget_limit (get_budget_usage budgets orders' now user period)
  /\ u_alert_threshold (get_budget_usage budgets orders now user period)
     = u_alert_threshold (get_budget_usage budgets orders' now user period).
Proof.
  unfold get_budget_usage.
  destruct (select_budget budgets user period) as [b t]. split; reflexivity.
Qed.

(** C5, amended: [get_budget_usage] never fails.  With a limit of 0 both
    [percentage_used] and [should_alert] are NULL, so there is no alert.
    Otherwise [percentage_used] is [totalSpent / budgetLimit * 100] rounded
    to two decimals, and [should_alert] is true exactly when the unrounded
    percentage [totalSpent / budgetLimit * 100] is at least the threshold,
    and false otherwise.  For a fixed positive limit [percentage_used]
    does not decrease when [totalSpent] grows. *)
Theorem get_budget_usage_alert
  (budgets : list user_budget) (orders orders' : list food_order)
  (now : timestamp) (p_user_id : option uuid) (p_period : string) :
  let u := get_budget_usage budgets orders now p_user_id p_period in
  let u' := get_budget_usage budgets orders' now p_user_id p_period in
  let raw := total_spent u / budget_limit u * 100 in
  (budget_limit u == 0 ->
   percentage_used u = None /\ should_alert u = None)
  /\ (~ budget_limit u == 0 ->
      percentage_used u = Some (ROUND2 raw)
      /\ (should_alert u = Some true <-> u_alert_threshold u <= raw)
      /\ (should_alert u = Some false <-> raw < u_alert_threshold u))
  /\ (0 < budget_limit u -> total_spent u <= total_spent u' ->
      exists p p',
        percentage_used u = Some p
        /\ percentage_used u' = Some p'
        /\ p <= p').
Proof.
  intros u u' raw. subst raw u u'.
  unfold get_budget_usage.
  destruct (select_budget budgets p_user_id p_period) as [b t].
  cbn [total_spent budget_limit percentage_used should_alert
       u_alert_threshold].
  set (limit := match b with Some x => x | None => default_budget p_period
                end).
  set (threshold := match t with Some x => x | None => 80 end).
  set (spent := v_spent orders now p_user_id p_period).
  set (spent' := v_spent orders' now p_user_id p_period).
  split; [|split].
  - intros Hz. now rewrite (raw_percentage_zero spent limit Hz).
  - intros Hnz. rewrite (raw_percentage_nonzero spent limit Hnz).
    cbn [option_map]. split; [reflexivity|]. split.
    + rewrite <- Qle_bool_iff.
      destruct (Qle_bool threshold (spent / limit * 100));
        intuition congruence.
    + destruct (Qle_bool threshold (spent / limit * 100)) eqn:E.
      * apply Qle_bool_iff in E. split; [discriminate | lra].
      * apply Qle_bool_false in E. tauto.
  - intros Hpos Hle.
    assert (Hnz : ~ limit == 0) by lra.
    rewrite (raw_percentage_nonzero spent limit Hnz).
    rewrite (raw_percentage_nonzero spent' limit Hnz).
    cbn [option_map]. do 2 eexists. split; [reflexivity|].
    split; [reflexivity|].
    now apply ROUND2_monotone, percentage_monotone.
Qed.

(** A run of the theorem, on the default monthly limit of 10000: with the
    sample rows 300 is spent, none of it with no rows, and the percentage
    does not go down. *)
Lemma get_budget_usage_alert_witness :
  exists p p',
    percentage_used (get_budget_usage [] [] Samples.noon None "monthly")
    = Some p
    /\ percentage_used
         (get_budget_usage [] Samples.mixed Samples.noon None "monthly")
       = Some p'
    /\ p <= p'.
Proof.
  destruct (get_budget_usage_alert [] [] Samples.mixed Samples.noon None
              "monthly") as (_ & _ & Hmono).
  apply Hmono; vm_compute; first [reflexivity | discriminate].
Defined.

(** With a negative limit the percentage goes down as spending goes up:
    0 with nothing spent, -30 with 300 spent against -1000. *)
Example negative_limit_not_monotone :
  let budgets := [mkBudget None None None (Some (-1000)) None] in
  exists p p',
    percentage_used (get_budget_usage budgets [] Samples.noon None "monthly")
    = Some p
    /\ percentage_used
         (get_budget_usage budgets Samples.mixed Samples.noon None "monthly")
       = Some p'
    /\ p' < p.
Proof. do 2 eexists. repeat split. Qed.

(** C5 fails as stated: with 7999.60 spent against the default limit of
    10000 and threshold of 80, [percentage_used] is 80.00, which reaches
    the threshold, while [should_alert] is false, because the unrounded
    79.996 does not. *)
Lemma should_alert_ignores_rounding :
  let u := get_budget_usage [] Samples.just_below Samples.noon None
             "monthly" in
  total_spent u == 79996 # 10
  /\ budget_limit u == 10000
  /\ u_alert_threshold u == 80
  /\ (exists p, percentage_used u = Some p /\ p == 80
                /\ u_alert_threshold u <= p)
  /\ should_alert u = Some false.
Proof.
  vm_compute. repeat split; try discriminate.
  eexists. repeat split; discriminate.
Qed.

End BudgetFacts.


(* ------------------------------------------------------------------ *)
(** ** Expense cancellation *)

Section CancelFacts.
Import Sql Expenses.
Local Open Scope Z_scope.
Local Open Scope string_scope.

(** [id] is the primary key of [food_orders]. *)
Lemma primary_key_unique (t : list food_order) (e r : food_order) :
  NoDup (map id t) -> In e t -> In r t -> id r = id e -> r = e.
Proof.
  induction t as [|x t IH]; intros Hnd He Hr Hid; [contradiction|].
  cbn [map] in Hnd. apply NoDup_cons_iff in Hnd as [Hx Hnd].
  destruct He as [->|He], Hr as [->|Hr].
  - reflexivity.
  - exfalso. apply Hx. rewrite <- Hid. now apply in_map.
  - exfalso. apply Hx. rewrite Hid. now apply in_map.
  - now apply IH.
Qed.

Lemma cancel_where_iff (p : uuid) (r : food_order) :
  cancel_where p r = true
  <-> id r = p /\ (status r = Some pending \/ status r = Some completed).
Proof.
  unfold cancel_where, status_in_pending_completed.
  destruct (String.eqb_spec (id r) p) as [Hid|Hid];
    destruct (status r) as [[| | |]|]; cbn;
    intuition (try discriminate; try congruence).
Qed.

Lemma sql_update_nothing {row} (where_ : row -> bool) (set : row -> row)
  (t : list row) :
  existsb where_ t = false ->
  map (fun r => if where_ r then set r else r) t = t.
Proof.
  induction t as [|x t IH]; cbn; [reflexivity|].
  intros H. apply orb_false_iff in H as [Hx Ht].
  now rewrite Hx, IH.
Qed.

(** C7: for every expense in the table, [cancel_expense] on its id
    returns true if and only if its status is [pending] or [completed];
    then the row, at its place in the table, has status [cancelled],
    [cancelled_at] set to the current time and [cancelled_reason] set to
    the given reason, its other columns but [updated_at] as before, and
    every other row is as it was; when it returns false the table is
    unchanged. *)
Theorem cancel_expense_spec
  (t : list food_order) (now : timestamp) (p_reason : option string)
  (e : food_order) :
  NoDup (map id t) -> In e t ->
  let t' := fst (cancel_expense t now (id e) p_reason) in
  let found := snd (cancel_expense t now (id e) p_reason) in
  (found = true <-> status e = Some pending \/ status e = Some completed)
  /\ (found = true ->
      (forall i r, nth_error t i = Some r ->
         nth_error t' i
         = Some (if id r =? id e then set_cancelled now p_reason e else r))
      /\ status (set_cancelled now p_reason e) = Some cancelled
      /\ cancelled_at (set_cancelled now p_reason e) = Some now
      /\ cancelled_reason (set_cancelled now p_reason e) = p_reason
      /\ (amount (set_cancelled now p_reason e),
          order_date (set_cancelled now p_reason e),
          transaction_type (set_cancelled now p_reason e),
          food_name (set_cancelled now p_reason e))
         = (amount e, order_date e, transaction_type e, food_name e))
  /\ (found = false -> t' = t).
Proof.
  intros Hnd He t' found. subst t' found.
  unfold cancel_expense, Orders.sql_update. cbn [fst snd].
  assert (Hiff : existsb (cancel_where (id e)) t = true
                 <-> status e = Some pending \/ status e = Some completed).
  { rewrite existsb_exists. split.
    - intros (r & Hr & Hw). apply cancel_where_iff in Hw as [Hid Hs].
      now rewrite <- (primary_key_unique t e r Hnd He Hr Hid).
    - intros Hs. exists e. split; [exact He|].
      apply cancel_where_iff. now split. }
  split; [exact Hiff|]. split.
  - intros Hfound. apply Hiff in Hfound.
    split; [|repeat split].
    intros i r Hi. rewrite nth_error_map, Hi. cbn [option_map]. f_equal.
    assert (Hr : In r t) by (eapply nth_error_In; eassumption).
    destruct (String.eqb_spec (id r) (id e)) as [Hid|Hid].
    + rewrite (primary_key_unique t e r Hnd He Hr Hid).
      assert (Hw : cancel_where (id e) e = true)
        by (apply cancel_where_iff; now split).
      now rewrite Hw.
    + destruct (cancel_where (id e) r) eqn:Hw; [|reflexivity].
      apply cancel_where_iff in Hw as [Hw _]. contradiction.
  - apply sql_update_nothing.
Qed.

(** A run of the theorem: the pending sample row can be cancelled. *)
Lemma cancel_expense_spec_witness :
  snd (cancel_expense Samples.mixed Samples.noon "e2" (Some "duplicate"))
  = true.
Proof.
  assert (Hnd : NoDup (map id Samples.mixed)).
  { repeat (constructor; [cbn; intuition discriminate|]). constructor. }
  assert (Hin : In (Samples.food "e2" 100 pending expense) Samples.mixed)
    by (cbn; auto).
  destruct (cancel_expense_spec Samples.mixed Samples.noon (Some "duplicate")
              _ Hnd Hin) as (Hiff & _).
  apply Hiff. left. reflexivity.
Defined.

(** The failed sample row cannot: the call returns false and the table is
    as it was. *)
Example cancel_expense_of_failed :
  cancel_expense Samples.mixed Samples.noon "e4" None
  = (Samples.mixed, false).
Proof. reflexivity. Qed.

End CancelFacts.


(* ------------------------------------------------------------------ *)
(** ** Expense ledger *)

Section LedgerFacts.
Import Ledger.
Local Open Scope Z_scope.
Local Open Scope string_scope.

(** Closes the goal of a rejected submission: nothing moved, one error
    shown. *)
Ltac rejected := cbn; repeat split; eexists; reflexivity.

(** C8, amended: the form handler [handleAddExpense] rejects a submission
    whose amount does not parse, or parses to a number that is 0 or less,
    or whose description is blank once trimmed: it shows one error and
    returns before it calls [addExpense], so the collection, the remote
    inserts and the form are as they were.  (The hook's [addExpense] itself
    checks nothing.) *)
Theorem handleAddExpense_rejects
  (parseFloat : string -> option Q) (r : remote) (now : Z) (u : ui) :
  parseFloat (f_amount (newExpense u)) = None
  \/ (exists a, parseFloat (f_amount (newExpense u)) = Some a /\ (a <= 0)%Q)
  \/ trim (f_foodName (newExpense u)) = "" ->
  let u' := handleAddExpense parseFloat r now u in
  expenses (hook u') = expenses (hook u)
  /\ remote_inserts (hook u') = remote_inserts (hook u)
  /\ newExpense u' = newExpense u
  /\ showAddModal u' = showAddModal u
  /\ exists msg, toasts (hook u') = (toasts (hook u) ++ [toast_error msg])%list.
Proof.
  intros H u'. subst u'. unfold handleAddExpense.
  destruct (parseFloat (f_amount (newExpense u))) as [a|] eqn:Hp.
  - destruct (Qle_bool a 0) eqn:Ha.
    + rejected.
    + destruct (String.eqb_spec (trim (f_foodName (newExpense u))) "")
        as [Ht|Ht].
      * rejected.
      * exfalso. destruct H as [H|[(a' & Ha' & Hle)|H]].
        -- discriminate H.
        -- injection Ha' as <-. apply Qle_bool_iff in Hle. congruence.
        -- contradiction.
  - rejected.
Qed.

(** A run of the theorem: a form with amount 0 is turned away. *)
Lemma handleAddExpense_rejects_witness :
  let u := mkUi (mkForm "Thali" "0" "delivery" "lunch" "") true
             Samples.fresh in
  expenses (hook (handleAddExpense Samples.parse_sample Samples.signed_in
                    Samples.noon u)) = []
  /\ remote_inserts (hook (handleAddExpense Samples.parse_sample
                             Samples.signed_in Samples.noon u)) = [].
Proof.
  intros u.
  assert (H : Samples.parse_sample (f_amount (newExpense u)) = None
              \/ (exists a, Samples.parse_sample (f_amount (newExpense u))
                            = Some a /\ (a <= 0)%Q)
              \/ trim (f_foodName (newExpense u)) = "").
  { right; left. exists 0%Q. split; [reflexivity | discriminate]. }
  destruct (handleAddExpense_rejects Samples.parse_sample Samples.signed_in
              Samples.noon u H) as (He & Hr & _).
  split; [exact He | exact Hr].
Defined.

(** A well-formed submission does reach [addExpense]. *)
Example handleAddExpense_accepts :
  let u := mkUi (mkForm " Thali " "120.50" "delivery" "lunch" "") true
             Samples.fresh in
  let u' := handleAddExpense Samples.parse_sample Samples.signed_in
              Samples.noon u in
  map id (expenses (hook u')) = ["row-7"]
  /\ map (fun e => foodName (fields e)) (expenses (hook u')) = ["Thali"]
  /\ List.length (remote_inserts (hook u')) = 1%nat.
Proof. repeat split. Qed.

(** White space outside ASCII is trimmed as well: a description made of a
    no-break space (U+00A0) is turned away, and one between an ideographic
    space and a no-break space is stored without them. *)
Example handleAddExpense_unicode_space :
  let blank := mkUi (mkForm (utf8 160) "120.50" "delivery" "lunch" "") true
                 Samples.fresh in
  let padded := mkUi (mkForm (utf8 12288 ++ "Thali" ++ utf8 160) "120.50"
                        "delivery" "lunch" "") true Samples.fresh in
  trim (utf8 160) = ""
  /\ expenses (hook (handleAddExpense Samples.parse_sample Samples.signed_in
                       Samples.noon blank)) = []
  /\ remote_inserts (hook (handleAddExpense Samples.parse_sample
                             Samples.signed_in Samples.noon blank)) = []
  /\ map (fun e => foodName (fields e))
         (expenses (hook (handleAddExpense Samples.parse_sample
                            Samples.signed_in Samples.noon padded)))
     = ["Thali"].
Proof. repeat split. Qed.

(** C8 fails as stated for the hook's [addExpense]: handed an expense
    with amount 0 and an empty description, it inserts it into the
    collection and issues the remote insert. *)
Lemma addExpense_does_not_validate :
  (amount Samples.blank <= 0)%Q
  /\ foodName Samples.blank = ""
  /\ expenses (fst (addExpense Samples.signed_in Samples.blank Samples.fresh))
     = [mkExpense "row-7" Samples.blank]
  /\ remote_inserts
       (fst (addExpense Samples.signed_in Samples.blank Samples.fresh))
     = [("user-1", Samples.blank)].
Proof. repeat split. discriminate. Qed.

(** Reconciliation keeps every field but the identity, so it keeps the
    dates the recency sort compares. *)
Lemma insert_recent_reconcile (tempId dataId : string) (e : FoodExpense)
  (l : list FoodExpense) :
  insert_recent (if id e =? tempId then mkExpense dataId (fields e) else e)
                (reconcile tempId dataId l)
  = reconcile tempId dataId (insert_recent e l).
Proof.
  unfold reconcile. induction l as [|x l IH]; cbn [map insert_recent].
  - reflexivity.
  - assert (Hd : forall y : FoodExpense,
               date (fields (if id y =? tempId
                             then mkExpense dataId (fields y) else y))
               = date (fields y))
      by (intros y; destruct (id y =? tempId); reflexivity).
    rewrite !Hd.
    destruct (date (fields x) <=? date (fields e))%Z; cbn [map].
    + reflexivity.
    + now rewrite IH.
Qed.

Lemma sort_recent_reconcile (tempId dataId : string) (l : list FoodExpense) :
  sort_recent (reconcile tempId dataId l)
  = reconcile tempId dataId (sort_recent l).
Proof.
  unfold sort_recent. induction l as [|x l IH]; [reflexivity|].
  cbn [reconcile map fold_right].
  change (map _ l) with (reconcile tempId dataId l).
  rewrite IH. apply insert_recent_reconcile.
Qed.

(** C9: when the remote insert of an optimistically added expense
    succeeds, the collection is the optimistic one with identities
    rewritten; it has the same length, the new entry is still at the head
    with the server's identity and the fields it was given, every entry
    sits where it sat with the fields it had, only an identity equal to the
    temporary one changes, and the recency-sorted view is the old one with
    the same identities rewritten, each entry at its old rank. *)
Theorem addExpense_reconciles
  (r : remote) (expense : ExpenseFields) (st : state)
  (uid dataId : string) (limit : nat) :
  userId r = Some uid -> insertedId r = Some dataId ->
  let optimistic := mkExpense (tempId r) expense :: expenses st in
  let after := expenses (fst (addExpense r expense st)) in
  after = reconcile (tempId r) dataId optimistic
  /\ List.length after = List.length optimistic
  /\ nth_error after 0 = Some (mkExpense dataId expense)
  /\ snd (addExpense r expense st) = mkExpense dataId expense
  /\ (forall i e, nth_error optimistic i = Some e ->
        exists e',
          nth_error after i = Some e'
          /\ fields e' = fields e
          /\ id e' = if id e =? tempId r then dataId else id e)
  /\ getRecentExpenses limit after
     = reconcile (tempId r) dataId (getRecentExpenses limit optimistic).
Proof.
  intros Hu Hi optimistic after. subst after.
  unfold addExpense. rewrite Hu, Hi. cbn [fst snd expenses].
  fold optimistic.
  split; [reflexivity|]. split; [apply length_map|]. split.
  { unfold optimistic, reconcile. cbn [map nth_error id fields].
    now rewrite String.eqb_refl. }
  split; [reflexivity|]. split.
  - intros i e He. unfold reconcile. rewrite nth_error_map, He.
    cbn [option_map]. eexists. split; [reflexivity|].
    destruct (id e =? tempId r); split; reflexivity.
  - unfold getRecentExpenses. rewrite sort_recent_reconcile.
    unfold reconcile. now rewrite firstn_map.
Qed.

(** A run of the theorem: an expense is added to a collection that
    already holds two rows. *)
Lemma addExpense_reconciles_witness :
  let st := mkState (map mapOrderToExpense
                       [Samples.food "e1" 300 Expenses.completed
                          Expenses.expense;
                        Samples.food "e2" 100 Expenses.pending
                          Expenses.expense]) [] [] in
  map id (expenses (fst (addExpense Samples.signed_in Samples.blank st)))
  = ["row-7"; "e1"; "e2"].
Proof.
  intros st.
  destruct (addExpense_reconciles Samples.signed_in Samples.blank st
              "user-1" "row-7" 5 eq_refl eq_refl) as (H & _).
  rewrite H. reflexivity.
Defined.

(** ** Period totals and the budget's spending *)

Lemma total_from (acc : Q) (f : FoodExpense -> FoodExpense)
  (l : list FoodExpense) :
  (forall e, amount (fields (f e)) = amount (fields e)) ->
  fold_left (fun sum e => (sum + amount (fields e))%Q) (map f l) acc
  = fold_left (fun sum e => (sum + amount (fields e))%Q) l acc.
Proof.
  intros Hf. revert acc. induction l as [|x l IH]; intros acc; cbn.
  - reflexivity.
  - now rewrite Hf, IH.
Qed.

Lemma filter_map_same {A} (p : A -> bool) (f : A -> A) (l : list A) :
  (forall x, p (f x) = p x) -> filter p (map f l) = map f (filter p l).
Proof.
  intros Hp. induction l as [|x l IH]; cbn; [reflexivity|].
  rewrite Hp. destruct (p x); cbn; now rewrite IH.
Qed.

Lemma filter_filter_implied {A} (p q : A -> bool) (l : list A) :
  (forall x, p x = true -> q x = true) -> filter p (filter q l) = filter p l.
Proof.
  intros Hpq. induction l as [|x l IH]; cbn; [reflexivity|].
  destruct (q x) eqn:Hq; cbn.
  - destruct (p x); now rewrite IH.
  - destruct (p x) eqn:Hpx; [|exact IH].
    apply Hpq in Hpx. congruence.
Qed.

Lemma total_acc (l : list FoodExpense) (acc : Q) :
  (fold_left (fun sum e => sum + amount (fields e)) l acc
   == acc + total l)%Q.
Proof.
  unfold total. revert acc. induction l as [|x l IH]; intros acc; cbn.
  - ring.
  - rewrite IH. rewrite (IH (0 + amount (fields x))%Q). ring.
Qed.

Lemma total_cons (x : FoodExpense) (l : list FoodExpense) :
  (total (x :: l) == amount (fields x) + total l)%Q.
Proof. unfold total at 1. cbn. rewrite total_acc. ring. Qed.

(** A filter that looks at the date only gives the sum over its window. *)
Lemma total_filter_sum (p : FoodExpense -> bool) (inside : Z -> bool)
  (l : list FoodExpense) :
  (forall e, p e = inside (date (fields e))) ->
  (total (filter p l) == sum_in_window inside l)%Q.
Proof.
  intros Hp. induction l as [|x l IH]; cbn [filter sum_in_window].
  - reflexivity.
  - rewrite Hp. destruct (inside (date (fields x))).
    + now rewrite total_cons, IH.
    + rewrite IH. ring.
Qed.

(** Two dates are on the same day exactly when one lies between the
    other's midnight and the next. *)
Lemma same_day_window (now d : Z) :
  (Calendar.day_number d =? Calendar.day_number now)%Z = within_today now d.
Proof.
  unfold within_today, Calendar.start_of_day, Calendar.day_number,
    Calendar.ms_per_day.
  pose proof (Z.div_mod d 86400000 ltac:(lia)) as Hd.
  pose proof (Z.mod_pos_bound d 86400000 ltac:(lia)) as Hr.
  set (q := (d / 86400000)%Z) in *. set (q' := (now / 86400000)%Z).
  destruct (Z.eqb_spec q q') as [E|E];
    destruct (Z.leb_spec (q' * 86400000) d) as [H1|H1];
    destruct (Z.ltb_spec d (q' * 86400000 + 86400000)) as [H2|H2];
    cbn [andb]; try reflexivity; exfalso; lia.
Qed.

Lemma spent_where_sum (clause counted : Expenses.food_order -> bool)
  (orders : list Expenses.food_order) :
  (forall fo, clause fo = counted fo) ->
  (Expenses.spent_where clause orders == sum_of_rows counted orders)%Q.
Proof.
  intros Hc. unfold Expenses.spent_where.
  induction orders as [|fo orders IH]; cbn [filter map sum_of_rows].
  - reflexivity.
  - rewrite Hc. destruct (counted fo).
    + cbn [map Sql.sum fold_right]. fold (Sql.sum (map Expenses.amount
        (filter clause orders))). now rewrite IH.
    + rewrite IH. ring.
Qed.

(** The clause of the function in force keeps the rows that the hook
    reads as completed expenses of the user and the period. *)
Lemma counts_as_spent_coalesced_as_read now user period fo :
  Expenses.counts_as_spent_coalesced now user period fo
  = completed_expense_as_read now user period fo.
Proof.
  unfold Expenses.counts_as_spent_coalesced, completed_expense_as_read,
    mapOrderToExpense, Expenses.coalesce. cbn [fields status transactionType].
  destruct (Expenses.owner_matches (Expenses.user_id fo) user)
    as [[|]|];
    destruct (Expenses.status fo) as [[| | |]|];
    destruct (Expenses.transaction_type fo) as [[| |]|];
    destruct (Expenses.in_period now period fo); reflexivity.
Qed.

(** The clause of the first migration keeps the rows whose columns say
    completed expense. *)
Lemma counts_as_spent_as_stored now user period fo :
  Expenses.counts_as_spent now user period fo
  = completed_expense_as_stored now user period fo.
Proof.
  unfold Expenses.counts_as_spent, completed_expense_as_stored.
  destruct (Expenses.owner_matches (Expenses.user_id fo) user)
    as [[|]|];
    destruct (Expenses.status fo) as [[| | |]|];
    destruct (Expenses.transaction_type fo) as [[| |]|];
    destruct (Expenses.in_period now period fo); reflexivity.
Qed.

(** The recreated function's clause agrees with the first one on rows
    whose status and transaction type are not NULL. *)
Lemma counts_as_spent_coalesced_agrees now user period fo s t :
  Expenses.status fo = Some s ->
  Expenses.transaction_type fo = Some t ->
  Expenses.counts_as_spent_coalesced now user period fo
  = Expenses.counts_as_spent now user period fo.
Proof.
  intros Hs Ht.
  unfold Expenses.counts_as_spent_coalesced, Expenses.counts_as_spent.
  rewrite Hs, Ht. reflexivity.
Qed.


(** A row whose status and type are NULL is spent in the function in
    force and is not in the query of the first migration. *)
Example null_status_counts_as_completed :
  let row :=
    Expenses.mkFoodOrder "e5" None None "Thali" None "delivery" 40
      Samples.eleven "lunch" None None None None None (Some false)
      None None None None None None None in
  (Expenses.total_spent
     (Expenses.get_budget_usage [] [row] Samples.noon None "monthly")
   == 40)%Q
  /\ (Expenses.spent_where
        (Expenses.counts_as_spent Samples.noon None "monthly") [row]
      == 0)%Q
  /\ status (fields (mapOrderToExpense row)) = Expenses.completed
  /\ transactionType (fields (mapOrderToExpense row)) = Expenses.expense.
Proof. repeat split. Qed.

End LedgerFacts.


(* ------------------------------------------------------------------ *)
(** ** Scenarios of the specification *)

Section Scenarios.
Local Open Scope Z_scope.
Local Open Scope string_scope.

(** Completed expenses of 3000, 3000 and 2500 against the default monthly
    limit of 10000 and threshold of 80. *)
Example scenario_budget :
  let u :=
    Expenses.get_budget_usage []
      [Samples.food "a" 3000 Expenses.completed Expenses.expense;
       Samples.food "b" 3000 Expenses.completed Expenses.expense;
       Samples.food "c" 2500 Expenses.completed Expenses.expense]
      Samples.noon None "monthly" in
  (Expenses.total_spent u == 8500)%Q
  /\ (exists p, Expenses.percentage_used u = Some p /\ (p == 85)%Q)
  /\ (Expenses.remaining u == 1500)%Q
  /\ Expenses.should_alert u = Some true.
Proof.
  vm_compute. repeat split. eexists. split; reflexivity.
Qed.

(** 100 split three ways in the database: 33.34, 33.33, 33.33. *)
Example scenario_split :
  exists a b c,
    Split.split_expense_equally (Sql.mkNumeric 100 2) 3
    = Sql.Ok [Split.mkShare 1 a; Split.mkShare 2 b; Split.mkShare 3 c]
    /\ (a == 3334 # 100)%Q /\ (b == 3333 # 100)%Q /\ (c == 3333 # 100)%Q.
Proof. do 3 eexists. repeat split. Qed.

(** An order placed at 50, confirmed at 60 and cancelled at 70. *)
Example scenario_cancel :
  let d :=
    Orders.transitions Samples.db1
      [(50, Orders.mkInput "order-1" Orders.placed
              (Some "Order placed successfully") None);
       (60, Orders.mkInput "order-1" Orders.confirmed None None);
       (70, Orders.mkInput "order-1" Orders.cancelled None None)] in
  exists o,
    Orders.find_order "order-1" (Orders.orders d) = Some o
    /\ Orders.status o = Orders.cancelled
    /\ Orders.cancelled_at o = Some 70
    /\ Orders.confirmed_at o = Some 60
    /\ Orders.placed_at o = Some 50
    /\ List.length (Orders.order_status_history d) = 3%nat.
Proof. eexists. repeat split. Qed.

(** The hook's week starts on Sunday, the database's on Monday: at Friday
    noon the first lies a day before the second. *)
Example week_starts_differ :
  Calendar.DATE_TRUNC_week Samples.noon - Calendar.js_week_start Samples.noon
  = Calendar.ms_per_day.
Proof. reflexivity. Qed.

End Scenarios.


(* ================================================================== *)
(** * Further properties of the code *)

(* ------------------------------------------------------------------ *)
(** ** Runs of transitions, cancelling and rating *)

Section MoreOrderFacts.
Import Sql Orders.
Local Open Scope Z_scope.
Local Open Scope string_scope.

Lemma updated_ids now p s t : map id (updated now p s t) = map id t.
Proof.
  unfold updated. induction t as [|r t IH]; cbn [map]; [reflexivity|].
  rewrite IH. destruct (id r =? p); reflexivity.
Qed.

Lemma existsb_ids p (t t' : list order_row) :
  map id t = map id t' ->
  existsb (fun o => id o =? p) t = existsb (fun o => id o =? p) t'.
Proof.
  revert t'. induction t as [|r t IH]; intros [|r' t'] H;
    try discriminate H; [reflexivity|].
  cbn [map] in H. injection H as Hr Ht. cbn [existsb].
  now rewrite Hr, (IH t' Ht).
Qed.

(** One call of the hook's [updateOrderStatus], spelled out. *)
Lemma updateOrderStatus_step d now input :
  updateOrderStatus d now input
  = if existsb (fun o => id o =? orderId input) (orders d)
    then mkDb (updated now (orderId input) (newStatus input) (orders d))
              (order_status_history d
               ++ [mkHistory (orderId input) (newStatus input)
                     (i_message input) (i_location input) now])%list
    else d.
Proof.
  unfold updateOrderStatus. rewrite existsb_find_order.
  destruct (find_order (orderId input) (orders d)) as [o|] eqn:Hf.
  - now rewrite (update_order_status_found d now _ (newStatus input)
                   (i_message input) (i_location input) o Hf).
  - now rewrite (update_order_status_missing d now _ (newStatus input)
                   (i_message input) (i_location input) Hf).
Qed.

(** X1: a run of transition calls never adds, removes or renames an
    order, and it only appends to the history: the entries added are those
    of the calls that named an existing order, one each, in call order.
    So each history entry still refers to an order of the table if each
    did before. *)
Theorem transitions_append_history
  (d : db) (calls : list (timestamp * UpdateOrderStatusInput)) :
  map id (orders (transitions d calls)) = map id (orders d)
  /\ order_status_history (transitions d calls)
     = (order_status_history d
        ++ map (fun c =>
                  mkHistory (orderId (snd c)) (newStatus (snd c))
                    (i_message (snd c)) (i_location (snd c)) (fst c))
               (filter (fun c =>
                          existsb (fun o => id o =? orderId (snd c))
                                  (orders d))
                       calls))%list
  /\ ((forall h, In h (order_status_history d) ->
         In (order_id h) (map id (orders d))) ->
      forall h, In h (order_status_history (transitions d calls)) ->
        In (order_id h) (map id (orders (transitions d calls)))).
Proof.
  assert (Hmain :
    forall calls d,
      map id (orders (transitions d calls)) = map id (orders d)
      /\ order_status_history (transitions d calls)
         = (order_status_history d
            ++ map (fun c =>
                      mkHistory (orderId (snd c)) (newStatus (snd c))
                        (i_message (snd c)) (i_location (snd c)) (fst c))
                   (filter (fun c =>
                              existsb (fun o => id o =? orderId (snd c))
                                      (orders d))
                           calls))%list).
  { clear. induction calls as [|[now input] calls IH]; intros d.
    - cbn. now rewrite app_nil_r.
    - cbn [transitions filter snd fst].
      destruct (IH (updateOrderStatus d now input)) as [Hids Hhist].
      rewrite Hids, Hhist. clear IH Hids Hhist.
      assert (Hsame : map id (orders (updateOrderStatus d now input))
                      = map id (orders d)).
      { rewrite updateOrderStatus_step.
        destruct (existsb _ (orders d)); [apply updated_ids | reflexivity]. }
      split; [exact Hsame|].
      assert (Hf : filter (fun c => existsb (fun o => id o =? orderId (snd c))
                                      (orders (updateOrderStatus d now input)))
                          calls
                   = filter (fun c => existsb (fun o => id o =? orderId (snd c))
                                        (orders d)) calls).
      { apply filter_ext. intros c. now apply existsb_ids. }
      rewrite Hf. rewrite updateOrderStatus_step.
      destruct (existsb (fun o => id o =? orderId input) (orders d)).
      + cbn [order_status_history map snd fst]. now rewrite <- app_assoc.
      + reflexivity. }
  destruct (Hmain calls d) as [Hids Hhist].
  split; [exact Hids|]. split; [exact Hhist|].
  intros Href h Hin. rewrite Hids. rewrite Hhist in Hin.
  apply in_app_or in Hin as [Hin|Hin]; [now apply Href|].
  apply in_map_iff in Hin as (c & <- & Hc).
  apply filter_In in Hc as [_ Hc]. cbn [order_id].
  apply existsb_exists in Hc as (o & Ho & Heq).
  apply String.eqb_eq in Heq. rewrite <- Heq. now apply in_map.
Qed.

(** X2: [cancelOrder] on an order of the table, whatever its status, sets
    the status to [cancelled], stamps [cancelled_at], records the reason
    and [customer] as the one who cancelled, keeps the other timestamps,
    and appends one history entry whose message is the reason; on an id
    that is not in the table it changes nothing at all. *)
Theorem cancelOrder_effect
  (d : db) (now1 now2 : timestamp) (oid : uuid) (reason : string) :
  match find_order oid (orders d) with
  | Some o =>
      exists o',
        find_order oid (orders (cancelOrder d now1 now2 oid reason))
        = Some o'
        /\ status o' = cancelled
        /\ cancelled_at o' = Some now1
        /\ cancellation_reason o' = Some reason
        /\ cancelled_by o' = Some "customer"
        /\ (placed_at o', confirmed_at o', preparing_at o', ready_at o',
            picked_up_at o', on_the_way_at o', delivered_at o')
           = (placed_at o, confirmed_at o, preparing_at o, ready_at o,
              picked_up_at o, on_the_way_at o, delivered_at o)
        /\ order_status_history (cancelOrder d now1 now2 oid reason)
           = (order_status_history d
              ++ [mkHistory oid cancelled (Some reason) None now1])%list
  | None => cancelOrder d now1 now2 oid reason = d
  end.
Proof.
  unfold cancelOrder.
  rewrite (updateOrderStatus_step d now1
             (mkInput oid cancelled (Some reason) None)).
  cbn [orderId newStatus i_message i_location].
  rewrite existsb_find_order.
  destruct (find_order oid (orders d)) as [o|] eqn:Hf.
  - cbn [orders order_status_history fst sql_update].
    exists (set_cancellation now2 reason (set_status now1 cancelled o)).
    split.
    + assert (H : forall t,
                 find_order oid
                   (map (fun r => if id r =? oid
                                  then set_cancellation now2 reason r else r) t)
                 = option_map (set_cancellation now2 reason)
                              (find_order oid t)).
      { unfold find_order. induction t as [|r t IH]; cbn; [reflexivity|].
        destruct (id r =? oid) eqn:E; cbn; rewrite E; [reflexivity | exact IH]. }
      now rewrite H, find_order_updated, Hf.
    + repeat split.
  - cbn [orders order_status_history fst sql_update].
    rewrite sql_update_nothing.
    + destruct d; reflexivity.
    + now rewrite existsb_find_order, Hf.
Qed.

End MoreOrderFacts.


Section OrderHookFacts.
Import Sql Orders OrderHook.
Local Open Scope Z_scope.
Local Open Scope string_scope.

Lemma find_order_rated now p rating review t :
  find_order p
    (map (fun r => if id r =? p then set_rating now rating review r else r) t)
  = option_map (set_rating now rating review) (find_order p t).
Proof.
  unfold find_order. induction t as [|r t IH]; cbn; [reflexivity|].
  destruct (id r =? p) eqn:E; cbn; rewrite E; [reflexivity | exact IH].
Qed.

(** X3: [rateOrder] does not look at the order's status or at an earlier
    rating: for an order of the table and a rating from 1 to 5 it stores
    the rating (replacing any earlier one), keeps status and timestamps,
    keeps the old review when none is given, and the order's tracking
    state then has [canRate] false; a rating outside 1..5 leaves the
    database as it was. *)
Theorem rateOrder_effect
  (d : db) (now : timestamp) (oid : uuid) (stars : Z)
  (text : option string) (o : order_row)
  (orderHistory : list history_row) (clock : Z) :
  find_order oid (orders d) = Some o ->
  if rating_check stars
  then exists o',
      find_order oid (orders (rateOrder d now oid stars text)) = Some o'
      /\ rating o' = Some stars
      /\ review o' = match text with Some r => Some r | None => review o end
      /\ status o' = status o
      /\ (delivered_at o', cancelled_at o') = (delivered_at o, cancelled_at o)
      /\ order_status_history (rateOrder d now oid stars text)
         = order_status_history d
      /\ Tracking.canRate
           (Tracking.getOrderTrackingState orderHistory clock
              (Tracking.mapDbToOrder o')) = false
  else rateOrder d now oid stars text = d.
Proof.
  intros Hf. unfold rateOrder.
  rewrite existsb_find_order, Hf. cbn [andb].
  destruct (rating_check stars) eqn:Hc; cbn [negb]; [|reflexivity].
  exists (set_rating now stars text o).
  cbn [orders order_status_history fst sql_update].
  split; [now rewrite find_order_rated, Hf|].
  repeat split.
  unfold Tracking.getOrderTrackingState, Tracking.mapDbToOrder.
  cbn [Tracking.canRate Tracking.status Tracking.rating rating set_rating
       Tracking.truthy].
  unfold rating_check in Hc.
  destruct (Z.eqb_spec stars 0) as [->|_]; [discriminate Hc|].
  apply andb_false_r.
Qed.

(** A run of the theorem: the delivered sample order gets four stars. *)
Lemma rateOrder_effect_witness :
  exists o',
    find_order "order-1"
      (orders (rateOrder Samples.db_delivered 300 "order-1" 4 None))
    = Some o'
    /\ rating o' = Some 4.
Proof.
  pose proof (rateOrder_effect Samples.db_delivered 300 "order-1" 4 None
                Samples.delivered1 [] 0 eq_refl) as H.
  cbn [rating_check Z.leb Z.compare Pos.compare Pos.compare_cont andb] in H.
  destruct H as (o' & Hf & Hr & _).
  exists o'. split; assumption.
Defined.

(** ** The realtime merge of an order *)

Lemma findIndex_from_spec {A} (p : A -> bool) (l : list A) (i : Z) :
  if existsb p l
  then exists k, (k < List.length l)%nat
                 /\ findIndex_from p l i = i + Z.of_nat k
                 /\ (exists x, nth_error l k = Some x /\ p x = true)
                 /\ forall j y, (j < k)%nat -> nth_error l j = Some y ->
                                p y = false
  else findIndex_from p l i = -1.
Proof.
  revert i. induction l as [|x l IH]; intros i; cbn [existsb findIndex_from];
    [reflexivity|].
  destruct (p x) eqn:Hx; cbn [orb].
  - exists 0%nat. split; [cbn; lia|]. split; [lia|].
    split; [exists x; split; [reflexivity | exact Hx]|].
    intros j y Hj. lia.
  - specialize (IH (i + 1)). destruct (existsb p l).
    + destruct IH as (k & Hk & Hi & (y & Hy & Hpy) & Hbefore).
      exists (S k). split; [cbn; lia|]. split; [lia|].
      split; [exists y; split; [exact Hy | exact Hpy]|].
      intros [|j] z Hj Hz; cbn in Hz.
      * now injection Hz as <-.
      * apply (Hbefore j z); [lia | exact Hz].
    + exact IH.
Qed.

Lemma set_at_nth {A} (k : nat) (v : A) (l : list A) :
  (k < List.length l)%nat ->
  nth_error (set_at k v l) k = Some v
  /\ List.length (set_at k v l) = List.length l
  /\ forall j, j <> k -> nth_error (set_at k v l) j = nth_error l j.
Proof.
  revert k. induction l as [|x l IH]; intros k Hk; cbn in Hk; [lia|].
  destruct k as [|k]; cbn [set_at nth_error List.length].
  - repeat split. intros [|j] Hj; [congruence | reflexivity].
  - destruct (IH k ltac:(lia)) as (H1 & H2 & H3).
    repeat split; [exact H1 | now rewrite H2 |].
    intros [|j] Hj; [reflexivity|]. cbn. apply H3. congruence.
Qed.

(** X4: merging a realtime order event into the hook's list.  When an
    order with the event's id is in the list, the first such entry is
    replaced in place and nothing else moves; otherwise the order is put
    at the head.  Either way the order is in the list afterwards, and
    merging the same event a second time changes nothing. *)
Theorem on_order_change_merges
  (updatedOrder : Tracking.Order) (prev : list Tracking.Order) :
  let same := fun o => Tracking.id o =? Tracking.id updatedOrder in
  (if existsb same prev
   then exists k old,
       nth_error prev k = Some old
       /\ Tracking.id old = Tracking.id updatedOrder
       /\ (forall j y, (j < k)%nat -> nth_error prev j = Some y ->
                       Tracking.id y <> Tracking.id updatedOrder)
       /\ nth_error (on_order_change updatedOrder prev) k
          = Some updatedOrder
       /\ List.length (on_order_change updatedOrder prev)
          = List.length prev
       /\ forall j, j <> k ->
            nth_error (on_order_change updatedOrder prev) j
            = nth_error prev j
   else on_order_change updatedOrder prev = updatedOrder :: prev)
  /\ In updatedOrder (on_order_change updatedOrder prev)
  /\ on_order_change updatedOrder (on_order_change updatedOrder prev)
     = on_order_change updatedOrder prev.
Proof.
  intros same.
  assert (Hfirst :
    if existsb same prev
    then exists k old,
        nth_error prev k = Some old
        /\ Tracking.id old = Tracking.id updatedOrder
        /\ (forall j y, (j < k)%nat -> nth_error prev j = Some y ->
                        Tracking.id y <> Tracking.id updatedOrder)
        /\ (k < List.length prev)%nat
        /\ on_order_change updatedOrder prev = set_at k updatedOrder prev
    else on_order_change updatedOrder prev = updatedOrder :: prev).
  { unfold on_order_change, findIndex. fold same.
    pose proof (findIndex_from_spec same prev 0) as H.
    destruct (existsb same prev).
    - destruct H as (k & Hk & Hi & (x & Hx & Hpx) & Hbefore).
      exists k, x. rewrite Hi.
      replace (0 <=? 0 + Z.of_nat k)%Z with true
        by (symmetry; apply Z.leb_le; lia).
      replace (Z.to_nat (0 + Z.of_nat k)) with k by lia.
      repeat split; try assumption.
      + now apply String.eqb_eq.
      + intros j y Hj Hy Heq. apply (Hbefore j y Hj) in Hy.
        unfold same in Hy. rewrite Heq, String.eqb_refl in Hy. discriminate.
    - now rewrite H. }
  assert (Hin : In updatedOrder (on_order_change updatedOrder prev)).
  { destruct (existsb same prev).
    - destruct Hfirst as (k & old & _ & _ & _ & Hk & ->).
      destruct (set_at_nth k updatedOrder prev Hk) as (H1 & _).
      eapply nth_error_In; eassumption.
    - rewrite Hfirst. now left. }
  split; [|split; [exact Hin|]].
  - destruct (existsb same prev); [|exact Hfirst].
    destruct Hfirst as (k & old & Hold & Hid & Hbefore & Hk & ->).
    destruct (set_at_nth k updatedOrder prev Hk) as (H1 & H2 & H3).
    exists k, old. repeat split; assumption.
  - (* the second merge finds the order it put there and writes it again *)
    destruct (existsb same prev) eqn:He.
    + destruct Hfirst as (k & old & Hold & Hid & Hbefore & Hk & Heq).
      destruct (set_at_nth k updatedOrder prev Hk) as (H1 & H2 & H3).
      rewrite Heq.
      unfold on_order_change at 1, findIndex. fold same.
      pose proof (findIndex_from_spec same (set_at k updatedOrder prev) 0) as H.
      assert (He' : existsb same (set_at k updatedOrder prev) = true).
      { apply existsb_exists. exists updatedOrder. split.
        - eapply nth_error_In; eassumption.
        - unfold same. apply String.eqb_refl. }
      rewrite He' in H.
      destruct H as (k' & Hk' & Hi & (x & Hx & Hpx) & Hbefore').
      assert (k' = k).
      { destruct (Nat.lt_trichotomy k' k) as [Hlt|[Heq'|Hgt]]; [|exact Heq'|].
        - rewrite H3 in Hx by lia.
          apply (Hbefore k' x Hlt) in Hx. unfold same in Hpx.
          apply String.eqb_eq in Hpx. contradiction.
        - specialize (Hbefore' k updatedOrder Hgt H1).
          unfold same in Hbefore'. rewrite String.eqb_refl in Hbefore'.
          discriminate. }
      subst k'. rewrite Hi.
      replace (0 <=? 0 + Z.of_nat k)%Z with true
        by (symmetry; apply Z.leb_le; lia).
      replace (Z.to_nat (0 + Z.of_nat k)) with k by lia.
      clear - Hk. revert k Hk.
      induction prev as [|x l IH]; intros k Hk; cbn in Hk; [lia|].
      destruct k as [|k]; cbn [set_at]; [reflexivity|].
      f_equal. apply IH. lia.
    + rewrite Hfirst. unfold on_order_change, findIndex.
      cbn [findIndex_from]. rewrite String.eqb_refl. reflexivity.
Qed.

End OrderHookFacts.


(* ------------------------------------------------------------------ *)
(** ** Realtime events and deletion in the expense hook *)

Section SyncFacts.
Import Ledger Sync.
Local Open Scope Z_scope.
Local Open Scope string_scope.

Lemma reconcile_absent tempId dataId prev :
  (forall e, In e prev -> id e <> tempId) ->
  reconcile tempId dataId prev = prev.
Proof.
  unfold reconcile. induction prev as [|x l IH]; intros H; [reflexivity|].
  cbn [map]. rewrite IH by (intros e He; apply H; now right).
  destruct (String.eqb_spec (id x) tempId) as [E|_]; [|reflexivity].
  exfalso. apply (H x); [now left | exact E].
Qed.

Lemma on_delete_absent k prev :
  (forall e, In e prev -> id e <> k) -> on_delete k prev = prev.
Proof.
  unfold on_delete. induction prev as [|x l IH]; intros H; [reflexivity|].
  cbn [filter]. rewrite IH by (intros e He; apply H; now right).
  destruct (String.eqb_spec (id x) k) as [E|_]; [|reflexivity].
  exfalso. apply (H x); [now left | exact E].
Qed.

Lemma existsb_absent k prev :
  (forall e, In e prev -> id e <> k) ->
  existsb (fun e => id e =? k) prev = false.
Proof.
  induction prev as [|x l IH]; intros H; [reflexivity|].
  cbn [existsb]. rewrite IH by (intros e He; apply H; now right).
  destruct (String.eqb_spec (id x) k) as [E|_]; [|reflexivity].
  exfalso. apply (H x); [now left | exact E].
Qed.

(** X5: when the realtime [INSERT] event of a row arrives after
    [addExpense] has put the server's identity on its optimistic entry,
    the event is a no-op: the collection is as [addExpense] left it, with
    one entry for the new row. *)
Theorem insert_event_after_reconcile
  (r : remote) (expense : ExpenseFields) (st : state)
  (uid dataId : string) (row : Expenses.food_order) :
  userId r = Some uid -> insertedId r = Some dataId ->
  Expenses.id row = dataId ->
  on_insert (mapOrderToExpense row)
            (expenses (fst (addExpense r expense st)))
  = expenses (fst (addExpense r expense st)).
Proof.
  intros Hu Hi Hrow. unfold addExpense. rewrite Hu, Hi.
  cbn [fst expenses reconcile map id]. rewrite String.eqb_refl.
  unfold on_insert. cbn [existsb id mapOrderToExpense].
  rewrite Hrow, String.eqb_refl. reflexivity.
Qed.

Lemma insert_event_after_reconcile_witness :
  on_insert
    (mapOrderToExpense
       (Samples.food "row-7" 0 Expenses.completed Expenses.expense))
    (expenses (fst (addExpense Samples.signed_in Samples.blank Samples.fresh)))
  = expenses (fst (addExpense Samples.signed_in Samples.blank Samples.fresh)).
Proof.
  exact (insert_event_after_reconcile Samples.signed_in Samples.blank
           Samples.fresh "user-1" "row-7"
           (Samples.food "row-7" 0 Expenses.completed Expenses.expense)
           eq_refl eq_refl eq_refl).
Defined.

(** X6: when the event arrives first, between the optimistic insert and
    the reconciliation, its row is not recognised (the optimistic entry
    still carries the temporary identity) and is put at the head; the
    reconciliation then renames the optimistic entry, and the collection
    holds the new row twice under the same identity. *)
Theorem insert_event_before_reconcile
  (tempId dataId : string) (expense : ExpenseFields) (arrived : FoodExpense)
  (prev : list FoodExpense) :
  id arrived = dataId -> tempId <> dataId ->
  (forall e, In e prev -> id e <> dataId /\ id e <> tempId) ->
  reconcile tempId dataId
    (on_insert arrived (mkExpense tempId expense :: prev))
  = arrived :: mkExpense dataId expense :: prev.
Proof.
  intros Ha Hne Hprev. unfold on_insert. cbn [existsb id].
  rewrite Ha.
  destruct (String.eqb_spec tempId dataId) as [E|_]; [contradiction|].
  rewrite existsb_absent by (intros e He; now apply Hprev).
  cbn [orb reconcile map id fields].
  rewrite Ha.
  destruct (String.eqb_spec dataId tempId) as [E|_]; [congruence|].
  rewrite String.eqb_refl. do 2 f_equal.
  apply reconcile_absent. intros e He. now apply Hprev.
Qed.

Lemma insert_event_before_reconcile_witness :
  map id
    (reconcile "1770379200000" "row-7"
       (on_insert (mkExpense "row-7" Samples.blank)
          [mkExpense "1770379200000" Samples.blank]))
  = ["row-7"; "row-7"].
Proof.
  rewrite (insert_event_before_reconcile "1770379200000" "row-7"
             Samples.blank (mkExpense "row-7" Samples.blank) []).
  - reflexivity.
  - reflexivity.
  - discriminate.
  - intros e He. destruct He.
Defined.

(** X7: adding an expense and then deleting it under the identity
    [addExpense] returned gives back the collection there was, once the
    remote delete reports no error and whichever way the add ended
    (saved remotely, failed, or signed out), as long as neither the
    temporary nor the assigned identity was already in use. *)
Theorem add_then_delete_restores
  (r : remote) (expense : ExpenseFields) (st : state) :
  (forall e, In e (expenses st) ->
     id e <> tempId r /\ insertedId r <> Some (id e)) ->
  expenses (deleteExpense None (id (snd (addExpense r expense st)))
              (fst (addExpense r expense st)))
  = expenses st.
Proof.
  intros H.
  assert (Htemp : forall e, In e (expenses st) -> id e <> tempId r)
    by (intros e He; now apply H).
  unfold deleteExpense. cbn [expenses].
  unfold addExpense.
  destruct (userId r) as [uid|]; [destruct (insertedId r) as [dataId|] eqn:Hd|];
    cbn [fst snd expenses id].
  - cbn [reconcile map id fields]. rewrite String.eqb_refl.
    change (map _ (expenses st)) with (reconcile (tempId r) dataId (expenses st)).
    rewrite (reconcile_absent _ _ _ Htemp).
    unfold on_delete. cbn [filter id]. rewrite String.eqb_refl. cbn [negb].
    apply on_delete_absent. intros e He Heq.
    destruct (H e He) as [_ Hn]. apply Hn. now rewrite Heq.
  - unfold on_delete. cbn [filter id]. rewrite String.eqb_refl. cbn [negb].
    now apply on_delete_absent.
  - unfold on_delete. cbn [filter id]. rewrite String.eqb_refl. cbn [negb].
    now apply on_delete_absent.
Qed.

Lemma add_then_delete_restores_witness :
  expenses
    (deleteExpense None
       (id (snd (addExpense Samples.signed_in Samples.blank Samples.fresh)))
       (fst (addExpense Samples.signed_in Samples.blank Samples.fresh)))
  = [].
Proof.
  apply (add_then_delete_restores Samples.signed_in Samples.blank
           Samples.fresh).
  intros e He. destruct He.
Defined.

(** X8: the three realtime handlers keep identities unique: if no two
    entries of the collection share an identity, none do after an
    [INSERT], an [UPDATE] or a [DELETE] event; an [UPDATE] for an identity
    that is not in the collection changes nothing. *)
Theorem realtime_events_keep_ids_unique
  (event : FoodExpense) (deletedId : string) (prev : list FoodExpense) :
  NoDup (map id prev) ->
  NoDup (map id (on_insert event prev))
  /\ NoDup (map id (on_update event prev))
  /\ NoDup (map id (on_delete deletedId prev))
  /\ ((forall e, In e prev -> id e <> id event) ->
      on_update event prev = prev).
Proof.
  intros Hnd. repeat split.
  - unfold on_insert.
    destruct (existsb (fun e => id e =? id event) prev) eqn:He;
      [exact Hnd|].
    cbn [map]. constructor; [|exact Hnd].
    intros Hin. apply in_map_iff in Hin as (e & Hid & Hin).
    assert (Ht : existsb (fun e => id e =? id event) prev = true).
    { apply existsb_exists. exists e. split; [exact Hin|].
      now apply String.eqb_eq. }
    congruence.
  - assert (Hids : map id (on_update event prev) = map id prev).
    { unfold on_update. clear Hnd.
      induction prev as [|x l IH]; [reflexivity|].
      cbn [map]. rewrite IH.
      destruct (String.eqb_spec (id x) (id event)) as [E|_];
        [now rewrite E | reflexivity]. }
    now rewrite Hids.
  - unfold on_delete. induction prev as [|x l IH]; [constructor|].
    cbn [map] in Hnd. apply NoDup_cons_iff in Hnd as [Hx Hl].
    cbn [filter]. destruct (negb (id x =? deletedId)).
    + cbn [map]. constructor; [|now apply IH].
      intros Hin. apply Hx. apply in_map_iff in Hin as (e & Hid & Hin).
      apply filter_In in Hin as [Hin _]. rewrite <- Hid. now apply in_map.
    + now apply IH.
  - intros Habs. unfold on_update. clear Hnd.
    induction prev as [|x l IH]; [reflexivity|].
    cbn [map]. rewrite IH by (intros e He; apply Habs; now right).
    destruct (String.eqb_spec (id x) (id event)) as [E|_]; [|reflexivity].
    exfalso. apply (Habs x); [now left | exact E].
Qed.

Lemma realtime_events_keep_ids_unique_witness :
  NoDup (map id (on_insert (mkExpense "row-7" Samples.blank)
                   [mkExpense "row-1" Samples.blank])).
Proof.
  apply (realtime_events_keep_ids_unique (mkExpense "row-7" Samples.blank)
           "row-1" [mkExpense "row-1" Samples.blank]).
  repeat constructor. intros H. destruct H.
Defined.

End SyncFacts.


(* ------------------------------------------------------------------ *)
(** ** Grouped totals and the recent list *)

Section GroupingFacts.
Import Ledger Sync.
Local Open Scope Z_scope.
Local Open Scope string_scope.

Lemma own_write_same k v o : own k (write k v o) = Some v.
Proof.
  induction o as [|[k' v'] o IH]; cbn.
  - now rewrite String.eqb_refl.
  - destruct (k' =? k) eqn:E; cbn.
    + now rewrite String.eqb_refl.
    + now rewrite E.
Qed.

Lemma own_write_other k k' v o :
  k' <> k -> own k (write k' v o) = own k o.
Proof.
  intros Hne. induction o as [|[k0 v0] o IH]; cbn.
  - destruct (String.eqb_spec k' k); [contradiction | reflexivity].
  - destruct (String.eqb_spec k0 k') as [E|E]; cbn.
    + subst k0. destruct (String.eqb_spec k' k); [contradiction | reflexivity].
    + destruct (k0 =? k); [reflexivity | exact IH].
Qed.

Lemma not_inherited k :
  ~ In k inherited ->
  existsb (String.eqb k) inherited = false /\ (k =? "__proto__") = false.
Proof.
  intros Hk. split.
  - destruct (existsb (String.eqb k) inherited) eqn:E; [|reflexivity].
    apply existsb_exists in E as (x & Hx & Hkx).
    apply String.eqb_eq in Hkx. subst x. contradiction.
  - destruct (String.eqb_spec k "__proto__") as [->|]; [|reflexivity].
    exfalso. apply Hk. cbn. tauto.
Qed.

Lemma obj_get_add_same k a acc :
  ~ In k inherited ->
  obj_get k (add_to k a acc) = Some (plus (or_zero (obj_get k acc)) a).
Proof.
  intros Hk. destruct (not_inherited k Hk) as [_ Hp].
  unfold add_to, obj_set. rewrite Hp.
  unfold obj_get at 1. now rewrite own_write_same.
Qed.

Lemma obj_get_add_other k c a acc :
  c <> k -> obj_get k (add_to c a acc) = obj_get k acc.
Proof.
  intros Hne. unfold add_to, obj_set.
  destruct (c =? "__proto__"); [reflexivity|].
  unfold obj_get. now rewrite own_write_other.
Qed.

Lemma plus_or_zero x q a :
  numeric x q -> exists v, plus (or_zero x) a = Num v /\ (v == q + a)%Q.
Proof.
  destruct x as [[v|]|]; cbn; intros H; [| contradiction |].
  - destruct (Qeq_bool v 0) eqn:E; cbn.
    + apply Qeq_bool_iff in E. eexists; split; [reflexivity|].
      rewrite <- H, E. reflexivity.
    + eexists; split; [reflexivity|]. now rewrite H.
  - eexists; split; [reflexivity|]. now rewrite H.
Qed.

(** The reduction of the three grouping functions, for any key function
    and from any object built so far. *)
Lemma group_fold (key : FoodExpense -> option string) (k : string)
  (l : list FoodExpense) (acc : object) (q : Q) :
  ~ In k inherited ->
  numeric (obj_get k acc) q ->
  match
    obj_get k
      (fold_left (fun acc e =>
                    match key e with
                    | Some c => add_to c (amount (fields e)) acc
                    | None => acc
                    end) l acc)
  with
  | Some (Num v) =>
      (obj_get k acc <> None \/ exists e, In e l /\ key e = Some k)
      /\ (v == q + total (filter (has_key key k) l))%Q
  | Some NotNum => False
  | None => obj_get k acc = None /\ forall e, In e l -> key e <> Some k
  end.
Proof.
  intros Hk. revert acc q. induction l as [|x l IH]; intros acc q Hq.
  - cbn [fold_left filter]. unfold numeric in Hq.
    destruct (obj_get k acc) as [[v|]|] eqn:E.
    + split; [left; discriminate|]. rewrite Hq. unfold total; cbn. ring.
    + exact Hq.
    + split; [reflexivity|]. intros e [].
  - cbn [fold_left filter]. unfold has_key at 1.
    destruct (key x) as [c|] eqn:Hkx.
    + destruct (String.eqb_spec c k) as [->|Hne].
      * destruct (plus_or_zero _ q (amount (fields x)) Hq) as (w & Hw & Hwq).
        specialize (IH (add_to k (amount (fields x)) acc) w).
        rewrite !(obj_get_add_same k _ _ Hk), Hw in IH.
        specialize (IH (Qeq_refl w)).
        match type of IH with
        | match ?t with _ => _ end => destruct t as [[v|]|]
        end.
        -- destruct IH as [_ Hv]. split.
           ++ right. exists x. split; [now left | exact Hkx].
           ++ rewrite Hv, Hwq, total_cons. ring.
        -- exact IH.
        -- destruct IH as [Habs _]. discriminate Habs.
      * specialize (IH (add_to c (amount (fields x)) acc) q).
        rewrite !(obj_get_add_other k c _ _ Hne) in IH.
        specialize (IH Hq).
        match type of IH with
        | match ?t with _ => _ end => destruct t as [[v|]|]
        end.
        -- destruct IH as [[Ha|(e & He & Hke)] Hv]; (split; [|exact Hv]).
           ++ now left.
           ++ right. exists e. split; [now right | exact Hke].
        -- exact IH.
        -- destruct IH as [Ha Hall]. split; [exact Ha|].
           intros e [<-|He]; [congruence | now apply Hall].
    + specialize (IH acc q Hq).
      match type of IH with
      | match ?t with _ => _ end => destruct t as [[v|]|]
      end.
      * destruct IH as [[Ha|(e & He & Hke)] Hv]; (split; [|exact Hv]).
        -- now left.
        -- right. exists e. split; [now right | exact Hke].
      * exact IH.
      * destruct IH as [Ha Hall]. split; [exact Ha|].
        intros e [<-|He]; [congruence | now apply Hall].
Qed.

Lemma group_fold_empty (key : FoodExpense -> option string) (k : string)
  (l : list FoodExpense) :
  ~ In k inherited ->
  grouped_at k key l
    (fold_left (fun acc e =>
                  match key e with
                  | Some c => add_to c (amount (fields e)) acc
                  | None => acc
                  end) l []).
Proof.
  intros Hk. unfold grouped_at.
  assert (He : obj_get k [] = None).
  { unfold obj_get. cbn [own]. now destruct (not_inherited k Hk) as [-> _]. }
  pose proof (group_fold key k l [] 0 Hk) as H.
  rewrite He in H. specialize (H (Qeq_refl 0)).
  match type of H with
  | match ?t with _ => _ end => destruct t as [[v|]|]
  end.
  - destruct H as [[Ha|Hex] Hv].
    + now contradiction Ha.
    + split; [exact Hex|]. rewrite Hv. ring.
  - exact H.
  - now destruct H.
Qed.

(** X9: under every key that is not a property name of [Object.prototype],
    the three grouping functions hold the sum of the amounts of the entries
    with that category, meal type or cuisine, added in the order of the
    collection, and they have the key exactly when some entry has it; an
    entry with no cuisine, or an empty one, counts towards no cuisine. *)
Theorem spending_is_grouped (l : list FoodExpense) (k : string)
  (Hk : ~ In k inherited) :
  grouped_at k (fun e => Some (category (fields e))) l
    (getSpendingByCategory l)
  /\ grouped_at k (fun e => Some (mealType (fields e))) l
       (getSpendingByMealType l)
  /\ grouped_at k (fun e => or_undefined (cuisine (fields e))) l
       (getSpendingByCuisine l).
Proof.
  split; [|split].
  - exact (group_fold_empty (fun e => Some (category (fields e))) k l Hk).
  - exact (group_fold_empty (fun e => Some (mealType (fields e))) k l Hk).
  - exact (group_fold_empty
             (fun e => or_undefined (cuisine (fields e))) k l Hk).
Qed.

Lemma spending_is_grouped_witness :
  ~ In "delivery" inherited
  /\ grouped_at "delivery" (fun e => Some (category (fields e))) Cases.meals
       (getSpendingByCategory Cases.meals)
  /\ obj_get "delivery" (getSpendingByCategory Cases.meals)
     = Some (Num (0 + 120 + 80)).
Proof.
  assert (H : ~ In "delivery" inherited).
  { cbn. intros Hin. repeat destruct Hin as [Hin|Hin]; try discriminate Hin.
    exact Hin. }
  split; [exact H|]. split.
  - exact (proj1 (spending_is_grouped Cases.meals "delivery" H)).
  - reflexivity.
Defined.

(** A cuisine that is a property name of the prototype is outside the
    theorem: its entry does not hold a number. *)
Example cuisine_named_constructor :
  obj_get "constructor"
    (getSpendingByCuisine
       [Cases.entry "a" "delivery" "lunch" (Some "constructor") 120
          Samples.noon])
  = Some NotNum.
Proof. reflexivity. Qed.

(** ** [getRecentExpenses] *)

Lemma insert_recent_perm e l : Permutation (insert_recent e l) (e :: l).
Proof.
  induction l as [|x l IH]; cbn [insert_recent]; [reflexivity|].
  destruct (date (fields x) <=? date (fields e))%Z; [reflexivity|].
  rewrite IH. apply perm_swap.
Qed.

Lemma sort_recent_perm l : Permutation (sort_recent l) l.
Proof.
  unfold sort_recent. induction l as [|x l IH]; cbn [fold_right];
    [reflexivity|].
  rewrite insert_recent_perm. now constructor.
Qed.

Lemma insert_recent_sorted e l :
  StronglySorted (fun a b => date (fields b) <= date (fields a)) l ->
  StronglySorted (fun a b => date (fields b) <= date (fields a))
                 (insert_recent e l).
Proof.
  induction l as [|x l IH]; intros Hs; cbn [insert_recent].
  - repeat constructor.
  - apply StronglySorted_inv in Hs as [Hl Hx].
    destruct (Z.leb_spec (date (fields x)) (date (fields e))) as [Hle|Hgt].
    + constructor; [now constructor|].
      constructor; [exact Hle|].
      eapply Forall_impl; [|exact Hx]. cbn. intros a Ha. lia.
    + constructor; [now apply IH|].
      eapply Permutation_Forall; [symmetry; apply insert_recent_perm|].
      constructor; [lia | exact Hx].
Qed.

Lemma sort_recent_sorted l :
  StronglySorted (fun a b => date (fields b) <= date (fields a))
                 (sort_recent l).
Proof.
  unfold sort_recent. induction l as [|x l IH]; cbn [fold_right].
  - constructor.
  - now apply insert_recent_sorted.
Qed.

Lemma sorted_app_order {A} (R : A -> A -> Prop) (l1 l2 : list A) :
  StronglySorted R (l1 ++ l2) ->
  StronglySorted R l1
  /\ forall a b, In a l1 -> In b l2 -> R a b.
Proof.
  induction l1 as [|x l1 IH]; cbn [app]; intros Hs.
  - split; [constructor | intros a b []].
  - apply StronglySorted_inv in Hs as [Hs Hx].
    destruct (IH Hs) as [H1 H2]. split.
    + constructor; [exact H1|].
      apply Forall_app in Hx. now destruct Hx.
    + intros a b [<-|Ha] Hb; [|now apply H2].
      rewrite Forall_forall in Hx. apply Hx. apply in_or_app. now right.
Qed.

(** X10: [getRecentExpenses(limit)] returns [limit] entries of the
    collection, or all of them when there are fewer, newest first, and no
    entry it leaves out is newer than one it returns. *)
Theorem getRecentExpenses_newest (limit : nat) (l : list FoodExpense) :
  List.length (getRecentExpenses limit l) = Nat.min limit (List.length l)
  /\ StronglySorted (fun a b => date (fields b) <= date (fields a))
       (getRecentExpenses limit l)
  /\ exists rest,
      Permutation (getRecentExpenses limit l ++ rest) l
      /\ forall a b, In a (getRecentExpenses limit l) -> In b rest ->
                     date (fields b) <= date (fields a).
Proof.
  unfold getRecentExpenses.
  pose proof (sort_recent_sorted l) as Hs.
  pose proof (sort_recent_perm l) as Hp.
  rewrite <- (firstn_skipn limit (sort_recent l)) in Hs.
  apply sorted_app_order in Hs as [Hs1 Hs2].
  split; [|split; [exact Hs1|]].
  - rewrite length_firstn. now rewrite (Permutation_length Hp).
  - exists (skipn limit (sort_recent l)). split.
    + now rewrite firstn_skipn.
    + exact Hs2.
Qed.

End GroupingFacts.


(* ------------------------------------------------------------------ *)
(** ** The periods of the hook and of the page *)

Section PeriodFacts.
Import Calendar Ledger Pages.
Local Open Scope Z_scope.

(** The two calendar conversions are inverse on day numbers, and the
    conversion to a date gives a month from 1 to 12 and a day from 1 to
    31. *)
Lemma days_from_civil_from_days z :
  let '(y, m, d) := civil_from_days z in
  days_from_civil y m d = z /\ 1 <= d <= 31 /\ 1 <= m <= 12.
Proof.
  unfold civil_from_days, days_from_civil.
  set (z' := z + 719468).
  set (era := z' / 146097).
  set (doe := z' - era * 146097).
  assert (Hdoe : 0 <= doe < 146097).
  { unfold doe, era. Z.to_euclidean_division_equations. lia. }
  set (yoe := (doe - doe / 1460 + doe / 36524 - doe / 146096) / 365).
  assert (Hyoe : 0 <= yoe <= 399).
  { unfold yoe. Z.to_euclidean_division_equations. lia. }
  set (doy := doe - (365 * yoe + yoe / 4 - yoe / 100)).
  assert (Hdoy : 0 <= doy <= 365).
  { unfold doy, yoe. Z.to_euclidean_division_equations. lia. }
  set (mp := (5 * doy + 2) / 153).
  assert (Hmp : 0 <= mp <= 11).
  { unfold mp. Z.to_euclidean_division_equations. lia. }
  assert (Hera : (yoe + era * 400) / 400 = era)
    by (Z.to_euclidean_division_equations; lia).
  destruct (Z.ltb_spec mp 10).
  - destruct (Z.leb_spec (mp + 3) 2); [lia|].
    destruct (Z.ltb_spec 2 (mp + 3)); [|lia].
    replace (mp + 3 - 3) with mp by lia.
    rewrite Hera.
    split; [unfold doy, z' in *; Z.to_euclidean_division_equations; lia|].
    unfold mp in *. Z.to_euclidean_division_equations; lia.
  - destruct (Z.leb_spec (mp - 9) 2); [|lia].
    destruct (Z.ltb_spec 2 (mp - 9)); [lia|].
    replace (mp - 9 + 9) with mp by lia.
    replace (yoe + era * 400 + 1 - 1) with (yoe + era * 400) by lia.
    rewrite Hera.
    split; [unfold doy, z' in *; Z.to_euclidean_division_equations; lia|].
    unfold mp in *. Z.to_euclidean_division_equations; lia.
Qed.

Lemma days_from_civil_day y m d :
  days_from_civil y m 1 = days_from_civil y m d - (d - 1).
Proof. unfold days_from_civil. cbv zeta. lia. Qed.

Lemma start_of_day_le t : start_of_day t <= t < start_of_day t + ms_per_day.
Proof.
  unfold start_of_day, day_number, ms_per_day.
  Z.to_euclidean_division_equations. lia.
Qed.

(** The first of the month is not after any day of that month. *)
Lemma month_start_le (now t : Z) :
  getMonth t = getMonth now -> getFullYear t = getFullYear now ->
  start_of_month now <= t.
Proof.
  unfold getMonth, getFullYear, start_of_month. intros Hm Hy.
  pose proof (days_from_civil_from_days (day_number t)) as Ht.
  destruct (civil_from_days (day_number t)) as [[y m] d].
  destruct (civil_from_days (day_number now)) as [[y' m'] d'].
  cbn in Hm, Hy. subst y' m'. destruct Ht as (Ht & Hd & _).
  rewrite (days_from_civil_day y m d), Ht.
  pose proof (start_of_day_le t) as Hs. unfold start_of_day in Hs.
  unfold ms_per_day in *. nia.
Qed.

Lemma today_in_month (now t : Z) :
  day_number t = day_number now -> start_of_month now <= t.
Proof.
  intros Hd. apply month_start_le; unfold getMonth, getFullYear;
    now rewrite Hd.
Qed.

Lemma week_start_bounds (now : Z) :
  now - 7 * 24 * 60 * 60 * 1000 < js_week_start now <= start_of_day now.
Proof.
  pose proof (start_of_day_le now) as Hs.
  unfold js_week_start, getDay, ms_per_day in *.
  pose proof (Z.mod_pos_bound (day_number now + 4) 7 ltac:(lia)). lia.
Qed.

(** X11: the three periods of the hook nest: today's expenses are exactly
    those of this week that are dated today, and exactly those of this
    month that are dated today; nothing dated today falls outside the week
    or the month. *)
Theorem today_within_week_and_month (now : Z) (l : list FoodExpense) :
  getTodayExpenses now (getWeekExpenses now l) = getTodayExpenses now l
  /\ getTodayExpenses now (getMonthExpenses now l) = getTodayExpenses now l.
Proof.
  unfold getTodayExpenses, getWeekExpenses, getMonthExpenses.
  split; apply filter_filter_implied; intros e He;
    apply Z.eqb_eq in He; apply Z.leb_le.
  - pose proof (week_start_bounds now) as Hw.
    pose proof (start_of_day_le (date (fields e))) as Hs.
    unfold start_of_day in *. rewrite He in Hs. lia.
  - now apply today_in_month.
Qed.

(** X12: the list of the page against the totals of the hook, with the
    clock in UTC (a day always has 24 hours).  Under the filter [month] the
    page shows only entries the month total counts, and under [week] it
    shows every entry the week total counts; under [today] it shows exactly
    the entries of the today total. *)
Theorem page_periods_against_hook (now : Z) (l : list FoodExpense) :
  shown month now (getMonthExpenses now l) = shown month now l
  /\ getWeekExpenses now (shown week now l) = getWeekExpenses now l
  /\ shown today now l = getTodayExpenses now l.
Proof.
  unfold shown, getMonthExpenses, getWeekExpenses, getTodayExpenses.
  split; [|split; [|reflexivity]]; apply filter_filter_implied; intros e He.
  - apply andb_prop in He as [Hm Hy].
    apply Z.eqb_eq in Hm, Hy. apply Z.leb_le.
    now apply month_start_le.
  - apply Z.leb_le in He. apply Z.leb_le.
    pose proof (week_start_bounds now). lia.
Qed.

(** Neither inclusion is an equality: an entry dated next month counts
    towards the month total and is not shown under [month], and an entry
    of six days ago is shown under [week] and is not in the week total. *)
Example month_total_counts_what_is_not_shown :
  getMonthExpenses Samples.noon [Cases.ahead] = [Cases.ahead]
  /\ shown month Samples.noon [Cases.ahead] = [].
Proof. split; reflexivity. Qed.

Example week_shows_what_is_not_counted :
  shown week Samples.noon [Cases.last_saturday] = [Cases.last_saturday]
  /\ getWeekExpenses Samples.noon [Cases.last_saturday] = [].
Proof. split; reflexivity. Qed.

End PeriodFacts.


(* ------------------------------------------------------------------ *)
(** ** The status filter and the status counts *)

Section PageFacts.
Import Ledger Pages.

Lemma statusCount_cons s x l :
  statusCount s (x :: l)
  = ((if Expenses.ExpenseStatus_eqb (status (fields x)) s then 1 else 0)
     + statusCount s l)%nat.
Proof.
  unfold statusCount. cbn [filter].
  now destruct (Expenses.ExpenseStatus_eqb (status (fields x)) s).
Qed.

(** X13: the four status counts of the page add up to the number of
    expenses, so every expense is counted under exactly one status; with
    the type filter at [all], the list filtered by a status has as many
    entries as that status' count, and with both filters at [all] the list
    is the whole collection. *)
Theorem status_counts_partition (l : list FoodExpense) :
  (statusCount Expenses.pending l + statusCount Expenses.completed l
   + statusCount Expenses.failed l + statusCount Expenses.cancelled l
   = List.length l)%nat
  /\ (forall s,
        List.length (filteredExpenses (Some s) None l) = statusCount s l)
  /\ filteredExpenses None None l = l.
Proof.
  split; [|split].
  - induction l as [|x l IH]; [reflexivity|].
    rewrite !statusCount_cons. cbn [List.length].
    destruct (status (fields x)); cbn; lia.
  - intros s. unfold filteredExpenses, statusCount. f_equal.
    apply filter_ext. intros e. cbn. now rewrite andb_true_r.
  - unfold filteredExpenses. cbn.
    induction l as [|x l IH]; cbn; [reflexivity | now rewrite IH].
Qed.

End PageFacts.


(* ------------------------------------------------------------------ *)
(** ** Favourites *)

Section FavoriteFacts.
Import Favorites.
Local Open Scope string_scope.

Lemma isFavorite_In l r : isFavorite l r = true <-> In r l.
Proof.
  unfold isFavorite. rewrite existsb_exists. split.
  - intros (x & Hx & E). apply String.eqb_eq in E. now subst.
  - intros H. exists r. split; [exact H | apply String.eqb_refl].
Qed.

Lemma isFavorite_false l r : isFavorite l r = false <-> ~ In r l.
Proof.
  rewrite <- isFavorite_In. now destruct (isFavorite l r).
Qed.

Lemma remove_absent r l :
  ~ In r l -> filter (fun id => negb (id =? r)) l = l.
Proof.
  induction l as [|x l IH]; cbn; intros H; [reflexivity|].
  destruct (String.eqb_spec x r) as [->|Hne]; cbn.
  - exfalso. apply H. now left.
  - rewrite IH; [reflexivity|]. intros Hin. apply H. now right.
Qed.

(** X14: toggling a restaurant flips whether it is a favourite and leaves
    every other restaurant as it was; a list without repetitions stays
    without repetitions; and adding a restaurant and removing it again
    gives the list back. *)
Theorem toggleFavorite_flips (r : string) (prev : list string)
  (Hnd : NoDup prev) :
  isFavorite (toggleFavorite r prev) r = negb (isFavorite prev r)
  /\ (forall r', r' <> r ->
        isFavorite (toggleFavorite r prev) r' = isFavorite prev r')
  /\ NoDup (toggleFavorite r prev)
  /\ (isFavorite prev r = false ->
      toggleFavorite r (toggleFavorite r prev) = prev).
Proof.
  unfold toggleFavorite at 1 2 3.
  destruct (isFavorite prev r) eqn:E.
  - split; [|split; [|split]].
    + apply isFavorite_false. rewrite filter_In.
      intros [_ H]. now rewrite String.eqb_refl in H.
    + intros r' Hne.
      destruct (isFavorite prev r') eqn:E'.
      * apply isFavorite_In. apply isFavorite_In in E'.
        apply filter_In. split; [exact E'|].
        destruct (String.eqb_spec r' r); [contradiction | reflexivity].
      * apply isFavorite_false. apply isFavorite_false in E'.
        rewrite filter_In. tauto.
    + now apply NoDup_filter.
    + discriminate.
  - pose proof E as E0. apply isFavorite_false in E.
    split; [|split; [|split]].
    + apply isFavorite_In. apply in_or_app. right. now left.
    + intros r' Hne.
      destruct (isFavorite prev r') eqn:E'.
      * apply isFavorite_In. apply isFavorite_In in E'.
        apply in_or_app. now left.
      * apply isFavorite_false. apply isFavorite_false in E'.
        intros Hin. apply in_app_or in Hin as [Hin|[Hin|[]]]; congruence.
    + apply NoDup_app; [exact Hnd | repeat constructor; intros [] |].
      intros x Hx [<-|[]]. contradiction.
    + intros _. unfold toggleFavorite. rewrite E0.
      assert (Hin : isFavorite (prev ++ [r]) r = true).
      { apply isFavorite_In. apply in_or_app. right. now left. }
      rewrite Hin. rewrite filter_app. cbn. rewrite String.eqb_refl. cbn.
      rewrite app_nil_r. now apply remove_absent.
Qed.

Lemma toggleFavorite_flips_witness :
  NoDup ["r1"; "r2"]
  /\ isFavorite (toggleFavorite "r2" ["r1"; "r2"]) "r2" = false
  /\ toggleFavorite "r3" (toggleFavorite "r3" ["r1"; "r2"]) = ["r1"; "r2"].
Proof.
  assert (H : NoDup ["r1"; "r2"]).
  { repeat constructor; cbn; intros Hin;
      repeat destruct Hin as [Hin|Hin]; try discriminate Hin; exact Hin. }
  split; [exact H|]. split.
  - exact (proj1 (toggleFavorite_flips "r2" ["r1"; "r2"] H)).
  - exact (proj2 (proj2 (proj2 (toggleFavorite_flips "r3" ["r1"; "r2"] H)))
             eq_refl).
Defined.

End FavoriteFacts.


(* ------------------------------------------------------------------ *)
(** ** The [expense_statistics] view *)

Section StatisticsFacts.
Import Sql Expenses Statistics.
Local Open Scope string_scope.

Lemma same_user_eq a b : same_user a b = true <-> a = b.
Proof.
  destruct a as [x|], b as [y|]; cbn; try (split; congruence).
  rewrite String.eqb_eq. split; congruence.
Qed.

Lemma groups_In g t : In g (groups t) <-> exists r, In r t /\ user_id r = g.
Proof.
  induction t as [|r t IH]; cbn [groups].
  - split; [intros [] | intros (r & [] & _)].
  - split.
    + intros [<-|Hin].
      * exists r. split; [now left | reflexivity].
      * apply filter_In in Hin as [Hin _]. apply IH in Hin as (r' & Hr' & E).
        exists r'. split; [now right | exact E].
    + intros (r' & [<-|Hr'] & E); [now left|].
      destruct (same_user g (user_id r)) eqn:Es.
      * left. apply same_user_eq in Es. congruence.
      * right. apply filter_In. split; [|now rewrite Es].
        apply IH. now exists r'.
Qed.

Lemma groups_NoDup t : NoDup (groups t).
Proof.
  induction t as [|r t IH]; cbn [groups]; constructor.
  - rewrite filter_In. intros [_ H].
    assert (E : same_user (user_id r) (user_id r) = true)
      by now apply same_user_eq.
    now rewrite E in H.
  - now apply NoDup_filter.
Qed.

Lemma view_users t : map s_user_id (expense_statistics t) = groups t.
Proof.
  unfold expense_statistics. rewrite map_map. cbn. apply map_id.
Qed.

Lemma status_counts_sum (rows : list food_order) :
  (count_where (status_is completed) rows
   + count_where (status_is pending) rows
   + count_where (status_is failed) rows
   + count_where (status_is cancelled) rows
   = count_where (fun r => Some (negb (is_true (is_null (status r)))))
       rows)%nat.
Proof.
  unfold count_where, status_is.
  induction rows as [|r rows IH]; [reflexivity|].
  cbn [filter]. destruct (status r) as [[]|]; cbn in *; lia.
Qed.

Lemma sum_where_none c rows :
  sum_where c rows = None <-> forall r, In r rows -> is_true (c r) = false.
Proof.
  unfold sum_where.
  destruct (filter (fun r => is_true (c r)) rows) as [|x kept] eqn:E.
  - split; [|reflexivity]. intros _ r Hr.
    destruct (is_true (c r)) eqn:Ec; [|reflexivity].
    assert (Hin : In r (filter (fun r => is_true (c r)) rows))
      by (apply filter_In; now split).
    rewrite E in Hin. destruct Hin.
  - split; [discriminate|]. intros H.
    assert (Hin : In x (filter (fun r => is_true (c r)) rows))
      by (rewrite E; now left).
    apply filter_In in Hin as [Hx Hc]. rewrite (H x Hx) in Hc.
    discriminate.
Qed.

(** X15: the view has one row for each user that owns a row of
    [food_orders] (the rows without a user forming one group) and none for
    anybody else; in each row the four status counts add up to the number
    of that user's rows whose status is not NULL; and [total_expenses] is
    NULL, not 0, exactly when the user has no completed row of type
    [expense]. *)
Theorem expense_statistics_rows (t : list food_order) :
  NoDup (map s_user_id (expense_statistics t))
  /\ (forall g, In g (map s_user_id (expense_statistics t))
                <-> exists r, In r t /\ user_id r = g)
  /\ forall s, In s (expense_statistics t) ->
       let rows := filter (fun r => same_user (user_id r) (s_user_id s)) t in
       (completed_count s + pending_count s + failed_count s
        + cancelled_count s
        = count_where (fun r => Some (negb (is_true (is_null (status r)))))
            rows)%nat
       /\ (total_expenses s = None
           <-> forall r, In r t -> user_id r = s_user_id s ->
                 ~ (status r = Some completed
                    /\ transaction_type r = Some expense)).
Proof.
  rewrite view_users. split; [apply groups_NoDup|].
  split; [intros g; apply groups_In|].
  intros s Hs. unfold expense_statistics in Hs.
  apply in_map_iff in Hs as (g & <- & _). cbn. split.
  - apply status_counts_sum.
  - rewrite sum_where_none. split.
    + intros H r Hr Hu [Hst Hty].
      assert (Hin : In r (filter (fun r => same_user (user_id r) g) t)).
      { apply filter_In. split; [exact Hr | now apply same_user_eq]. }
      specialize (H r Hin). unfold status_is, type_is in H.
      rewrite Hst, Hty in H. discriminate H.
    + intros H r Hr. apply filter_In in Hr as [Hr Hu].
      apply same_user_eq in Hu. specialize (H r Hr Hu).
      unfold status_is, type_is.
      destruct (status r) as [[]|], (transaction_type r) as [[]|];
        cbn; try reflexivity.
      exfalso. apply H. now split.
Qed.

End StatisticsFacts.


(* ------------------------------------------------------------------ *)
(** ** The budget alert of the hook, on the row [get_budget_usage] returns *)

Section AlertFacts.
Import Sql Expenses Statistics.
Local Open Scope Q_scope.

(** [ROUND(x, 2)] leaves a number of hundredths as it is. *)
Lemma ROUND2_hundredths (k : Z) : ROUND2 (inject_Z k / 100) == inject_Z k / 100.
Proof.
  destruct (ROUND2_spec (inject_Z k / 100)) as ((j & Hj) & Hpos & Hneg).
  rewrite Hj.
  assert (Hjk : (j = k)%Z); [|now subst].
  destruct (Qlt_le_dec (inject_Z k / 100) 0) as [Hlt|Hle].
  - destruct (Hneg Hlt) as [H1 H2]. rewrite Hj in H1, H2.
    revert H1 H2. unfold Qle, Qlt, Qdiv, Qmult, Qinv, Qminus, Qplus, Qopp,
      inject_Z; cbn. lia.
  - destruct (Hpos Hle) as [H1 H2]. rewrite Hj in H1, H2.
    revert H1 H2. unfold Qle, Qlt, Qdiv, Qmult, Qinv, Qminus, Qplus, Qopp,
      inject_Z; cbn. lia.
Qed.

(** X16: the hook shows a budget toast exactly when alerts are enabled and
    the database row says [should_alert]; the toast is the one for an
    exceeded budget exactly when, besides, the rounded percentage is at
    least 100, and the warning otherwise.  For a threshold with two
    decimals, as the column holds, the branch that shows nothing although
    [should_alert] is true is never taken. *)
Theorem budget_alert_follows_should_alert
  (budgets : list user_budget) (orders : list food_order)
  (now : timestamp) (p_user_id : option uuid) (p_period : string)
  (enableAlerts : bool) :
  let u := get_budget_usage budgets orders now p_user_id p_period in
  (exists k : Z, u_alert_threshold u == inject_Z k / 100) ->
  (budget_alert enableAlerts u <> None
   <-> enableAlerts = true /\ should_alert u = Some true)
  /\ (budget_alert enableAlerts u = Some exceeded
      <-> enableAlerts = true /\ should_alert u = Some true
          /\ exists p, percentage_used u = Some p /\ 100 <= p).
Proof.
  unfold get_budget_usage.
  destruct (select_budget budgets p_user_id p_period) as [b t].
  set (v_budget := match b with Some x => x | None => _ end).
  set (v_threshold := match t with Some x => x | None => 80 end).
  set (spent := v_spent orders now p_user_id p_period).
  cbn [u_alert_threshold should_alert percentage_used]. intros (k & Hk).
  unfold budget_alert.
  cbn [u_alert_threshold should_alert percentage_used].
  destruct (raw_percentage spent v_budget) as [raw|]; cbn [option_map].
  - destruct (Qle_bool v_threshold raw) eqn:Eth.
    + assert (Hround : Qle_bool v_threshold (ROUND2 raw) = true).
      { apply Qle_bool_iff. apply Qle_bool_iff in Eth.
        rewrite Hk in Eth. apply ROUND2_monotone in Eth.
        rewrite ROUND2_hundredths in Eth. now rewrite Hk. }
      rewrite Hround.
      destruct enableAlerts; cbn [andb].
      * destruct (Qle_bool 100 (ROUND2 raw)) eqn:E100.
        -- split; split; try discriminate; try tauto.
           intros _. repeat split. exists (ROUND2 raw).
           split; [reflexivity | now apply Qle_bool_iff].
        -- split; split; try discriminate; try tauto.
           intros (_ & _ & p & Hp & Hle). injection Hp as <-.
           apply Qle_bool_iff in Hle. congruence.
      * split; split; try congruence; intros [H _]; discriminate H.
    + cbn [andb]. split; split; try congruence.
      * intros [_ H]; discriminate H.
      * intros (_ & H & _); discriminate H.
  - cbn [andb]. split; split; try congruence.
    + intros [_ H]; discriminate H.
    + intros (_ & H & _); discriminate H.
Qed.

Lemma budget_alert_follows_should_alert_witness :
  (exists k : Z,
      u_alert_threshold
        (get_budget_usage [mkBudget None None None (Some 250) None]
           Samples.mixed Samples.noon None "monthly")
      == inject_Z k / 100)
  /\ budget_alert true
       (get_budget_usage [mkBudget None None None (Some 250) None]
          Samples.mixed Samples.noon None "monthly")
     = Some exceeded.
Proof.
  assert (H : exists k : Z,
             u_alert_threshold
               (get_budget_usage [mkBudget None None None (Some 250) None]
                  Samples.mixed Samples.noon None "monthly")
             == inject_Z k / 100)
    by (exists 8000%Z; reflexivity).
  split; [exact H|].
  apply (proj2 (budget_alert_follows_should_alert
                  [mkBudget None None None (Some 250) None]
                  Samples.mixed Samples.noon None "monthly" true H)).
  split; [reflexivity|]. split; [reflexivity|].
  eexists. split; [reflexivity|]. vm_compute. discriminate.
Defined.

End AlertFacts.


(* ------------------------------------------------------------------ *)
(** ** Order numbers *)

Section OrderNumberFacts.
Import Delivery.
Local Open Scope string_scope.

Lemma prefix_append (p s : string) : prefix p (p ++ s) = true.
Proof.
  induction p as [|c p IH]; cbn.
  - now destruct s.
  - destruct (ascii_dec c c); [exact IH | contradiction].
Qed.

Lemma append_cancel (p a b : string) : p ++ a = p ++ b -> a = b.
Proof.
  induction p as [|c p IH]; cbn; intros H; [exact H|].
  injection H as H. now apply IH.
Qed.

(** Read back as a number, the four characters are the counter, up to
    9999. *)
Lemma four_digits_LPAD (n : Z) :
  (0 <= n < 10000)%Z -> four_digits (LPAD (to_text n) 4) = n.
Proof.
  intros Hn.
  assert (Hall : forallb (fun n => four_digits (LPAD (to_text n) 4) =? n)%Z
                   (Split.range 0 (Z.to_nat 10000)) = true)
    by (vm_compute; reflexivity).
  rewrite forallb_forall in Hall.
  apply Z.eqb_eq, Hall, range_In. lia.
Qed.

(** X17: as long as today's orders carry the numbers the function gave
    them, one after the other, and there are fewer than 9999 of them, the
    number it generates next is carried by no order of the table. *)
Theorem generate_order_number_fresh (t : list Orders.order_row)
  (now : Sql.timestamp) :
  (v_count t (TO_CHAR_YYYYMMDD now) < 9999)%Z ->
  (forall o, In o t ->
     prefix (TO_CHAR_YYYYMMDD now) (Orders.order_number o) = true ->
     exists i, (1 <= i <= v_count t (TO_CHAR_YYYYMMDD now))%Z
               /\ Orders.order_number o
                  = TO_CHAR_YYYYMMDD now ++ LPAD (to_text i) 4) ->
  forall o, In o t -> Orders.order_number o <> generate_order_number t now.
Proof.
  intros Hn Hseq o Ho Heq. unfold generate_order_number in Heq.
  assert (Hp : prefix (TO_CHAR_YYYYMMDD now) (Orders.order_number o) = true)
    by (rewrite Heq; apply prefix_append).
  destruct (Hseq o Ho Hp) as (i & Hi & Hnum).
  rewrite Hnum in Heq. apply append_cancel in Heq.
  apply (f_equal four_digits) in Heq.
  rewrite !four_digits_LPAD in Heq by lia. lia.
Qed.

Lemma generate_order_number_fresh_witness :
  Orders.order_number Samples.order1
  <> generate_order_number [Samples.order1] Samples.noon.
Proof.
  apply (generate_order_number_fresh [Samples.order1] Samples.noon).
  - vm_compute. reflexivity.
  - intros o [<-|[]] _. exists 1%Z.
    split; [vm_compute; split; discriminate | reflexivity].
  - now left.
Defined.

(** X18: the counter is cut to four characters: with 9999 orders on a day
    the function generates the number it generated with 999, so from the
    ten-thousandth order of a day on the numbers repeat. *)
Theorem generate_order_number_repeats (t t' : list Orders.order_row)
  (now : Sql.timestamp) :
  v_count t (TO_CHAR_YYYYMMDD now) = 999%Z ->
  v_count t' (TO_CHAR_YYYYMMDD now) = 9999%Z ->
  generate_order_number t' now = generate_order_number t now.
Proof.
  intros H H'. unfold generate_order_number. rewrite H, H'.
  f_equal.
Qed.

Lemma generate_order_number_repeats_witness :
  generate_order_number (Cases.busy_day 9999) Samples.noon
  = generate_order_number (Cases.busy_day 999) Samples.noon
  /\ generate_order_number (Cases.busy_day 999) Samples.noon
     = "202602061000".
Proof.
  split.
  - apply (generate_order_number_repeats (Cases.busy_day 999)
             (Cases.busy_day 9999) Samples.noon);
      vm_compute; reflexivity.
  - vm_compute. reflexivity.
Defined.

End OrderNumberFacts.


(* ------------------------------------------------------------------ *)
(** ** Nearby restaurants *)

Section NearbyFacts.
Import Delivery.
Local Open Scope Q_scope.

Variable calculate_distance : Q -> Q -> Q -> Q -> Q.
Variable estimate_delivery_time : Q -> option Z -> option Z.

Lemma insert_by_distance_perm r l :
  Permutation (insert_by_distance r l) (r :: l).
Proof.
  induction l as [|x l IH]; cbn [insert_by_distance]; [reflexivity|].
  destruct (Qle_bool (distance r) (distance x)); [reflexivity|].
  rewrite IH. apply perm_swap.
Qed.

Lemma order_by_distance_perm l : Permutation (order_by_distance l) l.
Proof.
  unfold order_by_distance. induction l as [|x l IH]; cbn [fold_right];
    [reflexivity|].
  rewrite insert_by_distance_perm. now constructor.
Qed.

Lemma insert_by_distance_sorted r l :
  StronglySorted (fun a b => distance a <= distance b) l ->
  StronglySorted (fun a b => distance a <= distance b)
                 (insert_by_distance r l).
Proof.
  induction l as [|x l IH]; intros Hs; cbn [insert_by_distance].
  - repeat constructor.
  - apply StronglySorted_inv in Hs as [Hl Hx].
    destruct (Qle_bool (distance r) (distance x)) eqn:E.
    + apply Qle_bool_iff in E.
      constructor; [now constructor|].
      constructor; [exact E|].
      eapply Forall_impl; [|exact Hx]. cbn. intros a Ha.
      now apply Qle_trans with (distance x).
    + apply Qle_bool_false in E.
      constructor; [now apply IH|].
      eapply Permutation_Forall; [symmetry; apply insert_by_distance_perm|].
      constructor; [now apply Qlt_le_weak | exact Hx].
Qed.

Lemma order_by_distance_sorted l :
  StronglySorted (fun a b => distance a <= distance b) (order_by_distance l).
Proof.
  unfold order_by_distance. induction l as [|x l IH]; cbn [fold_right].
  - constructor.
  - now apply insert_by_distance_sorted.
Qed.

(** X19: whatever the distance and the delivery estimate are,
    [get_nearby_restaurants] returns one row for each restaurant that is
    open and within the maximal distance, and no other row: a restaurant
    that is closed, or whose [is_open] is NULL, or that lies farther away,
    is left out; the rows come nearest first. *)
Theorem get_nearby_restaurants_rows (t : list restaurant_location)
  (p_user_lat p_user_lon p_max_distance : Q) :
  let result :=
    get_nearby_restaurants calculate_distance estimate_delivery_time
      t p_user_lat p_user_lon p_max_distance in
  let d rl :=
    calculate_distance p_user_lat p_user_lon (latitude rl) (longitude rl) in
  StronglySorted (fun a b => distance a <= distance b) result
  /\ (forall row,
        In row result
        <-> exists rl,
              In rl t /\ is_open rl = Some true /\ d rl <= p_max_distance
              /\ row = nearby_select calculate_distance
                         estimate_delivery_time p_user_lat p_user_lon rl)
  /\ List.length result
     = List.length
         (filter (fun rl => Qle_bool (d rl) p_max_distance
                            && match is_open rl with
                               | Some true => true
                               | _ => false
                               end) t)
  /\ forall row, In row result ->
       n_is_open row = Some true /\ distance row <= p_max_distance.
Proof.
  cbv zeta. unfold get_nearby_restaurants.
  set (kept := filter _ t).
  set (rows := map _ kept).
  pose proof (order_by_distance_perm rows) as Hp.
  assert (Hin : forall row,
             In row (order_by_distance rows)
             <-> exists rl,
                   In rl t /\ is_open rl = Some true
                   /\ calculate_distance p_user_lat p_user_lon
                        (latitude rl) (longitude rl) <= p_max_distance
                   /\ row = nearby_select calculate_distance
                              estimate_delivery_time p_user_lat p_user_lon
                              rl).
  { intros row. split.
    - intros H. apply (Permutation_in _ Hp) in H.
      apply in_map_iff in H as (rl & <- & Hrl).
      apply filter_In in Hrl as [Hrl Hw]. unfold nearby_where in Hw.
      apply andb_prop in Hw as [Hd Ho]. apply Qle_bool_iff in Hd.
      exists rl. repeat split; try assumption.
      now destruct (is_open rl) as [[]|].
    - intros (rl & Hrl & Ho & Hd & ->).
      apply (Permutation_in _ (Permutation_sym Hp)).
      apply in_map. apply filter_In. split; [exact Hrl|].
      unfold nearby_where. rewrite Ho.
      apply Qle_bool_iff in Hd. now rewrite Hd. }
  split; [apply order_by_distance_sorted|].
  split; [exact Hin|]. split.
  - rewrite (Permutation_length Hp). unfold rows. now rewrite length_map.
  - intros row H. apply Hin in H as (rl & _ & Ho & Hd & ->).
    cbn. now split.
Qed.

End NearbyFacts.


(* ------------------------------------------------------------------ *)
(** ** The add-transaction modal *)

Section ModalFacts.
Import Ledger Modal.
Local Open Scope string_scope.

Variable parseFloat : string -> option Q.
Variable parseInt : string -> option Z.
Variable canAddExpense : Q -> bool.
Variable confirm : bool.
Variable splitExpenseEqually : Q -> Z -> list (Split.SplitShare Q).
Variable shares_add_up : list (Split.SplitShare Q) -> Q -> bool.

(** X20: what [handleSubmit] hands to [onAdd].  The amount parsed to a
    number above 0 and the description is the trimmed, non-empty text; an
    expense or split over the budget was confirmed by the user; a
    transaction that is not a split carries the parsed amount and no split
    data; a split is between at least two people, keeps the parsed amount
    as [splitTotal], carries a non-empty list of shares and is recorded
    with the amount of the first share; manual shares are as many as the
    people and passed the check that they add up to the amount. *)
Theorem handleSubmit_added (now : Z) (f : modal_form) (e : ExpenseFields) :
  handleSubmit parseFloat parseInt canAddExpense confirm splitExpenseEqually
    shares_add_up now f = Added e ->
  exists amountNum,
    parseFloat (m_amount f) = Some amountNum /\ (0 < amountNum)%Q
    /\ foodName e = trim (m_foodName f) /\ foodName e <> ""
    /\ status e = Expenses.completed
    /\ transactionType e = m_transactionType f
    /\ date e = now
    /\ (m_transactionType f <> Expenses.income ->
        canAddExpense amountNum = true \/ confirm = true)
    /\ match m_transactionType f with
       | Expenses.split =>
           isSplit e = true /\ splitTotal e = Some amountNum
           /\ splitMethod e = Some (m_splitMethod f)
           /\ exists people first rest,
                parseInt (m_splitPeople f) = Some people
                /\ (2 <= people)%Z
                /\ splitPeople e = Some people
                /\ splitShares e = Some (first :: rest)
                /\ amount e = Split.amount first
                /\ match m_splitMethod f with
                   | Expenses.equal =>
                       first :: rest = splitExpenseEqually amountNum people
                   | Expenses.manual =>
                       first :: rest = manualShares f
                       /\ Z.of_nat (List.length (manualShares f)) = people
                       /\ shares_add_up (manualShares f) amountNum = true
                   end
       | _ =>
           isSplit e = false /\ amount e = amountNum
           /\ splitTotal e = None /\ splitPeople e = None
           /\ splitMethod e = None /\ splitShares e = None
       end.
Proof.
  unfold handleSubmit.
  destruct (parseFloat (m_amount f)) as [amountNum|]; [|discriminate].
  destruct (Qle_bool amountNum 0) eqn:Epos; [discriminate|].
  apply Qle_bool_false in Epos.
  destruct (String.eqb_spec (trim (m_foodName f)) "") as [|Hname];
    [discriminate|].
  destruct (is_expense_or_split (m_transactionType f)
            && negb (canAddExpense amountNum) && negb confirm) eqn:Ebudget;
    [discriminate|].
  assert (Hbudget : m_transactionType f <> Expenses.income ->
                    canAddExpense amountNum = true \/ confirm = true).
  { intros Hty. destruct (canAddExpense amountNum); [now left|].
    destruct confirm; [now right|].
    destruct (m_transactionType f); [contradiction | |]; discriminate. }
  clear Ebudget. unfold submit_checked. intros H.
  exists amountNum. split; [reflexivity|]. split; [exact Epos|].
  destruct (m_transactionType f) eqn:Ety; cbn [is_split] in H.
  - injection H as <-. unfold build. rewrite Ety. cbn.
    repeat (split; [solve [auto]|]). auto.
  - injection H as <-. unfold build. rewrite Ety. cbn.
    repeat (split; [solve [auto]|]). auto.
  - destruct (parseInt (m_splitPeople f)) as [people|]; [|discriminate].
    destruct (Z.ltb_spec people 2) as [|Hpeople]; [discriminate|].
    destruct (m_splitMethod f) eqn:Emethod.
    + destruct (splitExpenseEqually amountNum people) as [|first rest] eqn:Es;
        [discriminate|]. symmetry in Es.
      injection H as <-. unfold build. rewrite Ety. cbn.
      rewrite ?Emethod. repeat (split; [solve [auto]|]).
      exists people, first, rest. repeat (split; [solve [auto]|]).
      auto.
    + destruct (Z.eqb_spec (Z.of_nat (List.length (manualShares f))) people)
        as [Hlen|]; [|discriminate].
      cbn [negb] in H.
      destruct (shares_add_up (manualShares f) amountNum) eqn:Eadd;
        [|discriminate]. cbn [negb] in H.
      destruct (manualShares f) as [|first rest] eqn:Es; [discriminate|].
      injection H as <-. unfold build. rewrite Ety. cbn.
      rewrite ?Emethod. repeat (split; [solve [auto]|]).
      exists people, first, rest. repeat (split; [solve [auto]|]).
      auto.
Qed.

End ModalFacts.

Lemma handleSubmit_added_witness :
  exists e amountNum,
    Modal.handleSubmit Samples.parse_sample Cases.parse_people
      (fun _ => true) false Cases.exact_shares (fun _ _ => true)
      Samples.noon Cases.split_form
    = Modal.Added e
    /\ Samples.parse_sample "120.50"%string = Some amountNum
    /\ (0 < amountNum)%Q
    /\ Ledger.foodName e = "Thali"%string.
Proof.
  set (r := Modal.handleSubmit Samples.parse_sample Cases.parse_people
              (fun _ => true) false Cases.exact_shares (fun _ _ => true)
              Samples.noon Cases.split_form).
  assert (H : r = Modal.Added
                    match r with
                    | Modal.Added e => e
                    | _ => Samples.blank
                    end)
    by (vm_compute; reflexivity).
  destruct (handleSubmit_added Samples.parse_sample Cases.parse_people
              (fun _ => true) false Cases.exact_shares (fun _ _ => true)
              Samples.noon Cases.split_form _ H)
    as (a & Ha & Hpos & Hname & _).
  eexists. exists a. split; [exact H|]. split; [exact Ha|].
  split; [exact Hpos | exact Hname].
Defined.

(** White space outside ASCII counts as blank here too: a description made
    of a no-break space is turned away. *)
Example handleSubmit_unicode_space :
  Modal.handleSubmit Samples.parse_sample Cases.parse_people
    (fun _ => true) false Cases.exact_shares (fun _ _ => true) Samples.noon
    (Modal.mkModal Expenses.expense "120.50"%string (Ledger.utf8 160)
       ""%string "lunch"%string "dine-in"%string "2"%string Expenses.equal [])
  = Modal.Rejected "Please enter a description"%string.
Proof. reflexivity. Qed.
